(** * Crystal3D: verification of the CIF -> OBJ -> USDZ conversion core

  A shallow embedding of the conversion pipeline of the repository:

  - [ASEConverter] and [PymatgenConverter] (src/ase_converter.py,
    src/pymatgen_converter.py): bond inference and sphere tessellation;
  - [ReliableCIFConverter] (src/converter/reliable_cif_converter.py): the
    ordered chain of CIF parsing backends;
  - [MaterialStandardizer] (src/converter/material_standardizer.py): the
    material renaming and recolouring pass over an OBJ/MTL pair;
  - [CIFToUSDZConverter] (src/converter/main_converter.py): the
    orchestrator and its chain of USDZ packaging backends.

  Conventions.  Python exceptions are explicit: a call that may raise
  returns an [outcome].  Third-party libraries (ASE, pymatgen, the USD
  tool chains) and the operating system are parameters of the model; the
  control flow around them is the repository's.  Python floats are
  idealised: real numbers for geometry, rationals for colours. *)

From Stdlib Require Import ZArith QArith Qround Reals Lia Lra List String Ascii Bool.
From stdpp Require Import base gmap strings list pretty.

Local Open Scope string_scope.
Local Open Scope list_scope.

(** ** Python values shared by all modules *)

Module Py.

(** An exception, identified by what [str(e)] prints. *)
Inductive exn : Type :=
| Exception (msg : string).

Definition str (e : exn) : string :=
  match e with Exception msg => msg end.

(** The result of a call that may raise. *)
Inductive outcome (A : Type) : Type :=
| Ret (a : A)
| Raise (e : exn).

Arguments Ret {A} a.
Arguments Raise {A} e.

Definition raised {A} (o : outcome A) : bool :=
  match o with Ret _ => false | Raise _ => true end.

(** [range(n)] *)
Definition range (n : nat) : list nat := seq 0 n.

End Py.

Import Py.

(** ** Python strings *)

Module PyStr.

(** [s.startswith(p)] *)
Definition startswith (p s : string) : bool := String.prefix p s.

(** [s.replace(old, new)] for a non-empty [old]: occurrences are replaced
    from left to right and do not overlap.  [skip] counts the characters of
    a matched occurrence that are still to be dropped. *)
Fixpoint replace_aux (old new : string) (skip : nat) (s : string) : string :=
  match s with
  | EmptyString => EmptyString
  | String c s' =>
      match skip with
      | S k => replace_aux old new k s'
      | O =>
          if startswith old s
          then new ++ replace_aux old new (String.length old - 1) s'
          else String c (replace_aux old new 0 s')
      end
  end.

Definition replace (old new s : string) : string := replace_aux old new 0 s.

(** [os.path.basename(p)]: what follows the last slash. *)
Fixpoint basename_aux (acc : string) (s : string) : string :=
  match s with
  | EmptyString => acc
  | String c s' =>
      if Ascii.eqb c "/"%char then basename_aux s' s' else basename_aux acc s'
  end.

Definition basename (p : string) : string := basename_aux p p.

(** The position of the last occurrence of [c] in [s]. *)
Fixpoint rindex (c : ascii) (s : string) (i : nat) (found : option nat) : option nat :=
  match s with
  | EmptyString => found
  | String x s' => rindex c s' (S i) (if Ascii.eqb x c then Some i else found)
  end.

(** [Path(p).stem] for a path that does not end in a slash: the last
    component without its last suffix. *)
Definition stem (p : string) : string :=
  let name := basename p in
  match rindex "."%char name 0 None with
  | Some i =>
      if (0 <? i)%nat && (i <? String.length name - 1)%nat
      then String.substring 0 i name
      else name
  | None => name
  end.

Fixpoint endswith_slash (s : string) : bool :=
  match s with
  | EmptyString => false
  | String c EmptyString => Ascii.eqb c "/"%char
  | String _ s' => endswith_slash s'
  end.

(** [os.path.join(a, b)] on POSIX. *)
Definition path_join (a b : string) : string :=
  if startswith "/" b then b
  else if String.eqb a "" || endswith_slash a then a ++ b
  else a ++ "/" ++ b.

(** [sep.join(parts)] *)
Fixpoint join (sep : string) (parts : list string) : string :=
  match parts with
  | [] => ""
  | [ x ] => x
  | x :: rest => x ++ sep ++ join sep rest
  end.

End PyStr.

(** ** Wavefront OBJ and MTL files, line by line *)

Module Wavefront.

(** An RGB colour; Python floats are idealised as rationals. *)
Definition color : Type := (Q * Q * Q)%type.

(** A line of an MTL file, as far as the repository tells lines apart. *)
Inductive mtl_line : Type :=
| Newmtl (name : string)       (* newmtl NAME *)
| Kd (c : color)               (* Kd r g b *)
| KdMalformed                  (* Kd with three operands or more, one of the first
                                  three not a number: float() raises *)
| KdShort                      (* Kd with fewer than three operands *)
| Ka (c : color)
| Ks (c : color)
| Ns (v : Q)
| Dissolve (v : Q)             (* d 1.0 *)
| MtlText (s : string).        (* comments, blank lines, everything else *)

(** A line of an OBJ file.  [Usemtl name rest] is a line that starts with
    "usemtl " and whose second token is [name]; [rest] is what follows the
    name on that line.  [UsemtlBare] starts with "usemtl " and has no second
    token. *)
Inductive obj_line : Type :=
| Mtllib (file : string)
| Usemtl (name : string) (rest : string)
| UsemtlBare
| Group (name : string)
| Vertex (x y z : R)
| Face (idx : list Z)
| ObjText (s : string).

Inductive file : Type :=
| ObjFile (lines : list obj_line)
| MtlFile (lines : list mtl_line).

End Wavefront.

Import Wavefront.

(** ** Geometry shared by the two mesh builders *)

Module Geometry.

Definition vec3 : Type := (R * R * R)%type.

(** [range(n)] for an [int] that may be zero or negative. *)
Definition zrange (n : Z) : list Z := map Z.of_nat (seq 0 (Z.to_nat n)).

Definition scale (v : vec3) (k : R) : vec3 :=
  let '(x, y, z) := v in (x * k, y * k, z * k)%R.

Definition vadd (a b : vec3) : vec3 :=
  let '(a1, a2, a3) := a in let '(b1, b2, b3) := b in (a1 + b1, a2 + b2, a3 + b3)%R.

Definition vsub (a b : vec3) : vec3 :=
  let '(a1, a2, a3) := a in let '(b1, b2, b3) := b in (a1 - b1, a2 - b2, a3 - b3)%R.

Definition cross (a b : vec3) : vec3 :=
  let '(a1, a2, a3) := a in let '(b1, b2, b3) := b in
  (a2 * b3 - a3 * b2, a3 * b1 - a1 * b3, a1 * b2 - a2 * b1)%R.

Definition norm (a : vec3) : R :=
  let '(a1, a2, a3) := a in sqrt (a1 * a1 + a2 * a2 + a3 * a3).

(** The vertex of ring [i], segment [j] of the latitude/longitude grid; both
    converters compute it with the same expressions. *)
Definition sphere_vertex (center : vec3) (radius : R) (resolution i j : Z) : vec3 :=
  let '(cx, cy, cz) := center in
  let lat := (PI * (-0.5 + IZR i / IZR resolution))%R in
  let lon := (2 * PI * IZR j / IZR (resolution * 2))%R in
  (cx + radius * cos lat * cos lon,
   cy + radius * cos lat * sin lon,
   cz + radius * sin lat)%R.

(** The vertex loops: rings [0 .. resolution], [2 * resolution] segments. *)
Definition sphere_vertices (center : vec3) (radius : R) (resolution : Z) : list vec3 :=
  flat_map (fun i => map (fun j => sphere_vertex center radius resolution i j)
                         (zrange (resolution * 2)))
           (zrange (resolution + 1)).

(** The ring a vertex index belongs to. *)
Definition ring_of (resolution k : Z) : Z := k / (resolution * 2).

(** Both indices lie on the same pole ring (ring 0 or ring [resolution]),
    where all vertices coincide. *)
Definition same_pole (resolution a b : Z) : bool :=
  ((ring_of resolution a =? 0) && (ring_of resolution b =? 0))%Z
  || ((ring_of resolution a =? resolution) && (ring_of resolution b =? resolution))%Z.

(** A triangle (zero-based vertex indices) with two corners on one pole
    ring: those two corners have the same position. *)
Definition pole_degenerate (resolution : Z) (t : Z * Z * Z) : bool :=
  let '(a, b, c) := t in
  same_pole resolution a b || same_pole resolution a c || same_pole resolution b c.

End Geometry.

Import Geometry.

(** ** PymatgenConverter (src/pymatgen_converter.py) *)

Module PymatgenConverter.

(** What [get_bonds] uses of pymatgen: the [CrystalNN] constructor and
    [nn.get_nn_info(structure, i)], a list of neighbours of which the keys
    [site_index] and [weight] are read. *)
Record Structure : Type := {
  structure_len : nat;
  crystal_nn : outcome (nat -> outcome (list (nat * R)))
}.

(** The loop of [get_bonds]: the inner try block skips an atom whose
    neighbour query raises. *)
Fixpoint get_bonds_loop (get_nn_info : nat -> outcome (list (nat * R)))
         (idxs : list nat) (bonds : list (nat * nat * R)) : list (nat * nat * R) :=
  match idxs with
  | [] => bonds
  | i :: rest =>
      match get_nn_info i with
      | Raise _ => get_bonds_loop get_nn_info rest bonds
      | Ret neighbors =>
          get_bonds_loop get_nn_info rest
            (bonds ++ map (fun n => (i, fst n, snd n))
                          (List.filter (fun n => (i <? fst n)%nat) neighbors))
      end
  end.

Definition get_bonds (structure : Structure) : list (nat * nat * R) :=
  match crystal_nn structure with
  | Raise _ => []
  | Ret nn => get_bonds_loop nn (range (structure_len structure)) []
  end.

(** The face loops of [create_sphere]: two triangles per grid cell, on
    every ring and without wrapping [first + 1]. *)
Definition sphere_faces (resolution : Z) : list (Z * Z * Z) :=
  flat_map (fun i =>
    flat_map (fun j =>
      let first := (i * (resolution * 2) + j)%Z in
      let second := (first + resolution * 2)%Z in
      [ (first, second, first + 1)%Z; (second, second + 1, first + 1)%Z ])
      (zrange (resolution * 2)))
    (zrange resolution).

(** [create_sphere]: [float(i) / resolution] raises ZeroDivisionError for
    [resolution = 0]; a negative resolution runs no loop at all. *)
Definition create_sphere (center : vec3) (radius : R) (resolution : Z)
  : outcome (list vec3 * list (Z * Z * Z)) :=
  if (resolution =? 0)%Z then Raise (Exception "float division by zero")
  else Ret (sphere_vertices center radius resolution, sphere_faces resolution).

End PymatgenConverter.

(** ** ASEConverter (src/ase_converter.py) *)

Module ASEConverter.

(** An [ase.Atoms] object as the converter reads it: the sites in order
    (cartesian position, chemical symbol) and the neighbour list ASE builds
    for it.  Building and updating the [NeighborList] may raise (for
    instance on a symbol missing from the cut-off table); of
    [nl.get_neighbors(i)] only the index array is read. *)
Record Atoms : Type := {
  sites : list (vec3 * string);
  neighbor_list : outcome (nat -> outcome (list nat))
}.

(** What the converter takes from its surroundings: [ase.data]'s covalent
    radius of a symbol ([None]: the lookup raises KeyError), the iteration
    order of a Python [set], and whether a path can be written. *)
Record Env : Type := {
  covalent_radius : string -> option R;
  set_order : list string -> list string;
  can_write : string -> bool
}.

Definition cpk_colors : list (string * color) :=
  [ ("H", (1.0, 1.0, 1.0)); ("C", (0.2, 0.2, 0.2)); ("N", (0.0, 0.0, 1.0));
    ("O", (1.0, 0.0, 0.0)); ("F", (0.0, 1.0, 0.0)); ("Na", (0.67, 0.36, 0.95));
    ("Mg", (0.54, 1.0, 0.0)); ("Al", (0.75, 0.65, 0.65)); ("Si", (0.94, 0.78, 0.63));
    ("P", (1.0, 0.5, 0.0)); ("S", (1.0, 1.0, 0.19)); ("Cl", (0.12, 0.94, 0.12));
    ("K", (0.56, 0.25, 0.83)); ("Ca", (0.24, 1.0, 0.0)); ("Fe", (0.88, 0.4, 0.2));
    ("Cu", (0.78, 0.5, 0.2)); ("Zn", (0.49, 0.5, 0.69)) ]%Q.

Definition default_color : color := (0.5, 0.5, 0.5)%Q.

(** [d.get(key, default)] on a dictionary written as an association list. *)
Fixpoint dict_get {V} (d : list (string * V)) (key : string) (default : V) : V :=
  match d with
  | [] => default
  | (k, v) :: d' => if String.eqb k key then v else dict_get d' key default
  end.

(** The two nested loops of [get_bonds]; an exception leaves through both. *)
Fixpoint get_bonds_loop (get_neighbors : nat -> outcome (list nat))
         (idxs : list nat) (bonds : list (nat * nat)) : outcome (list (nat * nat)) :=
  match idxs with
  | [] => Ret bonds
  | i :: rest =>
      match get_neighbors i with
      | Raise e => Raise e
      | Ret indices =>
          get_bonds_loop get_neighbors rest
            (bonds ++ map (fun j => (i, j)) (List.filter (fun j => (i <? j)%nat) indices))
      end
  end.

(** [get_bonds]: the whole body sits in one try block whose handler returns
    the empty list. *)
Definition get_bonds (atoms : Atoms) : list (nat * nat) :=
  match neighbor_list atoms with
  | Raise _ => []
  | Ret nl =>
      match get_bonds_loop nl (range (length (sites atoms))) [] with
      | Ret bonds => bonds
      | Raise _ => []
      end
  end.

(** The face loops of [create_sphere_obj] (one-based indices): the first
    triangle of a cell is left out on ring 0, the second on the last ring. *)
Definition sphere_faces (resolution : Z) : list (list Z) :=
  flat_map (fun i =>
    flat_map (fun j =>
      let v1 := (i * (resolution * 2) + j)%Z in
      let v2 := (i * (resolution * 2) + (j + 1) mod (resolution * 2))%Z in
      let v3 := ((i + 1) * (resolution * 2) + (j + 1) mod (resolution * 2))%Z in
      let v4 := ((i + 1) * (resolution * 2) + j)%Z in
      (if (0 <? i)%Z then [ [v1 + 1; v2 + 1; v4 + 1]%Z ] else [])
      ++ (if (i <? resolution - 1)%Z then [ [v2 + 1; v3 + 1; v4 + 1]%Z ] else []))
      (zrange (resolution * 2)))
    (zrange resolution).

Definition create_sphere_obj (center : vec3) (radius : R) (resolution : Z)
  : outcome (list vec3 * list (list Z)) :=
  if (resolution =? 0)%Z then Raise (Exception "float division by zero")
  else Ret (sphere_vertices center radius resolution, sphere_faces resolution).

(** [create_cylinder_obj]: a bond of length zero yields nothing; numpy
    divisions never raise. *)
Definition create_cylinder_obj (start end_ : vec3) (radius : R) (resolution : Z)
  : list vec3 * list (list Z) :=
  let direction := vsub end_ start in
  let length := norm direction in
  if Req_dec_T length 0 then ([], [])
  else
    let direction := scale direction (/ length) in
    let perpendicular1 :=
      if Rlt_dec (Rabs (snd direction)) 0.9
      then cross direction (0, 0, 1)%R
      else cross direction (1, 0, 0)%R in
    let perpendicular1 := scale perpendicular1 (/ norm perpendicular1) in
    let perpendicular2 := cross direction perpendicular1 in
    let vertices :=
      flat_map (fun i =>
        let angle := (2 * PI * IZR i / IZR resolution)%R in
        let offset := scale (vadd (scale perpendicular1 (cos angle))
                                  (scale perpendicular2 (sin angle))) radius in
        [ vadd start offset; vadd end_ offset ]) (zrange resolution) in
    let faces :=
      flat_map (fun i =>
        let next_i := ((i + 1) mod resolution)%Z in
        let v1 := (i * 2 + 1)%Z in
        let v2 := (i * 2 + 2)%Z in
        let v3 := (next_i * 2 + 2)%Z in
        let v4 := (next_i * 2 + 1)%Z in
        [ [v1; v2; v4]; [v2; v3; v4] ]) (zrange resolution) in
    (vertices, faces).

(** The material block [convert_to_obj] writes for one element. *)
Definition element_material (element : string) : list mtl_line :=
  let color := dict_get cpk_colors element default_color in
  [ Newmtl ("atom_" ++ element); Ka color; Kd color; Ks (0.5, 0.5, 0.5)%Q;
    Ns 32.0%Q; Dissolve 1.0%Q; MtlText "" ].

Definition bond_material : list mtl_line :=
  [ Newmtl "bond"; Ka (0.3, 0.3, 0.3)%Q; Kd (0.5, 0.5, 0.5)%Q; Ks (0.7, 0.7, 0.7)%Q;
    Ns 64.0%Q; Dissolve 1.0%Q; MtlText "" ].

Definition vertex_line (v : vec3) : obj_line :=
  let '(x, y, z) := v in Vertex x y z.

Definition face_line (vertex_offset : Z) (face : list Z) : obj_line :=
  Face (map (fun v => (v + vertex_offset)%Z) face).

(** The loop "for i, (pos, symbol) in enumerate(zip(positions, symbols))". *)
Fixpoint atoms_loop (E : Env) (sphere_resolution : Z) (scale_factor : R)
         (i : nat) (todo : list (vec3 * string))
         (vertex_offset : Z) (obj_content : list obj_line)
  : outcome (list obj_line * Z) :=
  match todo with
  | [] => Ret (obj_content, vertex_offset)
  | (pos, symbol) :: rest =>
      match covalent_radius E symbol with
      | None => Raise (Exception symbol)
      | Some r =>
          let radius := (r * 0.5 * scale_factor)%R in
          match create_sphere_obj pos radius sphere_resolution with
          | Raise e => Raise e
          | Ret (vertices, faces) =>
              atoms_loop E sphere_resolution scale_factor (S i) rest
                (vertex_offset + Z.of_nat (length vertices))%Z
                (obj_content
                 ++ [ Usemtl ("atom_" ++ symbol) ""; Group ("atom_" ++ pretty i ++ "_" ++ symbol) ]
                 ++ map vertex_line vertices
                 ++ map (face_line vertex_offset) faces
                 ++ [ ObjText "" ])
          end
      end
  end.

(** The loop "for bond_i, (i, j) in enumerate(bonds)". *)
Fixpoint bonds_loop (positions : list vec3) (bond_resolution : Z) (scale_factor : R)
         (bonds : list (nat * nat)) (vertex_offset : Z) (obj_content : list obj_line)
  : outcome (list obj_line * Z) :=
  match bonds with
  | [] => Ret (obj_content, vertex_offset)
  | (i, j) :: rest =>
      match nth_error positions i, nth_error positions j with
      | Some start_pos, Some end_pos =>
          let bond_radius := (0.1 * scale_factor)%R in
          let '(vertices, faces) :=
            create_cylinder_obj start_pos end_pos bond_radius bond_resolution in
          bonds_loop positions bond_resolution scale_factor rest
            (vertex_offset + Z.of_nat (length vertices))%Z
            (obj_content ++ map vertex_line vertices ++ map (face_line vertex_offset) faces)
      | _, _ => Raise (Exception "index out of bounds")
      end
  end.

(** The try block of [convert_to_obj] up to the two file writes.  [None]
    stands for the [None] that [read_cif] returns on failure; its first
    method call raises. *)
Definition build_content (E : Env) (atoms : option Atoms) (obj_path : string)
           (include_bonds : bool) (sphere_resolution bond_resolution : Z)
           (scale_factor : R) : outcome (list obj_line * list mtl_line) :=
  let mtl_filename := PyStr.replace ".obj" ".mtl" obj_path in
  let obj_content := [ Mtllib (PyStr.basename mtl_filename); ObjText "" ] in
  match atoms with
  | None => Raise (Exception "'NoneType' object has no attribute 'get_positions'")
  | Some atoms =>
      let positions := map (fun s => scale (fst s) scale_factor) (sites atoms) in
      let symbols := map snd (sites atoms) in
      let unique_elements := set_order E symbols in
      let mtl_content :=
        flat_map element_material unique_elements
        ++ (if include_bonds then bond_material else []) in
      match atoms_loop E sphere_resolution scale_factor 0 (combine positions symbols)
                       0%Z obj_content with
      | Raise e => Raise e
      | Ret (obj_content, vertex_offset) =>
          if include_bonds then
            let bonds := get_bonds atoms in
            match bonds_loop positions bond_resolution scale_factor bonds vertex_offset
                             (obj_content ++ [ Usemtl "bond" ""; Group "bonds" ]) with
            | Raise e => Raise e
            | Ret (obj_content, _) => Ret (obj_content ++ [ ObjText "" ], mtl_content)
            end
          else Ret (obj_content, mtl_content)
      end
  end.

(** [convert_to_obj]: the success flag and the files written, in order.
    Every exception ends in the handler, which returns [False]. *)
Definition convert_to_obj (E : Env) (atoms : option Atoms) (obj_path : string)
           (include_bonds : bool) (sphere_resolution bond_resolution : Z)
           (scale_factor : R) : bool * list (string * file) :=
  let mtl_filename := PyStr.replace ".obj" ".mtl" obj_path in
  match build_content E atoms obj_path include_bonds sphere_resolution bond_resolution
                      scale_factor with
  | Raise _ => (false, [])
  | Ret (obj_content, mtl_content) =>
      if can_write E obj_path then
        if can_write E mtl_filename
        then (true, [ (obj_path, ObjFile obj_content); (mtl_filename, MtlFile mtl_content) ])
        else (false, [ (obj_path, ObjFile obj_content) ])
      else (false, [])
  end.

(** The vertex lines of an OBJ file. *)
Definition vertices_of (lines : list obj_line) : list vec3 :=
  flat_map (fun l => match l with Vertex x y z => [ (x, y, z) ] | _ => [] end) lines.

(** The OBJ file among the files written, if any. *)
Definition written_obj (files : list (string * file)) : list obj_line :=
  flat_map (fun f => match snd f with ObjFile ls => ls | MtlFile _ => [] end) files.

End ASEConverter.

(** ** Stateful code that may raise *)

Module Eff.

(** A computation over a state [S] that may raise.  As in Python, the
    changes made before an exception stay. *)
Definition M (S A : Type) : Type := S -> outcome A * S.

Definition ret {S A} (a : A) : M S A := fun s => (Ret a, s).

Definition raise {S A} (e : exn) : M S A := fun s => (Raise e, s).

Definition bind {S A B} (m : M S A) (k : A -> M S B) : M S B :=
  fun s =>
    match m s with
    | (Ret a, s') => k a s'
    | (Raise e, s') => (Raise e, s')
    end.

(** try: [m] / except Exception as e: [handler e] *)
Definition try_except {S A} (m : M S A) (handler : exn -> M S A) : M S A :=
  fun s =>
    match m s with
    | (Ret a, s') => (Ret a, s')
    | (Raise e, s') => handler e s'
    end.

Definition get {S} : M S S := fun s => (Ret s, s).

Definition modify {S} (f : S -> S) : M S unit := fun s => (Ret tt, f s).

(** Running a computation on one component of the state. *)
Definition zoom {S T A} (proj : S -> T) (upd : T -> S -> S) (m : M T A) : M S A :=
  fun s => let '(r, t') := m (proj s) in (r, upd t' s).

End Eff.

Import Eff.

Declare Scope eff_scope.
Delimit Scope eff_scope with eff.
Notation "'let*' x ':=' m 'in' k" := (bind m (fun x => k))
  (at level 10, x pattern, m at level 100, k at level 200) : eff_scope.
Notation "m ';;' k" := (bind m (fun _ => k))
  (at level 100, k at level 200, right associativity) : eff_scope.

(** ** The operating system: files, and the calls made to backends *)

Module OS.

(** What the pipeline observes of a path: whether it is a directory, and
    its size in bytes. *)
Record node : Type := {
  is_dir : bool;
  size : nat
}.

(** A call into a backend, recorded for the proofs: the backend and the
    method called.  The code keeps no such record; the model does, so that
    "was attempted" can be stated. *)
Inductive event : Type :=
| Called (who : string) (method : string).

(** The world a conversion runs in. *)
Record world : Type := {
  fs : gmap string node;
  trace : list event
}.

(** A library or tool outside the repository: it sees and changes the
    files only. *)
Definition external (A : Type) : Type := M (gmap string node) A.

Definition run_external {A} (f : external A) : M world A :=
  zoom fs (fun fs' w => {| fs := fs'; trace := trace w |}) f.

(** The model's record of a backend call. *)
Definition note (ev : event) : M world unit :=
  modify (fun w => {| fs := fs w; trace := trace w ++ [ ev ] |}).

(** [os.path.exists(p)] *)
Definition path_exists (p : string) : M world bool :=
  fun w => (Ret (bool_decide (is_Some (fs w !! p))), w).

(** [os.path.getsize(p)] *)
Definition getsize (p : string) : M world nat :=
  fun w =>
    match fs w !! p with
    | Some n => (Ret (size n), w)
    | None => (Raise (Exception ("No such file or directory: " ++ p)), w)
    end.

(** [p] is [d] or lies below it. *)
Definition under (d p : string) : bool :=
  String.eqb d p || PyStr.startswith (d ++ "/") p.

(** [p] lies below [d]. *)
Definition below (d p : string) : bool :=
  under d p && negb (String.eqb d p).

(** What [tempfile] and [shutil] depend on: the name [mkdtemp] picks
    ([None]: it raises), whether removing a tree fails, and, when it does,
    which entries had been removed by then. *)
Record Kernel : Type := {
  temp_name : string -> gmap string node -> option string;
  rmtree_fails : string -> gmap string node -> bool;
  rmtree_removed : string -> gmap string node -> string -> bool
}.

(** [tempfile.mkdtemp(prefix=...)] *)
Definition mkdtemp (K : Kernel) (prefix : string) : M world string :=
  fun w =>
    match temp_name K prefix (fs w) with
    | None => (Raise (Exception "mkdtemp failed"), w)
    | Some d =>
        (Ret d, {| fs := <[ d := {| is_dir := true; size := 0 |} ]> (fs w);
                   trace := trace w |})
    end.

(** [shutil.rmtree(d)]: on success nothing at or below [d] is left.  It
    removes the entries below [d] one by one and [d] itself last, and
    raises at the first error: when it fails, the entries below [d] it had
    removed by then are gone, and [d] is still there. *)
Definition rmtree (K : Kernel) (d : string) : M world unit :=
  fun w =>
    if rmtree_fails K d (fs w)
    then (Raise (Exception ("cannot remove " ++ d)),
          {| fs := filter (fun kv => below d (fst kv)
                                     && rmtree_removed K d (fs w) (fst kv) = false) (fs w);
             trace := trace w |})
    else (Ret tt, {| fs := filter (fun kv => under d (fst kv) = false) (fs w);
                     trace := trace w |}).

End OS.

Import OS.

(** ** ReliableCIFConverter (src/converter/reliable_cif_converter.py) *)

Module ReliableCIFConverter.

Local Open Scope eff_scope.

(** The dictionary [convert_cif_to_obj] returns. *)
Record result : Type := {
  success : bool;
  converter_used : option string;
  error : option string;
  atoms : nat;
  bonds : nat;
  vertices : nat;
  faces : nat;
  file_size : nat;
  warnings : list string
}.

Definition initial_result : result :=
  {| success := false; converter_used := None; error := None; atoms := 0; bonds := 0;
     vertices := 0; faces := 0; file_size := 0; warnings := [] |}.

(** A structure a parsing backend has read: its length, the backend's
    [convert_to_obj] applied to it, and the number of bonds [get_bonds]
    finds in it. *)
Record parsed : Type := {
  parsed_len : nat;
  convert_to_obj : string -> external bool;
  get_bonds_len : external nat
}.

(** The backend objects of [self.converters].  PymatgenConverter.read_cif
    raises on failure; ASEConverter.read_cif returns [None].  The parser
    and generator of the built-in backend report the atom, vertex, face and
    bond counts after a run. *)
Record pymatgen_converter : Type := {
  pymatgen_read_cif : string -> external parsed
}.

Record ase_converter : Type := {
  ase_read_cif : string -> external (option parsed)
}.

Record builtin_converter : Type := {
  parse_file : string -> external bool;
  generate_obj_from_cif : string -> bool -> R -> external (bool * (nat * nat * nat * nat))
}.

(** [self.converters]: a dictionary with at most the keys "pymatgen",
    "ase" and "builtin", inserted in this order.  [analyze] is what
    [_analyze_obj_file] counts in an OBJ file ([None]: reading it raises). *)
Record t : Type := {
  pymatgen : option pymatgen_converter;
  ase : option ase_converter;
  builtin : option builtin_converter;
  analyze : string -> gmap string node -> option (nat * nat)
}.

(** [name in self.converters] *)
Definition has (self : t) (name : string) : bool :=
  if String.eqb name "pymatgen" then bool_decide (is_Some (pymatgen self))
  else if String.eqb name "ase" then bool_decide (is_Some (ase self))
  else if String.eqb name "builtin" then bool_decide (is_Some (builtin self))
  else false.

Definition default_order : list string := [ "pymatgen"; "ase"; "builtin" ].

Definition _get_converter_order (self : t) (preferred : option string) : list string :=
  match preferred with
  | Some p =>
      if negb (String.eqb p "") && has self p
      then p :: List.filter (fun c => negb (String.eqb c p) && has self c) default_order
      else List.filter (has self) default_order
  | None => List.filter (has self) default_order
  end.

(** The state of one call: the world and the [result] dictionary, which
    the backends' wrappers update in place. *)
Record state : Type := {
  world_of : world;
  result_of : result
}.

Definition in_world {A} (m : M world A) : M state A :=
  zoom world_of (fun w s => {| world_of := w; result_of := result_of s |}) m.

Definition update (f : result -> result) : M state unit :=
  modify (fun s => {| world_of := world_of s; result_of := f (result_of s) |}).

Definition set_atoms (n : nat) (r : result) : result :=
  {| success := success r; converter_used := converter_used r; error := error r;
     atoms := n; bonds := bonds r; vertices := vertices r; faces := faces r;
     file_size := file_size r; warnings := warnings r |}.

Definition set_bonds (n : nat) (r : result) : result :=
  {| success := success r; converter_used := converter_used r; error := error r;
     atoms := atoms r; bonds := n; vertices := vertices r; faces := faces r;
     file_size := file_size r; warnings := warnings r |}.

Definition set_counts (v f : nat) (r : result) : result :=
  {| success := success r; converter_used := converter_used r; error := error r;
     atoms := atoms r; bonds := bonds r; vertices := v; faces := f;
     file_size := file_size r; warnings := warnings r |}.

Definition set_success (name : string) (r : result) : result :=
  {| success := true; converter_used := Some name; error := error r;
     atoms := atoms r; bonds := bonds r; vertices := vertices r; faces := faces r;
     file_size := file_size r; warnings := warnings r |}.

Definition set_file_size (n : nat) (r : result) : result :=
  {| success := success r; converter_used := converter_used r; error := error r;
     atoms := atoms r; bonds := bonds r; vertices := vertices r; faces := faces r;
     file_size := n; warnings := warnings r |}.

Definition set_error (msg : string) (r : result) : result :=
  {| success := success r; converter_used := converter_used r; error := Some msg;
     atoms := atoms r; bonds := bonds r; vertices := vertices r; faces := faces r;
     file_size := file_size r; warnings := warnings r |}.

Definition add_warning (msg : string) (r : result) : result :=
  {| success := success r; converter_used := converter_used r; error := error r;
     atoms := atoms r; bonds := bonds r; vertices := vertices r; faces := faces r;
     file_size := file_size r; warnings := warnings r ++ [ msg ] |}.

(** [_analyze_obj_file]: a failure to read the file is logged only. *)
Definition _analyze_obj_file (self : t) (obj_file : string) : M state unit :=
  let* s := get in
  match analyze self obj_file (fs (world_of s)) with
  | Some (v, f) => update (set_counts v f)
  | None => ret tt
  end.

(** The tail shared by [_try_pymatgen] and [_try_ase]. *)
Definition after_convert (self : t) (structure : parsed) (obj_file : string)
           (ok : bool) : M state bool :=
  if ok then
    update (set_atoms (parsed_len structure)) ;;
    let* n := in_world (run_external (get_bonds_len structure)) in
    update (set_bonds n) ;;
    _analyze_obj_file self obj_file ;;
    ret true
  else ret false.

Definition _try_pymatgen (self : t) (converter : pymatgen_converter)
           (cif_file obj_file : string) : M state bool :=
  let* structure := in_world (run_external (pymatgen_read_cif converter cif_file)) in
  let* ok := in_world (run_external (convert_to_obj structure obj_file)) in
  after_convert self structure obj_file ok.

(** [ASEConverter.convert_to_obj(None, ...)] returns [False]: the attribute
    error is caught inside it. *)
Definition _try_ase (self : t) (converter : ase_converter)
           (cif_file obj_file : string) : M state bool :=
  let* atoms := in_world (run_external (ase_read_cif converter cif_file)) in
  match atoms with
  | None => ret false
  | Some atoms =>
      let* ok := in_world (run_external (convert_to_obj atoms obj_file)) in
      after_convert self atoms obj_file ok
  end.

Definition _try_builtin (converter : builtin_converter) (cif_file obj_file : string)
           (include_bonds : bool) (scale_factor : R) : M state bool :=
  let* parsed_ok := in_world (run_external (parse_file converter cif_file)) in
  if negb parsed_ok then ret false
  else
    let* (ok, (num_atoms, nv, nf, nb)) :=
      in_world (run_external
                  (generate_obj_from_cif converter obj_file include_bonds scale_factor)) in
    if ok then
      update (set_atoms num_atoms) ;;
      update (set_counts nv nf) ;;
      update (set_bonds nb) ;;
      ret true
    else ret false.

(** [_try_converter]: only the built-in backend receives [include_bonds]
    and [scale_factor]. *)
Definition _try_converter (self : t) (converter_name cif_file obj_file : string)
           (include_bonds : bool) (scale_factor : R) : M state bool :=
  if String.eqb converter_name "pymatgen" then
    match pymatgen self with
    | Some c => _try_pymatgen self c cif_file obj_file
    | None => raise (Exception "'pymatgen'")
    end
  else if String.eqb converter_name "ase" then
    match ase self with
    | Some c => _try_ase self c cif_file obj_file
    | None => raise (Exception "'ase'")
    end
  else if String.eqb converter_name "builtin" then
    match builtin self with
    | Some c => _try_builtin c cif_file obj_file include_bonds scale_factor
    | None => raise (Exception "'builtin'")
    end
  else ret false.

Definition blender_hints : list string :=
  [ "建议在Blender中导入时选择'Keep Vert Order'选项";
    "如果原子显示不完整，请检查材质设置" ].

(** One pass of the body of the [for] loop: [true] when the function
    returned from inside the loop. *)
Definition attempt (self : t) (converter_name cif_file obj_file : string)
           (include_bonds : bool) (scale_factor : R) : M state bool :=
  try_except
    (in_world (note (Called converter_name "_try_converter")) ;;
     let* ok := _try_converter self converter_name cif_file obj_file
                               include_bonds scale_factor in
     if ok then
       update (set_success converter_name) ;;
       let* present := in_world (path_exists obj_file) in
       (if present
        then let* n := in_world (getsize obj_file) in update (set_file_size n)
        else ret tt) ;;
       (if String.eqb converter_name "pymatgen" || String.eqb converter_name "ase"
        then update (fun r => fold_left (fun r w => add_warning w r) blender_hints r)
        else ret tt) ;;
       ret true
     else ret false)
    (fun e =>
       update (add_warning (converter_name ++ " 转换器失败: " ++ str e)) ;;
       ret false).

(** The [for] loop over [converter_order]. *)
Fixpoint attempts (self : t) (converter_order : list string) (cif_file obj_file : string)
         (include_bonds : bool) (scale_factor : R) : M state bool :=
  match converter_order with
  | [] => ret false
  | converter_name :: rest =>
      if negb (has self converter_name)
      then attempts self rest cif_file obj_file include_bonds scale_factor
      else
        let* returned := attempt self converter_name cif_file obj_file
                                 include_bonds scale_factor in
        if returned then ret true
        else attempts self rest cif_file obj_file include_bonds scale_factor
  end.

Definition convert_body (self : t) (cif_file obj_file : string)
           (preferred_converter : option string) (include_bonds : bool)
           (scale_factor : R) : M state unit :=
  let* present := in_world (path_exists cif_file) in
  if negb present then update (set_error ("CIF文件不存在: " ++ cif_file))
  else
    let converter_order := _get_converter_order self preferred_converter in
    let* returned := attempts self converter_order cif_file obj_file
                              include_bonds scale_factor in
    if returned then ret tt
    else update (set_error "所有可用的转换器都失败了").

(** [convert_cif_to_obj]: the [result] dictionary is created, handed to the
    loop and returned. *)
Definition convert_cif_to_obj (self : t) (cif_file obj_file : string)
           (preferred_converter : option string) (include_bonds : bool)
           (scale_factor : R) : M world result :=
  fun w =>
    let '(r, s) := convert_body self cif_file obj_file preferred_converter
                                include_bonds scale_factor
                                {| world_of := w; result_of := initial_result |} in
    match r with
    | Ret _ => (Ret (result_of s), world_of s)
    | Raise e => (Raise e, world_of s)
    end.

(** [is_available]: [len(self.converters) > 0]. *)
Definition is_available (self : t) : bool :=
  bool_decide (is_Some (pymatgen self)) || bool_decide (is_Some (ase self))
  || bool_decide (is_Some (builtin self)).

(** The constructor's check of the dictionary [_initialize_converters]
    filled: without any backend it raises RuntimeError. *)
Definition init (converters : t) : outcome t :=
  if negb (is_available converters)
  then Raise (Exception "没有可用的转换器，请安装pymatgen或ASE库")
  else Ret converters.

(** The key "recommended_converter" of [get_conversion_info]. *)
Definition recommended_converter (self : t) : string :=
  if has self "pymatgen" then "pymatgen"
  else if has self "ase" then "ase"
  else "builtin".

End ReliableCIFConverter.

(** ** CIFToUSDZConverter (src/converter/main_converter.py) *)

Module CIFToUSDZConverter.

Local Open Scope eff_scope.

(** What a packaging backend's [convert_obj_to_usdz] may return: a pair, a
    tuple of another length (unpacking it raises), a dictionary, or any
    other object, of which only the truth value is read. *)
Inductive convert_result : Type :=
| Tuple2 (success : bool) (message : string)
| TupleOther
| Dict (success : option bool) (message : option string)
| Other (truth : bool).

(** A packaging backend object, as the orchestrator probes it. *)
Record usdz_converter : Type := {
  has_is_available : bool;
  is_available : external bool;
  has_convert_obj_to_usdz : bool;
  convert_obj_to_usdz : string -> string -> option string -> external convert_result
}.

(** A parsing backend object; the only one the constructor registers is a
    ReliableCIFConverter. *)
Record cif_converter : Type := {
  has_convert_cif_to_obj : bool;
  convert_cif_to_obj :
    string -> string -> option string -> bool -> R -> M world ReliableCIFConverter.result
}.

Definition reliable (c : ReliableCIFConverter.t) : cif_converter :=
  {| has_convert_cif_to_obj := true;
     convert_cif_to_obj := ReliableCIFConverter.convert_cif_to_obj c |}.

(** The converter object: the two dictionaries filled by the constructor
    (the first in insertion order) and the operating system it runs on. *)
Record t : Type := {
  kernel : Kernel;
  cif_converters : list (string * cif_converter);
  usdz_converters : gmap string usdz_converter
}.

(** The recognised keys of the [options] dictionary. *)
Record options : Type := {
  preferred_converter : option string;
  include_bonds : option bool;
  scale_factor : option R
}.

Definition no_options : options :=
  {| preferred_converter := None; include_bonds := None; scale_factor := None |}.

(** An entry of [conversion_attempts]. *)
Record attempt : Type := {
  converter : string;
  success : bool;
  message : string;
  error_type : option string
}.

(** The details [_convert_obj_to_usdz] returns. *)
Record usdz_info : Type := {
  used_converter : option string;
  used_converter_name : option string;
  conversion_attempts : list attempt
}.

Inductive step_details : Type :=
| NoDetails
| CifDetails (r : ReliableCIFConverter.result)
| UsdzDetails (i : usdz_info).

(** An entry of [conversion_info['steps']]. *)
Record step : Type := {
  step_name : string;
  step_success : bool;
  step_message : option string;
  step_details_of : step_details
}.

Record conversion_info : Type := {
  cif_file : string;
  output_file : string;
  steps : list step;
  output_size : option nat;
  error : option string
}.

(** What [convert_cif_to_usdz] returns: the flag, the message and the
    details, [None] being the empty dictionary. *)
Definition report : Type := (bool * string * option conversion_info)%type.

(** The state of a call: the world, [self.temp_dir], and the two local
    objects that are updated in place, [conversion_info] and
    [conversion_attempts]. *)
Record state : Type := {
  world_of : world;
  temp_dir : option string;
  info : conversion_info;
  attempts_so_far : list attempt
}.

Definition in_world {A} (m : M world A) : M state A :=
  zoom world_of
       (fun w s => {| world_of := w; temp_dir := temp_dir s; info := info s;
                      attempts_so_far := attempts_so_far s |}) m.

Definition set_temp_dir (d : option string) : M state unit :=
  modify (fun s => {| world_of := world_of s; temp_dir := d; info := info s;
                      attempts_so_far := attempts_so_far s |}).

Definition update_info (f : conversion_info -> conversion_info) : M state unit :=
  modify (fun s => {| world_of := world_of s; temp_dir := temp_dir s; info := f (info s);
                      attempts_so_far := attempts_so_far s |}).

Definition set_attempts (l : list attempt) : M state unit :=
  modify (fun s => {| world_of := world_of s; temp_dir := temp_dir s; info := info s;
                      attempts_so_far := l |}).

(** [conversion_attempts.append(a)] *)
Definition push (a : attempt) : M state unit :=
  modify (fun s => {| world_of := world_of s; temp_dir := temp_dir s; info := info s;
                      attempts_so_far := attempts_so_far s ++ [ a ] |}).

Definition add_step (st : step) (i : conversion_info) : conversion_info :=
  {| cif_file := cif_file i; output_file := output_file i; steps := steps i ++ [ st ];
     output_size := output_size i; error := error i |}.

Definition set_output_size (n : nat) (i : conversion_info) : conversion_info :=
  {| cif_file := cif_file i; output_file := output_file i; steps := steps i;
     output_size := Some n; error := error i |}.

Definition set_error (msg : string) (i : conversion_info) : conversion_info :=
  {| cif_file := cif_file i; output_file := output_file i; steps := steps i;
     output_size := output_size i; error := Some msg |}.

(** [str(x)] of an optional string. *)
Definition show (o : option string) : string :=
  match o with Some s => s | None => "None" end.

(** [_convert_cif_to_obj] *)
Definition _convert_cif_to_obj (self : t) (cif_file_path : string) (opts : options)
  : M state (string * bool * option string * step_details) :=
  let* converter_name :=
    match List.find (fun kv => String.eqb (fst kv) "reliable") (cif_converters self) with
    | Some _ => ret "reliable"
    | None =>
        match cif_converters self with
        | (k, _) :: _ => ret k
        | [] => raise (Exception "list index out of range")
        end
    end in
  match List.find (fun kv => String.eqb (fst kv) converter_name) (cif_converters self) with
  | None => raise (Exception converter_name)
  | Some (_, conv) =>
      try_except
        (let obj_filename := (PyStr.stem cif_file_path ++ ".obj")%string in
         let* s := get in
         match temp_dir s with
         | None => raise (Exception "expected str, bytes or os.PathLike object, not NoneType")
         | Some d =>
             let obj_file_path := PyStr.path_join d obj_filename in
             if has_convert_cif_to_obj conv then
               let* result :=
                 in_world (convert_cif_to_obj conv cif_file_path obj_file_path
                             (preferred_converter opts)
                             (default true (include_bonds opts))
                             (default 1%R (scale_factor opts))) in
               let ok := ReliableCIFConverter.success result in
               let msg :=
                 if negb ok then ReliableCIFConverter.error result
                 else Some ("转换成功，使用了 "
                            ++ show (ReliableCIFConverter.converter_used result)
                            ++ " 转换器")%string in
               ret (obj_file_path, ok, msg, CifDetails result)
             else
               ret (obj_file_path, false,
                    Some ("转换器 " ++ converter_name ++ " 不支持convert_cif_to_obj方法")%string,
                    NoDetails)
         end)
        (fun e =>
           ret ("", false,
                Some ("CIF转换器 " ++ converter_name ++ " 执行失败: " ++ str e)%string,
                NoDetails))
  end.

(** An entry of [converter_priority]. *)
Record priority : Type := {
  name : string;
  key : string;
  method : string
}.

(** Pixar USD first, Apple USD second, Docker third. *)
Definition converter_priority : list priority :=
  [ {| name := "Pixar USD"; key := "pixar_usd"; method := "convert_obj_to_usdz" |};
    {| name := "Apple USD"; key := "apple_usd"; method := "convert_obj_to_usdz" |};
    {| name := "Docker USD"; key := "docker_usd"; method := "convert_obj_to_usdz" |} ].

(** The availability check of one backend: [true] when the loop goes on to
    the next backend.  An exception raised by the check is logged and the
    backend is tried all the same. *)
Definition check_available (conv : usdz_converter) (converter_name : string)
  : M state bool :=
  try_except
    (if has_is_available conv then
       let* available := in_world (run_external (is_available conv)) in
       if negb available then
         push {| converter := converter_name; success := false;
                 message := "转换器不可用"; error_type := Some "unavailable" |} ;;
         ret true
       else ret false
     else ret false)
    (fun _ => ret false).

(** The truth and message read from a backend's return value. *)
Definition read_result (r : convert_result) : M state (bool * string) :=
  match r with
  | Tuple2 ok msg => ret (ok, msg)
  | TupleOther => raise (Exception "not enough values to unpack")
  | Dict ok msg => ret (default false ok, default "未知结果" msg)
  | Other truth => ret (truth, if truth then "转换完成" else "转换失败")
  end.

(** One pass of the body of the backend loop: [Some r] when the function
    returned [r] from inside the loop. *)
Definition try_backend (self : t) (p : priority)
           (obj_file_path output_path : string) (mtl_file_path : option string)
  : M state (option (bool * string * usdz_info)) :=
  match usdz_converters self !! key p with
  | None =>
      push {| converter := name p; success := false;
              message := "转换器未配置"; error_type := Some "not_configured" |} ;;
      ret None
  | Some conv =>
      let* skip := check_available conv (name p) in
      if skip then ret None
      else
        try_except
          (if has_convert_obj_to_usdz conv then
             in_world (note (Called (key p) (method p))) ;;
             let* convert_result :=
               in_world (run_external
                           (convert_obj_to_usdz conv obj_file_path output_path
                                                mtl_file_path)) in
             let* (ok, msg) := read_result convert_result in
             push {| converter := name p; success := ok; message := msg;
                     error_type := if ok then None else Some "conversion_failed" |} ;;
             let* present := in_world (path_exists output_path) in
             if ok && present then
               let* s := get in
               ret (Some (true, (name p ++ "转换成功")%string,
                          {| used_converter := Some (key p);
                             used_converter_name := Some (name p);
                             conversion_attempts := attempts_so_far s |}))
             else ret None
           else
             push {| converter := name p; success := false;
                     message := "转换器 " ++ name p ++ " 不支持" ++ method p ++ "方法";
                     error_type := Some "method_not_supported" |} ;;
             ret None)
          (fun e =>
             push {| converter := name p; success := false;
                     message := name p ++ "转换器执行异常: " ++ str e;
                     error_type := Some "exception" |} ;;
             ret None)
  end.

(** The backend loop. *)
Fixpoint try_backends (self : t) (todo : list priority)
         (obj_file_path output_path : string) (mtl_file_path : option string)
  : M state (option (bool * string * usdz_info)) :=
  match todo with
  | [] => ret None
  | p :: rest =>
      let* returned := try_backend self p obj_file_path output_path mtl_file_path in
      match returned with
      | Some r => ret (Some r)
      | None => try_backends self rest obj_file_path output_path mtl_file_path
      end
  end.

(** [_convert_obj_to_usdz] *)
Definition _convert_obj_to_usdz (self : t) (obj_file_path output_path : string)
           (opts : options) : M state (bool * string * usdz_info) :=
  set_attempts [] ;;
  try_except
    (let mtl := PyStr.replace ".obj" ".mtl" obj_file_path in
     let* present := in_world (path_exists mtl) in
     let mtl_file_path := if present then Some mtl else None in
     let* returned := try_backends self converter_priority obj_file_path output_path
                                   mtl_file_path in
     match returned with
     | Some r => ret r
     | None =>
         let* s := get in
         let failed_converters :=
           map converter (List.filter (fun a => negb (success a)) (attempts_so_far s)) in
         let error_summary :=
           ("所有USDZ转换器都失败了: " ++ PyStr.join ", " failed_converters)%string in
         ret (false, error_summary,
              {| used_converter := None; used_converter_name := None;
                 conversion_attempts := attempts_so_far s |})
     end)
    (fun e =>
       let* s := get in
       ret (false, ("USDZ转换过程中发生严重错误: " ++ str e)%string,
            {| used_converter := None; used_converter_name := None;
               conversion_attempts := attempts_so_far s |})).

(** The try block of [convert_cif_to_usdz] with its handler; the finally
    clause is empty ("do not clean the temporary directory here, let the
    caller decide when"). *)
Definition convert_steps (self : t) (cif_file_path output_path : string) (opts : options)
  : M state (bool * string) :=
  try_except
    (let* d := in_world (mkdtemp (kernel self) "cif_to_usdz_") in
     set_temp_dir (Some d) ;;
     let* (obj_file_path, cif_success, cif_message, cif_info) :=
       _convert_cif_to_obj self cif_file_path opts in
     update_info (add_step {| step_name := "cif_to_obj"; step_success := cif_success;
                              step_message := cif_message;
                              step_details_of := cif_info |}) ;;
     if negb cif_success then ret (false, ("CIF转换失败: " ++ show cif_message)%string)
     else
       let* (usdz_success, usdz_message, usdz_details) :=
         _convert_obj_to_usdz self obj_file_path output_path opts in
       update_info (add_step {| step_name := "obj_to_usdz"; step_success := usdz_success;
                                step_message := Some usdz_message;
                                step_details_of := UsdzDetails usdz_details |}) ;;
       if negb usdz_success then ret (false, ("USDZ转换失败: " ++ usdz_message)%string)
       else
         let* present := in_world (path_exists output_path) in
         if present then
           let* file_size := in_world (getsize output_path) in
           update_info (set_output_size file_size) ;;
           ret (true, "转换成功完成")
         else ret (false, "输出文件未生成"))
    (fun e =>
       let error_msg := ("转换过程中发生错误: " ++ str e)%string in
       update_info (set_error error_msg) ;;
       ret (false, error_msg)).

(** The object between calls: the world and [self.temp_dir]. *)
Record instance : Type := {
  the_world : world;
  self_temp_dir : option string
}.

(** [convert_cif_to_usdz] *)
Definition convert_cif_to_usdz (self : t) (cif_file_path output_path : string)
           (opts : option options) : M instance report :=
  fun i =>
    let w := the_world i in
    if negb (bool_decide (is_Some (fs w !! cif_file_path)))
    then (Ret (false, ("CIF文件不存在: " ++ cif_file_path)%string, None), i)
    else if bool_decide (cif_converters self = [])
    then (Ret (false, "没有可用的CIF转换器", None), i)
    else if bool_decide (usdz_converters self = ∅)
    then (Ret (false, "没有可用的USDZ转换器", None), i)
    else
      let opts := default no_options opts in
      let conversion_info :=
        {| cif_file := cif_file_path; output_file := output_path; steps := [];
           output_size := None; error := None |} in
      let '(r, s) :=
        convert_steps self cif_file_path output_path opts
          {| world_of := w; temp_dir := self_temp_dir i; info := conversion_info;
             attempts_so_far := [] |} in
      let i' := {| the_world := world_of s; self_temp_dir := temp_dir s |} in
      match r with
      | Ret (ok, msg) => (Ret (ok, msg, Some (info s)), i')
      | Raise e => (Raise e, i')
      end.

(** [_cleanup_temp_dir] *)
Definition _cleanup_temp_dir (self : t) : M instance unit :=
  fun i =>
    match self_temp_dir i with
    | Some d =>
        if negb (String.eqb d "") && bool_decide (is_Some (fs (the_world i) !! d))
        then
          let '(_, w') := rmtree (kernel self) d (the_world i) in
          (Ret tt, {| the_world := w'; self_temp_dir := None |})
        else (Ret tt, i)
    | None => (Ret tt, i)
    end.

End CIFToUSDZConverter.

(** ** DockerUsdzConverter (src/scripts/docker_usdzconvert.py) *)

Module DockerUsdzConverter.

(** The object: [self.is_available] is an attribute, the boolean the
    constructor got from [_check_availability]; [run] stands for the body
    of [convert_obj_to_usdz] past its two guards (the copy to a temporary
    directory, the Docker run, the copy of the result). *)
Record t : Type := {
  is_available : bool;
  run : string -> string -> external (bool * string)
}.

(** [convert_obj_to_usdz(self, obj_path, usdz_path)] *)
Definition convert_obj_to_usdz (self : t) (obj_path usdz_path : string)
  : external (bool * string) :=
  fun files =>
    if negb (is_available self) then (Ret (false, "Docker USD转换器不可用"), files)
    else if negb (bool_decide (is_Some (files !! obj_path)))
    then (Ret (false, ("输入OBJ文件不存在: " ++ obj_path)%string), files)
    else run self obj_path usdz_path files.

(** The object as the loop of [CIFToUSDZConverter._convert_obj_to_usdz]
    uses it.  The loop calls [converter.is_available()], and here
    [is_available] is a [bool]: the call raises TypeError.  It calls
    [convert_obj_to_usdz(obj_file_path, output_path, mtl_file_path)], and
    the method takes two paths: the call raises TypeError before the body
    runs. *)
Definition as_backend (self : t) : CIFToUSDZConverter.usdz_converter :=
  {| CIFToUSDZConverter.has_is_available := true;
     CIFToUSDZConverter.is_available :=
       fun files => (Raise (Exception "'bool' object is not callable"), files);
     CIFToUSDZConverter.has_convert_obj_to_usdz := true;
     CIFToUSDZConverter.convert_obj_to_usdz :=
       fun _ _ _ files =>
         (Raise (Exception
                   "DockerUsdzConverter.convert_obj_to_usdz() takes 3 positional arguments but 4 were given"),
          files) |}.

End DockerUsdzConverter.

(** ** MaterialStandardizer (src/converter/material_standardizer.py) *)

Module MaterialStandardizer.

(** *** Colours

    Python floats are idealised as rationals.  Two colours are compared by
    their squared Euclidean distance, which orders them as the distance
    itself does. *)

Definition Qltb (a b : Q) : bool := (Qnum a * QDen b <? Qnum b * QDen a)%Z.

Definition sq (x : Q) : Q := (x * x)%Q.

Definition distance2 (c1 c2 : color) : Q :=
  let '(r1, g1, b1) := c1 in
  let '(r2, g2, b2) := c2 in
  (sq (r1 - r2) + sq (g1 - g2) + sq (b1 - b2))%Q.

(** What the format "{x:.6f}" prints, read back as a number: the nearest
    multiple of one millionth. *)
Definition round6 (x : Q) : Q := Qmake (Qfloor (x * 1000000 + (1 # 2))%Q) 1000000.

Definition round6_color (c : color) : color :=
  let '(r, g, b) := c in (round6 r, round6 g, round6 b).

Definition scale_color (c : color) (k : Q) : color :=
  let '(r, g, b) := c in (r * k, g * k, b * k)%Q.

(** *** Dictionaries in insertion order *)

Fixpoint dict_get {V} (d : list (string * V)) (k : string) : option V :=
  match d with
  | [] => None
  | (k', v) :: d' => if String.eqb k' k then Some v else dict_get d' k
  end.

(** [d[k] = v]: an existing key keeps its place. *)
Fixpoint dict_set {V} (d : list (string * V)) (k : string) (v : V) : list (string * V) :=
  match d with
  | [] => [ (k, v) ]
  | (k', v') :: d' =>
      if String.eqb k' k then (k, v) :: d' else (k', v') :: dict_set d' k v
  end.

(** *** The CPK colour table *)

Definition STANDARD_CPK_COLORS : list (string * color) :=
  [ ("H", (1.0, 1.0, 1.0)); ("He", (0.85, 1.0, 1.0)); ("Li", (0.8, 0.5, 1.0));
    ("Be", (0.76, 1.0, 0.0)); ("B", (1.0, 0.71, 0.71)); ("C", (0.565, 0.565, 0.565));
    ("N", (0.19, 0.31, 0.97)); ("O", (1.0, 0.05, 0.05)); ("F", (0.56, 0.88, 0.31));
    ("Ne", (0.7, 0.89, 0.96)); ("Na", (0.67, 0.36, 0.95)); ("Mg", (0.54, 1.0, 0.0));
    ("Al", (0.75, 0.65, 0.65)); ("Si", (0.94, 0.78, 0.63)); ("P", (1.0, 0.5, 0.0));
    ("S", (1.0, 1.0, 0.19)); ("Cl", (0.0, 1.0, 0.0)); ("Ar", (0.5, 0.82, 0.89));
    ("K", (0.56, 0.25, 0.83)); ("Ca", (0.24, 1.0, 0.0)); ("Sc", (0.9, 0.9, 0.9));
    ("Ti", (0.75, 0.76, 0.78)); ("V", (0.65, 0.65, 0.67)); ("Cr", (0.54, 0.6, 0.78));
    ("Mn", (0.61, 0.48, 0.78)); ("Fe", (0.88, 0.4, 0.2)); ("Co", (0.94, 0.56, 0.63));
    ("Ni", (0.31, 0.82, 0.31)); ("Cu", (0.78, 0.5, 0.2)); ("Zn", (0.49, 0.5, 0.69));
    ("Ga", (0.76, 0.56, 0.56)); ("Ge", (0.4, 0.56, 0.56)); ("As", (0.74, 0.5, 0.89));
    ("Se", (1.0, 0.63, 0.0)); ("Br", (0.65, 0.16, 0.16)); ("Kr", (0.36, 0.72, 0.82));
    ("Rb", (0.44, 0.18, 0.69)); ("Sr", (0.0, 1.0, 0.15)); ("Y", (0.58, 1.0, 1.0));
    ("Zr", (0.58, 0.88, 0.88)); ("Nb", (0.45, 0.76, 0.79)); ("Mo", (0.33, 0.71, 0.71));
    ("Tc", (0.23, 0.62, 0.62)); ("Ru", (0.14, 0.56, 0.56)); ("Rh", (0.04, 0.49, 0.55));
    ("Pd", (0.0, 0.41, 0.52)); ("Ag", (0.75, 0.75, 0.75)); ("Cd", (1.0, 0.85, 0.56));
    ("In", (0.65, 0.46, 0.45)); ("Sn", (0.4, 0.5, 0.5)); ("Sb", (0.62, 0.39, 0.71));
    ("Te", (0.83, 0.48, 0.0)); ("I", (0.58, 0.0, 0.58)); ("Xe", (0.26, 0.62, 0.69));
    ("Cs", (0.34, 0.09, 0.56)); ("Ba", (0.0, 0.79, 0.0)); ("La", (0.44, 0.83, 1.0));
    ("Ce", (1.0, 1.0, 0.78)); ("Pr", (0.85, 1.0, 0.78)); ("Nd", (0.78, 1.0, 0.78));
    ("Pm", (0.64, 1.0, 0.78)); ("Sm", (0.56, 1.0, 0.78)); ("Eu", (0.38, 1.0, 0.78));
    ("Gd", (0.27, 1.0, 0.78)); ("Tb", (0.19, 1.0, 0.78)); ("Dy", (0.12, 1.0, 0.78));
    ("Ho", (0.0, 1.0, 0.61)); ("Er", (0.0, 0.9, 0.46)); ("Tm", (0.0, 0.83, 0.32));
    ("Yb", (0.0, 0.75, 0.22)); ("Lu", (0.0, 0.67, 0.14)); ("Hf", (0.3, 0.76, 1.0));
    ("Ta", (0.3, 0.65, 1.0)); ("W", (0.13, 0.58, 0.84)); ("Re", (0.15, 0.49, 0.67));
    ("Os", (0.15, 0.4, 0.59)); ("Ir", (0.09, 0.33, 0.53)); ("Pt", (0.81, 0.82, 0.88));
    ("Au", (1.0, 0.82, 0.14)); ("Hg", (0.72, 0.72, 0.82)); ("Tl", (0.65, 0.33, 0.3));
    ("Pb", (0.34, 0.35, 0.38)); ("Bi", (0.62, 0.31, 0.71)); ("Po", (0.67, 0.36, 0.0));
    ("At", (0.46, 0.31, 0.27)); ("Rn", (0.26, 0.51, 0.59)); ("Fr", (0.26, 0.0, 0.4));
    ("Ra", (0.0, 0.49, 0.0)); ("Ac", (0.44, 0.67, 0.98)); ("Th", (0.0, 0.73, 1.0));
    ("Pa", (0.0, 0.63, 1.0)); ("U", (0.0, 0.56, 1.0)); ("Np", (0.0, 0.5, 1.0));
    ("Pu", (0.0, 0.42, 1.0)); ("Am", (0.33, 0.36, 0.95)); ("Cm", (0.47, 0.36, 0.89));
    ("Bk", (0.54, 0.31, 0.89)); ("Cf", (0.63, 0.21, 0.83)); ("Es", (0.7, 0.12, 0.83));
    ("Fm", (0.7, 0.12, 0.73)); ("Md", (0.7, 0.05, 0.65)); ("No", (0.74, 0.05, 0.53));
    ("Lr", (0.78, 0.0, 0.4)) ]%Q.

(** [self.color_tolerance], and its square. *)
Definition color_tolerance : Q := 0.05%Q.

Definition color_tolerance2 : Q := sq color_tolerance.

(** [element in self.STANDARD_CPK_COLORS] *)
Definition is_element (element : string) : bool :=
  bool_decide (is_Some (dict_get STANDARD_CPK_COLORS element)).

(** *** Character classes of the regular expressions (ASCII) *)

Definition code (c : ascii) : nat := nat_of_ascii c.

Definition is_upper (c : ascii) : bool := (65 <=? code c)%nat && (code c <=? 90)%nat.

Definition is_lower (c : ascii) : bool := (97 <=? code c)%nat && (code c <=? 122)%nat.

Definition is_digit (c : ascii) : bool := (48 <=? code c)%nat && (code c <=? 57)%nat.

Definition is_sign (c : ascii) : bool := Ascii.eqb c "+"%char || Ascii.eqb c "-"%char.

(** Space, tab, line feed, vertical tab, form feed, carriage return. *)
Definition is_space (c : ascii) : bool :=
  Ascii.eqb c " "%char || ((9 <=? code c)%nat && (code c <=? 13)%nat).

Fixpoint skip_while (p : ascii -> bool) (s : string) : string :=
  match s with
  | EmptyString => EmptyString
  | String c s' => if p c then skip_while p s' else s
  end.

Fixpoint remove_chars (p : ascii -> bool) (s : string) : string :=
  match s with
  | EmptyString => EmptyString
  | String c s' => if p c then remove_chars p s' else String c (remove_chars p s')
  end.

(** Where "$" matches: at the end, or before a final line feed. *)
Definition at_end (s : string) : bool :=
  String.eqb s "" || String.eqb s (String "010"%char "").

Definition to_upper (c : ascii) : ascii :=
  if is_lower c then ascii_of_nat (code c - 32) else c.

Definition to_lower (c : ascii) : ascii :=
  if is_upper c then ascii_of_nat (code c + 32) else c.

Fixpoint lower (s : string) : string :=
  match s with
  | EmptyString => EmptyString
  | String c s' => String (to_lower c) (lower s')
  end.

(** *** Names *)

(** [_clean_element_symbol] *)
Definition _clean_element_symbol (element : string) : string :=
  let clean := remove_chars (fun c => is_digit c || is_sign c || is_space c) element in
  match clean with
  | EmptyString => clean
  | String c rest => String (to_upper c) (lower rest)
  end.

(** [get_standard_material_name] *)
Definition get_standard_material_name (element : string) : string :=
  (_clean_element_symbol element ++ "_MAT")%string.

(** [get_standard_color] *)
Definition get_standard_color (element : string) : color :=
  default (0.5, 0.5, 0.5)%Q (dict_get STANDARD_CPK_COLORS (_clean_element_symbol element)).

(** Group 1 of re.match(r'^([A-Z][a-z]?)\d*[+-]*$', name). *)
Definition match_symbol (name : string) : option string :=
  match name with
  | EmptyString => None
  | String a rest =>
      if is_upper a then
        let '(group, rest') :=
          match rest with
          | String b rest2 =>
              if is_lower b then (String a (String b ""), rest2) else (String a "", rest)
          | EmptyString => (String a "", rest)
          end in
        if at_end (skip_while is_sign (skip_while is_digit rest'))
        then Some group else None
      else None
  end.

(** [_extract_element_from_name] *)
Definition _extract_element_from_name (material_name : string) : option string :=
  let name := PyStr.replace "_MAT" "" (PyStr.replace "atom_" "" material_name) in
  match match_symbol name with
  | Some element => if is_element element then Some element else None
  | None => None
  end.

(** The loop of [_match_element_by_color]; [None] for [min_distance] is
    the initial infinity. *)
Fixpoint match_color_loop (color : Wavefront.color) (table : list (string * Wavefront.color))
         (min_distance2 : option Q) (best_match : option string) : option string :=
  match table with
  | [] => best_match
  | (element, standard_color) :: rest =>
      let d := distance2 color standard_color in
      let closer := match min_distance2 with None => true | Some m => Qltb d m end in
      if closer && Qltb d color_tolerance2
      then match_color_loop color rest (Some d) (Some element)
      else match_color_loop color rest min_distance2 best_match
  end.

(** [_match_element_by_color] *)
Definition _match_element_by_color (color : Wavefront.color) : option string :=
  match_color_loop color STANDARD_CPK_COLORS None None.

Definition hex_value (c : ascii) : option nat :=
  if is_digit c then Some (code c - 48)
  else if (65 <=? code c)%nat && (code c <=? 70)%nat then Some (code c - 55)
  else if (97 <=? code c)%nat && (code c <=? 102)%nat then Some (code c - 87)
  else None.

(** The six digits of re.match(r'^x?([0-9A-Fa-f]{6})$', name), as the three
    byte values. *)
Definition match_hex (name : string) : option (nat * nat * nat) :=
  let body :=
    match name with
    | String c rest => if Ascii.eqb c "x"%char then rest else name
    | EmptyString => name
    end in
  match body with
  | String a (String b (String c (String d (String e (String f rest))))) =>
      match hex_value a, hex_value b, hex_value c, hex_value d, hex_value e, hex_value f with
      | Some a, Some b, Some c, Some d, Some e, Some f =>
          if at_end rest then Some (16 * a + b, 16 * c + d, 16 * e + f)%nat else None
      | _, _, _, _, _, _ => None
      end
  | _ => None
  end.

Definition byte_to_unit (n : nat) : Q := (Z.of_nat n # 255).

(** [_infer_from_hex_name] *)
Definition _infer_from_hex_name (material_name : string) : option string :=
  match match_hex material_name with
  | Some (r, g, b) => _match_element_by_color (byte_to_unit r, byte_to_unit g, byte_to_unit b)
  | None => None
  end.

(** [_infer_element_from_material]: the name, then the colour, then a
    colour spelled in the name. *)
Definition _infer_element_from_material (material_name : string) (color : Wavefront.color)
  : option string :=
  match _extract_element_from_name material_name with
  | Some element => Some element
  | None =>
      match _match_element_by_color color with
      | Some element => Some element
      | None => _infer_from_hex_name material_name
      end
  end.

(** *** Files *)

(** The loop of [_parse_mtl_file].  Of a "Kd" line the three operands
    after the keyword are taken; a line with fewer is passed over by the
    test on their number, and a line on which [float] raises ends the
    parse with what was read so far. *)
Fixpoint parse_lines (lines : list mtl_line) (current_material : option string)
         (materials : list (string * color)) : list (string * color) :=
  match lines with
  | [] => materials
  | line :: rest =>
      match line, current_material with
      | Newmtl n, _ => parse_lines rest (Some n) materials
      | Kd c, Some m => parse_lines rest current_material (dict_set materials m c)
      | KdMalformed, Some _ => materials
      | _, _ => parse_lines rest current_material materials
      end
  end.

(** [_parse_mtl_file]; [None] is a path at which there is no file, or a
    file that cannot be opened: the handler around the loop returns the
    empty dictionary then. *)
Definition _parse_mtl_file (mtl : option (list mtl_line)) : list (string * color) :=
  match mtl with
  | None => []
  | Some lines => parse_lines lines None []
  end.

(** An entry of the material mapping. *)
Record mapping : Type := {
  new_name : string;
  element : string;
  color_of : color
}.

(** [_analyze_materials] on the parsed table.  The old names are the keys
    of a dictionary, so the mapping is a list in the order of the table. *)
Fixpoint analyze_table (preserve_original_colors : bool)
         (mtl_materials : list (string * color)) : list (string * mapping) :=
  match mtl_materials with
  | [] => []
  | (old_name, color) :: rest =>
      match _infer_element_from_material old_name color with
      | Some element =>
          let final_color :=
            if preserve_original_colors then color else get_standard_color element in
          (old_name, {| new_name := get_standard_material_name element;
                        element := element; color_of := final_color |})
            :: analyze_table preserve_original_colors rest
      | None => analyze_table preserve_original_colors rest
      end
  end.

Definition _analyze_materials (preserve_original_colors : bool)
           (mtl : option (list mtl_line)) : list (string * mapping) :=
  analyze_table preserve_original_colors (_parse_mtl_file mtl).

(** The loop of [_update_obj_file]; a "usemtl" line without a name raises
    IndexError. *)
Fixpoint update_lines (material_mapping : list (string * mapping))
         (lines : list obj_line) : outcome (list obj_line) :=
  match lines with
  | [] => Ret []
  | line :: rest =>
      match line with
      | UsemtlBare => Raise (Exception "list index out of range")
      | _ =>
          let line' :=
            match line with
            | Usemtl old_material _ =>
                match dict_get material_mapping old_material with
                | Some m => Usemtl (new_name m) ""
                | None => line
                end
            | _ => line
            end in
          match update_lines material_mapping rest with
          | Ret rest' => Ret (line' :: rest')
          | Raise e => Raise e
          end
      end
  end.

(** What reading and writing the two files depends on besides their
    lines.  [open], [readlines], [write] and [writelines] can raise for
    reasons the lines do not show: permissions, bytes that are not UTF-8,
    a full disk.  [read_obj_error lines] is the exception that reading the
    OBJ file holding [lines] raises, if any.  [write_obj_error old new] and
    [write_mtl_error old new] are [None] when writing [new] over the file
    [old] succeeds, and otherwise the exception together with what is left
    at the path: [old] when the file could not be opened for writing, part
    of [new] when a write failed after that. *)
Record Disk : Type := {
  read_obj_error : list obj_line -> option exn;
  write_obj_error :
    list obj_line -> list obj_line -> option (exn * option (list obj_line));
  write_mtl_error :
    option (list mtl_line) -> list mtl_line -> option (exn * option (list mtl_line))
}.

(** A disk on which no read and no write fails. *)
Definition no_faults : Disk :=
  {| read_obj_error := fun _ => None;
     write_obj_error := fun _ _ => None;
     write_mtl_error := fun _ _ => None |}.

(** [_update_obj_file]: what it returns or raises, and the file
    afterwards; [None] is a path at which there is no file.  The whole body
    sits in one try block that logs and raises again.  Nothing has been
    written when the read or the loop raises. *)
Definition _update_obj_file (D : Disk) (material_mapping : list (string * mapping))
           (obj : option (list obj_line)) : outcome unit * option (list obj_line) :=
  match material_mapping with
  | [] => (Ret tt, obj)
  | _ =>
      match obj with
      | None => (Raise (Exception "No such file or directory"), obj)
      | Some lines =>
          match read_obj_error D lines with
          | Some e => (Raise e, obj)
          | None =>
              match update_lines material_mapping lines with
              | Raise e => (Raise e, obj)
              | Ret updated_lines =>
                  match write_obj_error D lines updated_lines with
                  | Some (e, remains) => (Raise e, remains)
                  | None => (Ret tt, Some updated_lines)
                  end
              end
          end
      end
  end.

(** The block [_rewrite_mtl_file] writes for one entry of the mapping. *)
Definition material_block (m : mapping) : list mtl_line :=
  [ Newmtl (new_name m);
    MtlText ("# Element: " ++ element m);
    Kd (round6_color (color_of m));
    Ka (round6_color (scale_color (color_of m) 0.2));
    Ks (0.5, 0.5, 0.5)%Q;
    Ns 50%Q;
    Dissolve 1.0%Q;
    MtlText "" ].

Definition mtl_header : list mtl_line :=
  [ MtlText "# Crystal Toolkit标准化材质文件"; MtlText "# 基于CPK颜色标准"; MtlText "" ].

(** [_rewrite_mtl_file]: what it returns or raises, and the file
    afterwards.  The file is opened for writing, so nothing of the old file
    is kept; an exception of [open] or [write] is logged and raised
    again. *)
Definition _rewrite_mtl_file (D : Disk) (material_mapping : list (string * mapping))
           (mtl : option (list mtl_line)) : outcome unit * option (list mtl_line) :=
  match material_mapping with
  | [] => (Ret tt, mtl)
  | _ =>
      let content :=
        mtl_header ++ flat_map (fun kv => material_block (snd kv)) material_mapping in
      match write_mtl_error D mtl content with
      | Some (e, remains) => (Raise e, remains)
      | None => (Ret tt, Some content)
      end
  end.

(** An OBJ file and its MTL file, each [None] when missing. *)
Record mesh : Type := {
  obj_file : option (list obj_line);
  mtl_file : option (list mtl_line)
}.

(** [standardize_obj_materials]: the flag returned and the files
    afterwards.  The handler turns an exception of either step into
    [False]; what the steps had written by then stays, so after a failure
    to rewrite the MTL file the OBJ file already carries the new names. *)
Definition standardize_obj_materials (D : Disk) (m : mesh) (preserve_colors : bool)
  : bool * mesh :=
  let material_mapping := _analyze_materials preserve_colors (mtl_file m) in
  match material_mapping with
  | [] => (true, m)
  | _ =>
      let '(updated, obj') := _update_obj_file D material_mapping (obj_file m) in
      match updated with
      | Raise _ => (false, {| obj_file := obj'; mtl_file := mtl_file m |})
      | Ret _ =>
          let '(rewritten, mtl') := _rewrite_mtl_file D material_mapping (mtl_file m) in
          (match rewritten with Ret _ => true | Raise _ => false end,
           {| obj_file := obj'; mtl_file := mtl' |})
      end
  end.

(** The material table of a mesh, as the standardizer reads it. *)
Definition material_table (m : mesh) : list (string * color) :=
  _parse_mtl_file (mtl_file m).

(** The names defined by the "newmtl" lines of an MTL file. *)
Definition defined_names (mtl : option (list mtl_line)) : list string :=
  match mtl with
  | None => []
  | Some lines => flat_map (fun l => match l with Newmtl n => [ n ] | _ => [] end) lines
  end.

End MaterialStandardizer.

(** ** USDZConverter (src/converter/usdz_converter.py) *)

Module USDZConverter.

(** The loop of [_parse_obj_file], which reads back the OBJ file a
    converter wrote: a "v" line gives a vertex, an "f" line a face of
    zero-based indices (the part of each corner before the first "/"), kept
    when it has at least three corners. *)
Fixpoint parse_lines (lines : list obj_line) (vertices : list vec3) (faces : list (list Z))
  : list vec3 * list (list Z) :=
  match lines with
  | [] => (vertices, faces)
  | line :: rest =>
      match line with
      | Vertex x y z => parse_lines rest (vertices ++ [ (x, y, z) ]) faces
      | Face idx =>
          let face := map (fun vertex_idx => (vertex_idx - 1)%Z) idx in
          parse_lines rest vertices
                      (if (3 <=? length face)%nat then faces ++ [ face ] else faces)
      | _ => parse_lines rest vertices faces
      end
  end.

(** [_parse_obj_file]; [None] is a path that cannot be opened, for which
    the handler leaves both lists empty. *)
Definition _parse_obj_file (obj : option (list obj_line)) : list vec3 * list (list Z) :=
  match obj with
  | None => ([], [])
  | Some lines => parse_lines lines [] []
  end.

End USDZConverter.

(** * Properties *)

(** ** Bond inference *)

Module BondFacts.

(** A bond as an index pair, smaller index first. *)
Definition ordered (p : nat * nat) : Prop := fst p < snd p.

(** The reverse of a pair does not occur in [l]. *)
Definition reverse_absent (l : list (nat * nat)) (p : nat * nat) : Prop :=
  ~ In (snd p, fst p) l.

Lemma ordered_filter_map (i : nat) (indices : list nat) :
  Forall ordered (map (fun j => (i, j)) (List.filter (fun j => (i <? j)%nat) indices)).
Proof.
  induction indices as [|j indices IH]; simpl.
  - constructor.
  - destruct (i <? j)%nat eqn:E; simpl; auto.
    constructor; auto. unfold ordered; simpl. now apply Nat.ltb_lt.
Qed.

Lemma ase_loop_ordered (nl : nat -> outcome (list nat)) (idxs : list nat) :
  forall acc bonds,
    Forall ordered acc ->
    ASEConverter.get_bonds_loop nl idxs acc = Ret bonds ->
    Forall ordered bonds.
Proof.
  induction idxs as [|i idxs IH]; simpl; intros acc bonds Hacc Hrun.
  - now inversion Hrun; subst.
  - destruct (nl i) as [indices|e]; [|discriminate].
    eapply IH; [|exact Hrun].
    apply Forall_app; split; [assumption|apply ordered_filter_map].
Qed.

Lemma ase_get_bonds_ordered (atoms : ASEConverter.Atoms) :
  Forall ordered (ASEConverter.get_bonds atoms).
Proof.
  unfold ASEConverter.get_bonds.
  destruct (ASEConverter.neighbor_list atoms) as [nl|e]; [|constructor].
  destruct (ASEConverter.get_bonds_loop nl _ []) as [bonds|e] eqn:E; [|constructor].
  eapply ase_loop_ordered; [|exact E]. constructor.
Qed.

Definition pair_of (b : nat * nat * R) : nat * nat := fst b.

Lemma pymatgen_filter_map_ordered (i : nat) (neighbors : list (nat * R)) :
  Forall (fun b => ordered (pair_of b))
         (map (fun n => (i, fst n, snd n))
              (List.filter (fun n => (i <? fst n)%nat) neighbors)).
Proof.
  induction neighbors as [|[j d] neighbors IH]; simpl.
  - constructor.
  - destruct (i <? j)%nat eqn:E; simpl; auto.
    constructor; auto. unfold ordered, pair_of; simpl. now apply Nat.ltb_lt.
Qed.

Lemma pymatgen_loop_ordered (nn : nat -> outcome (list (nat * R))) (idxs : list nat) :
  forall acc,
    Forall (fun b => ordered (pair_of b)) acc ->
    Forall (fun b => ordered (pair_of b)) (PymatgenConverter.get_bonds_loop nn idxs acc).
Proof.
  induction idxs as [|i idxs IH]; simpl; intros acc Hacc.
  - assumption.
  - destruct (nn i) as [neighbors|e]; [|now apply IH].
    apply IH. apply Forall_app; split; [assumption|apply pymatgen_filter_map_ordered].
Qed.

Lemma pymatgen_get_bonds_ordered (structure : PymatgenConverter.Structure) :
  Forall (fun b => ordered (pair_of b)) (PymatgenConverter.get_bonds structure).
Proof.
  unfold PymatgenConverter.get_bonds.
  destruct (PymatgenConverter.crystal_nn structure) as [nn|e]; [|constructor].
  apply pymatgen_loop_ordered. constructor.
Qed.

(** In a list of ordered pairs no pair occurs in both directions. *)
Lemma ordered_reverse_absent (l : list (nat * nat)) :
  Forall ordered l -> Forall (reverse_absent l) l.
Proof.
  intros H. apply List.Forall_forall. intros [i j] Hin Hrev.
  rewrite List.Forall_forall in H.
  pose proof (H _ Hin) as H1. pose proof (H _ Hrev) as H2.
  unfold ordered in *; simpl in *. lia.
Qed.

(** X27.  Both bond inferences return only pairs whose first index is below
    the second, so of the two directions of a pair at most one occurs in
    the list: ASEConverter.get_bonds for every [Atoms] object and every
    behaviour of ASE's neighbour list, PymatgenConverter.get_bonds for
    every structure and every behaviour of CrystalNN. *)
Theorem get_bonds_ordered_one_direction
        (atoms : ASEConverter.Atoms) (structure : PymatgenConverter.Structure) :
  let ase := ASEConverter.get_bonds atoms in
  let pmg := map pair_of (PymatgenConverter.get_bonds structure) in
  (Forall ordered ase /\ Forall (reverse_absent ase) ase)
  /\ (Forall ordered pmg /\ Forall (reverse_absent pmg) pmg).
Proof.
  assert (Hp : Forall ordered (map pair_of (PymatgenConverter.get_bonds structure))).
  { apply Forall_map, pymatgen_get_bonds_ordered. }
  pose proof (ase_get_bonds_ordered atoms) as Ha.
  cbv zeta. repeat split; auto using ordered_reverse_absent.
Qed.

(** A cell of two atoms, as the primitive cell of rock salt: the six
    nearest neighbours of atom 0 are six periodic images of atom 1, so the
    neighbour query of atom 0 returns the index 1 six times, once for each
    image. *)
Definition two_atom_cell : ASEConverter.Atoms :=
  {| ASEConverter.sites := [ ((0, 0, 0)%R, "Na"); ((2.82, 0, 0)%R, "Cl") ];
     ASEConverter.neighbor_list :=
       Ret (fun i => match i with 0 => Ret [ 1; 1; 1; 1; 1; 1 ] | _ => Ret [] end) |}.

(** The same cell as pymatgen sees it: [get_nn_info] of site 0 lists the
    six images, each with the index 1 of the site it is an image of. *)
Definition two_site_structure : PymatgenConverter.Structure :=
  {| PymatgenConverter.structure_len := 2;
     PymatgenConverter.crystal_nn :=
       Ret (fun i => match i with
                     | 0 => Ret [ (1, 1%R); (1, 1%R); (1, 1%R); (1, 1%R); (1, 1%R); (1, 1%R) ]
                     | _ => Ret [ (0, 1%R); (0, 1%R); (0, 1%R); (0, 1%R); (0, 1%R); (0, 1%R) ]
                     end) |}.

(** C5.  The test [i < j] keeps one direction of a pair and nothing else:
    a pair is listed once for every time the neighbour query returns its
    index.  On a cell of two atoms that are bonded through six periodic
    images, both bond inferences return the bond (0, 1) six times: the
    bond list has duplicates. *)
Theorem get_bonds_repeats_a_bond :
  ASEConverter.get_bonds two_atom_cell = repeat (0, 1) 6
  /\ ~ List.NoDup (ASEConverter.get_bonds two_atom_cell)
  /\ map pair_of (PymatgenConverter.get_bonds two_site_structure) = repeat (0, 1) 6
  /\ ~ List.NoDup (map pair_of (PymatgenConverter.get_bonds two_site_structure)).
Proof.
  assert (Hdup : ~ List.NoDup (repeat (0, 1) 6)).
  { intros H. inversion H as [|x l Hnot _]. apply Hnot. now left. }
  split; [reflexivity|]. split; [exact Hdup|]. split; [reflexivity|]. exact Hdup.
Qed.

End BondFacts.

(** ** Sphere tessellation *)

Module SphereFacts.

Lemma in_zrange (n k : Z) : In k (zrange n) <-> (0 <= k < n)%Z.
Proof.
  unfold zrange. rewrite in_map_iff. split.
  - intros [x [<- Hx]]. apply in_seq in Hx. lia.
  - intros H. exists (Z.to_nat k). split; [lia|]. apply in_seq. lia.
Qed.

Lemma nth_error_zrange (n : Z) (k : nat) :
  (k < Z.to_nat n)%nat -> nth_error (zrange n) k = Some (Z.of_nat k).
Proof.
  intros H. unfold zrange. rewrite nth_error_map.
  rewrite (nth_error_nth' _ 0%nat) by (rewrite length_seq; lia).
  rewrite seq_nth by lia. reflexivity.
Qed.

(** Every vertex of ring 0 is the south pole, whatever the segment. *)
Lemma south_pole_vertex (center : vec3) (radius : R) (resolution j : Z) :
  sphere_vertex center radius resolution 0 j
  = (fst (fst center), snd (fst center), snd center - radius)%R.
Proof.
  destruct center as [[cx cy] cz]. unfold sphere_vertex. simpl.
  assert (E : (PI * (-0.5 + 0 / IZR resolution) = - (PI / 2))%R).
  { unfold Rdiv at 1. rewrite Rmult_0_l. lra. }
  rewrite E, cos_neg, sin_neg, cos_PI2, sin_PI2. f_equal; [f_equal|]; lra.
Qed.

(** Every vertex of the last ring is the north pole. *)
Lemma north_pole_vertex (center : vec3) (radius : R) (resolution j : Z) :
  resolution <> 0%Z ->
  sphere_vertex center radius resolution resolution j
  = (fst (fst center), snd (fst center), snd center + radius)%R.
Proof.
  intros Hres. destruct center as [[cx cy] cz]. unfold sphere_vertex. simpl.
  assert (E : (PI * (-0.5 + IZR resolution / IZR resolution) = PI / 2)%R).
  { unfold Rdiv at 1. rewrite Rinv_r by (apply not_0_IZR; exact Hres). lra. }
  rewrite E, cos_PI2, sin_PI2. f_equal; [f_equal|]; lra.
Qed.

(** Indexing a concatenation of rows of equal length. *)
Lemma nth_error_flat_map_rows {A B} (f : A -> list B) (n : nat) (rows : list A) :
  (forall a, In a rows -> length (f a) = n) ->
  forall i j a,
    nth_error rows i = Some a -> (j < n)%nat ->
    nth_error (flat_map f rows) (i * n + j) = nth_error (f a) j.
Proof.
  induction rows as [|r rows IH]; intros Hlen i j a Hi Hj.
  - destruct i; discriminate.
  - simpl. destruct i as [|i]; simpl in *.
    + inversion Hi; subst. rewrite nth_error_app1; [reflexivity|].
      rewrite (Hlen a) by auto. exact Hj.
    + rewrite nth_error_app2 by (rewrite (Hlen r) by auto; lia).
      rewrite (Hlen r) by auto.
      replace (n + i * n + j - n)%nat with (i * n + j)%nat by lia.
      apply IH; auto.
Qed.

(** The vertex list is the grid in row-major order. *)
Lemma sphere_vertices_nth (center : vec3) (radius : R) (resolution : Z) (i j : nat) :
  (i <= Z.to_nat resolution)%nat -> (j < Z.to_nat (resolution * 2))%nat ->
  nth_error (sphere_vertices center radius resolution) (i * Z.to_nat (resolution * 2) + j)
  = Some (sphere_vertex center radius resolution (Z.of_nat i) (Z.of_nat j)).
Proof.
  intros Hi Hj. unfold sphere_vertices.
  set (row := fun i0 : Z =>
                map (fun j0 : Z => sphere_vertex center radius resolution i0 j0)
                    (zrange (resolution * 2))).
  assert (Hlen : forall a, In a (zrange (resolution + 1)) ->
                           length (row a) = Z.to_nat (resolution * 2)).
  { intros a _. unfold row. rewrite length_map. unfold zrange.
    now rewrite length_map, length_seq. }
  rewrite (nth_error_flat_map_rows row _ _ Hlen i j (Z.of_nat i)).
  - unfold row. rewrite nth_error_map, nth_error_zrange by exact Hj. reflexivity.
  - apply nth_error_zrange. lia.
  - exact Hj.
Qed.

(** PymatgenConverter.create_sphere emits, in the first cell of ring 0, a
    triangle whose first and third corners are vertices 0 and 1, both on
    the pole ring. *)
Lemma pymatgen_first_triangle (resolution : Z) :
  (0 < resolution)%Z ->
  In (0, resolution * 2, 1)%Z (PymatgenConverter.sphere_faces resolution).
Proof.
  intros H. unfold PymatgenConverter.sphere_faces.
  apply in_flat_map. exists 0%Z. split; [apply in_zrange; lia|].
  apply in_flat_map. exists 0%Z. split; [apply in_zrange; lia|].
  simpl. left. reflexivity.
Qed.

Lemma pymatgen_pole_triangle (center : vec3) (radius : R) (resolution : Z) :
  (0 < resolution)%Z ->
  let south := (fst (fst center), snd (fst center), snd center - radius)%R in
  In (0, resolution * 2, 1)%Z (PymatgenConverter.sphere_faces resolution)
  /\ pole_degenerate resolution (0, resolution * 2, 1)%Z = true
  /\ nth_error (sphere_vertices center radius resolution) 0 = Some south
  /\ nth_error (sphere_vertices center radius resolution) 1 = Some south.
Proof.
  intros H south. split; [now apply pymatgen_first_triangle|]. split.
  - unfold pole_degenerate, same_pole, ring_of.
    rewrite Z.div_0_l by lia.
    rewrite (Z.div_small 1) by lia. simpl. now rewrite orb_true_r.
  - pose proof (sphere_vertices_nth center radius resolution 0 0
                                     ltac:(lia) ltac:(lia)) as H0.
    pose proof (sphere_vertices_nth center radius resolution 0 1
                                     ltac:(lia) ltac:(lia)) as H1.
    change (Z.of_nat 0) with 0%Z in H0, H1.
    rewrite south_pole_vertex in H0, H1.
    split; [exact H0|exact H1].
Qed.

(** C7.  PymatgenConverter.create_sphere at its default resolution 20, for
    any centre and radius: the triangle (0, 40, 1) is emitted, and its
    corners 0 and 1 are the same point, the south pole.  The pole rows do
    produce degenerate triangles. *)
Theorem pymatgen_create_sphere_degenerate_at_pole (center : vec3) (radius : R) :
  exists vertices faces pole,
    PymatgenConverter.create_sphere center radius 20 = Ret (vertices, faces)
    /\ In (0, 40, 1)%Z faces
    /\ nth_error vertices 0 = Some pole
    /\ nth_error vertices 1 = Some pole.
Proof.
  destruct (pymatgen_pole_triangle center radius 20 ltac:(lia)) as (Hin & _ & H0 & H1).
  eexists _, _, _. split; [reflexivity|]. split; [exact Hin|]. split; [exact H0|exact H1].
Qed.





End SphereFacts.

(** ** Mesh building and the scale factor *)

Module ScaleFacts.

Import ASEConverter.

Definition origin : vec3 := (0, 0, 0)%R.

(** A two-atom cell and the surroundings it is converted in. *)
Definition example_env : Env :=
  {| covalent_radius :=
       fun s => if String.eqb s "Na" then Some 1.66%R
                else if String.eqb s "Cl" then Some 1.02%R else None;
     set_order := fun l => l;
     can_write := fun _ => true |}.

Definition example_atoms : Atoms :=
  {| sites := [ ((0, 0, 0)%R, "Na"); ((2.8, 0, 0)%R, "Cl") ];
     neighbor_list := Ret (fun i => match i with 0 => Ret [ 1 ] | _ => Ret [] end) |}.

Lemma vertices_of_app (a b : list obj_line) :
  vertices_of (a ++ b) = vertices_of a ++ vertices_of b.
Proof. unfold vertices_of. apply flat_map_app. Qed.

Lemma vertices_of_vertex_lines (vs : list vec3) :
  vertices_of (map vertex_line vs) = vs.
Proof.
  induction vs as [|[[x y] z] vs IH]; simpl; [reflexivity|]. now f_equal.
Qed.

Lemma vertices_of_face_lines (off : Z) (fs : list (list Z)) :
  vertices_of (map (face_line off) fs) = [].
Proof. induction fs as [|f fs IH]; simpl; auto. Qed.

(** Whether the sphere loop raises depends on the symbols and the
    resolution, not on positions or scale. *)
Lemma atoms_loop_raised (E : Env) (sr : Z) (s1 s2 : R) :
  forall todo1 todo2 i off1 off2 acc1 acc2,
    map snd todo1 = map snd todo2 ->
    raised (atoms_loop E sr s1 i todo1 off1 acc1)
    = raised (atoms_loop E sr s2 i todo2 off2 acc2).
Proof.
  induction todo1 as [|[p1 sym1] todo1 IH]; intros [|[p2 sym2] todo2] i off1 off2 acc1 acc2 H;
    simpl in H; try discriminate; simpl.
  - reflexivity.
  - inversion H as [[Hs Ht]]; subst sym2.
    destruct (covalent_radius E sym1) as [r|]; [|reflexivity].
    unfold create_sphere_obj. destruct (sr =? 0)%Z; [reflexivity|].
    now apply IH.
Qed.

(** Whether the bond loop raises depends on the number of positions. *)
Lemma bonds_loop_raised (br : Z) (s1 s2 : R) (pos1 pos2 : list vec3) :
  length pos1 = length pos2 ->
  forall bonds off1 off2 acc1 acc2,
    raised (bonds_loop pos1 br s1 bonds off1 acc1)
    = raised (bonds_loop pos2 br s2 bonds off2 acc2).
Proof.
  intros Hlen. induction bonds as [|[i j] bonds IH]; intros off1 off2 acc1 acc2; simpl.
  { reflexivity. }
  assert (Hn : forall k, (nth_error pos1 k = None) <-> (nth_error pos2 k = None)).
  { intros k. rewrite !nth_error_None. lia. }
  destruct (nth_error pos1 i) as [a1|] eqn:E1, (nth_error pos2 i) as [a2|] eqn:E2;
    try (apply Hn in E1; congruence); try (apply Hn in E2; congruence);
    try reflexivity.
  destruct (nth_error pos1 j) as [b1|] eqn:F1, (nth_error pos2 j) as [b2|] eqn:F2;
    try (apply Hn in F1; congruence); try (apply Hn in F2; congruence);
    try reflexivity.
  destruct (create_cylinder_obj a1 b1 _ br) as [v1 f1].
  destruct (create_cylinder_obj a2 b2 _ br) as [v2 f2].
  apply IH.
Qed.

Lemma build_content_raised (E : Env) (atoms : option Atoms) (obj_path : string)
      (include_bonds : bool) (sr br : Z) (s1 s2 : R) :
  raised (build_content E atoms obj_path include_bonds sr br s1)
  = raised (build_content E atoms obj_path include_bonds sr br s2).
Proof.
  unfold build_content. destruct atoms as [atoms|]; [|reflexivity].
  set (pos1 := map (fun s => scale (fst s) s1) (sites atoms)).
  set (pos2 := map (fun s => scale (fst s) s2) (sites atoms)).
  set (syms := map snd (sites atoms)).
  assert (Hl : length pos1 = length pos2) by (unfold pos1, pos2; now rewrite !length_map).
  assert (Hs : map snd (combine pos1 syms) = map snd (combine pos2 syms)).
  { assert (G : forall (p : list vec3) (q : list string),
               length p = length q -> map snd (combine p q) = q).
    { induction p as [|x p IH]; intros [|y q] H; simpl in *; try discriminate;
        [reflexivity|]. f_equal. apply IH. lia. }
    rewrite !G; [reflexivity| |]; unfold pos1, pos2, syms; now rewrite !length_map. }
  pose proof (atoms_loop_raised E sr s1 s2 _ _ 0%nat 0%Z 0%Z
                [ Mtllib (PyStr.basename (PyStr.replace ".obj" ".mtl" obj_path)); ObjText "" ]
                [ Mtllib (PyStr.basename (PyStr.replace ".obj" ".mtl" obj_path)); ObjText "" ]
                Hs) as Ha.
  destruct (atoms_loop E sr s1 _ _ _ _) as [[o1 off1]|e1],
           (atoms_loop E sr s2 _ _ _ _) as [[o2 off2]|e2];
    simpl in Ha; try discriminate; try reflexivity.
  destruct include_bonds; [|reflexivity].
  pose proof (bonds_loop_raised br s1 s2 pos1 pos2 Hl (get_bonds atoms) off1 off2
                (o1 ++ [ Usemtl "bond" ""; Group "bonds" ])
                (o2 ++ [ Usemtl "bond" ""; Group "bonds" ])) as Hb.
  destruct (bonds_loop pos1 _ _ _ _ _) as [[c1 k1]|e1],
           (bonds_loop pos2 _ _ _ _ _) as [[c2 k2]|e2];
    simpl in Hb; try discriminate; reflexivity.
Qed.

(** The success flag of [convert_to_obj] is the same for every scale
    factor. *)
Lemma convert_to_obj_flag_any_scale (E : Env) (atoms : option Atoms) (obj_path : string)
      (include_bonds : bool) (sr br : Z) (s1 s2 : R) :
  fst (convert_to_obj E atoms obj_path include_bonds sr br s1)
  = fst (convert_to_obj E atoms obj_path include_bonds sr br s2).
Proof.
  unfold convert_to_obj.
  pose proof (build_content_raised E atoms obj_path include_bonds sr br s1 s2) as H.
  destruct (build_content E atoms obj_path include_bonds sr br s1) as [[o1 m1]|e1],
           (build_content E atoms obj_path include_bonds sr br s2) as [[o2 m2]|e2];
    simpl in H; try discriminate; try reflexivity.
  destruct (can_write E obj_path); [|reflexivity].
  destruct (can_write E _); reflexivity.
Qed.

Lemma scale_zero (p : vec3) : scale p 0 = origin.
Proof. destruct p as [[x y] z]. unfold scale, origin. f_equal; [f_equal|]; ring. Qed.

Lemma sphere_vertex_zero_radius (r : R) (resolution i j : Z) :
  sphere_vertex origin (r * 0.5 * 0) resolution i j = origin.
Proof. unfold sphere_vertex, origin. f_equal; [f_equal|]; ring. Qed.

Lemma sphere_vertices_zero_radius (r : R) (resolution : Z) :
  Forall (fun v => v = origin) (sphere_vertices origin (r * 0.5 * 0) resolution).
Proof.
  apply List.Forall_forall. intros v Hin. unfold sphere_vertices in Hin.
  apply in_flat_map in Hin. destruct Hin as [i [_ Hin]].
  apply in_map_iff in Hin. destruct Hin as [j [<- _]].
  apply sphere_vertex_zero_radius.
Qed.

(** A bond between two atoms at the same point yields no cylinder. *)
Lemma cylinder_of_zero_length (p : vec3) (radius : R) (resolution : Z) :
  create_cylinder_obj p p radius resolution = ([], []).
Proof.
  unfold create_cylinder_obj.
  destruct (Req_dec_T (norm (vsub p p)) 0) as [_|n]; [reflexivity|].
  exfalso. apply n. destruct p as [[x y] z]. simpl.
  replace ((x - x) * (x - x) + (y - y) * (y - y) + (z - z) * (z - z))%R with 0%R by ring.
  apply sqrt_0.
Qed.

Lemma vertices_of_atom_block (acc : list obj_line) (material group : string)
      (vs : list vec3) (off : Z) (fs : list (list Z)) :
  vertices_of (acc ++ [ Usemtl material ""; Group group ]
                   ++ map vertex_line vs ++ map (face_line off) fs ++ [ ObjText "" ])
  = vertices_of acc ++ vs.
Proof.
  rewrite !vertices_of_app, vertices_of_vertex_lines, vertices_of_face_lines.
  simpl. now rewrite app_nil_r.
Qed.

Lemma atoms_loop_zero_scale (E : Env) (sr : Z) :
  forall todo i off acc obj off',
    Forall (fun x => fst x = origin) todo ->
    Forall (fun v => v = origin) (vertices_of acc) ->
    atoms_loop E sr 0 i todo off acc = Ret (obj, off') ->
    Forall (fun v => v = origin) (vertices_of obj).
Proof.
  induction todo as [|[p sym] todo IH]; intros i off acc obj off' Ht Hacc Hrun;
    cbn [atoms_loop] in Hrun.
  - now inversion Hrun; subst.
  - inversion Ht as [|? ? Hp Ht']; subst. simpl in Hp. subst p.
    destruct (covalent_radius E sym) as [r|]; [|discriminate].
    unfold create_sphere_obj in Hrun. destruct (sr =? 0)%Z; [discriminate|].
    eapply IH; [exact Ht'| |exact Hrun].
    rewrite vertices_of_atom_block.
    apply Forall_app. split; [exact Hacc|apply sphere_vertices_zero_radius].
Qed.

Lemma bonds_loop_zero_scale (positions : list vec3) (br : Z) :
  Forall (fun v => v = origin) positions ->
  forall bonds off acc obj off',
    Forall (fun v => v = origin) (vertices_of acc) ->
    bonds_loop positions br 0 bonds off acc = Ret (obj, off') ->
    Forall (fun v => v = origin) (vertices_of obj).
Proof.
  intros Hpos. induction bonds as [|[i j] bonds IH]; intros off acc obj off' Hacc Hrun;
    cbn [bonds_loop] in Hrun.
  - now inversion Hrun; subst.
  - rewrite List.Forall_forall in Hpos.
    destruct (nth_error positions i) as [a|] eqn:Ei; [|discriminate].
    destruct (nth_error positions j) as [b|] eqn:Ej; [|discriminate].
    apply nth_error_In, Hpos in Ei. apply nth_error_In, Hpos in Ej. subst a b.
    rewrite cylinder_of_zero_length in Hrun. cbn [map length app] in Hrun.
    eapply IH; [|exact Hrun]. now rewrite app_nil_r.
Qed.

(** With scale factor 0 every vertex written lies at the origin. *)
Lemma convert_to_obj_zero_scale (E : Env) (atoms : option Atoms) (obj_path : string)
      (include_bonds : bool) (sr br : Z) :
  Forall (fun v => v = origin)
         (vertices_of (written_obj
                         (snd (convert_to_obj E atoms obj_path include_bonds sr br 0)))).
Proof.
  assert (G : forall obj mtl,
             build_content E atoms obj_path include_bonds sr br 0 = Ret (obj, mtl) ->
             Forall (fun v => v = origin) (vertices_of obj)).
  { intros obj mtl Hb. unfold build_content in Hb.
    destruct atoms as [atoms|]; [|discriminate].
    set (positions := map (fun s => scale (fst s) 0) (sites atoms)) in *.
    assert (Hpos : Forall (fun v => v = origin) positions).
    { apply List.Forall_forall. intros v Hin. apply in_map_iff in Hin.
      destruct Hin as [x [<- _]]. apply scale_zero. }
    assert (Htodo : Forall (fun x => fst x = origin)
                           (combine positions (map snd (sites atoms)))).
    { apply List.Forall_forall. intros [v sym] Hin. apply in_combine_l in Hin.
      rewrite List.Forall_forall in Hpos. simpl. now apply Hpos. }
    destruct (atoms_loop E sr 0 0 _ 0%Z _) as [[o off]|e] eqn:Ea; [|discriminate].
    apply atoms_loop_zero_scale in Ea; [|exact Htodo|constructor].
    destruct include_bonds.
    - destruct (bonds_loop positions br 0 _ off _) as [[o' off']|e] eqn:Eb; [|discriminate].
      apply bonds_loop_zero_scale in Eb; [|exact Hpos|].
      + inversion Hb; subst. rewrite vertices_of_app. simpl. now rewrite app_nil_r.
      + rewrite vertices_of_app. simpl. now rewrite app_nil_r.
    - now inversion Hb; subst. }
  unfold convert_to_obj.
  destruct (build_content E atoms obj_path include_bonds sr br 0) as [[obj mtl]|e] eqn:Eb;
    [|constructor].
  specialize (G obj mtl eq_refl).
  destruct (can_write E obj_path); [|constructor].
  destruct (can_write E _); simpl; now rewrite ?app_nil_r.
Qed.

(** Only the built-in backend of ReliableCIFConverter receives the scale
    factor; without it the scale factor is never read. *)
Lemma try_converter_scale (self : ReliableCIFConverter.t) (name cif obj : string)
      (include_bonds : bool) (s1 s2 : R) :
  ReliableCIFConverter.builtin self = None ->
  ReliableCIFConverter._try_converter self name cif obj include_bonds s1
  = ReliableCIFConverter._try_converter self name cif obj include_bonds s2.
Proof.
  intros H. unfold ReliableCIFConverter._try_converter. rewrite H. reflexivity.
Qed.

Lemma attempts_scale (self : ReliableCIFConverter.t) (cif obj : string)
      (include_bonds : bool) (s1 s2 : R) :
  ReliableCIFConverter.builtin self = None ->
  forall order,
    ReliableCIFConverter.attempts self order cif obj include_bonds s1
    = ReliableCIFConverter.attempts self order cif obj include_bonds s2.
Proof.
  intros H. induction order as [|name order IH]; simpl; [reflexivity|].
  unfold ReliableCIFConverter.attempt.
  rewrite (try_converter_scale self name cif obj include_bonds s1 s2 H), IH.
  reflexivity.
Qed.

Lemma reliable_scale_only_builtin (self : ReliableCIFConverter.t) (cif obj : string)
      (preferred : option string) (include_bonds : bool) (s1 s2 : R) :
  ReliableCIFConverter.builtin self = None ->
  ReliableCIFConverter.convert_cif_to_obj self cif obj preferred include_bonds s1
  = ReliableCIFConverter.convert_cif_to_obj self cif obj preferred include_bonds s2.
Proof.
  intros H. unfold ReliableCIFConverter.convert_cif_to_obj,
             ReliableCIFConverter.convert_body.
  now rewrite (attempts_scale self cif obj include_bonds s1 s2 H).
Qed.

(** When [convert_to_obj] succeeds: every symbol has a radius, the sphere
    resolution is not zero, the bonds stay within the atoms, and both files
    can be written. *)
Definition buildable (E : Env) (atoms : Atoms) (obj_path : string)
           (include_bonds : bool) (sr : Z) : bool :=
  forallb (fun x => match covalent_radius E (snd x) with Some _ => true | None => false end)
          (sites atoms)
  && negb (sr =? 0)%Z
  && (negb include_bonds
      || forallb (fun b => (fst b <? length (sites atoms))%nat
                           && (snd b <? length (sites atoms))%nat) (get_bonds atoms))
  && can_write E obj_path
  && can_write E (PyStr.replace ".obj" ".mtl" obj_path).

Lemma atoms_loop_returns (E : Env) (sr : Z) (s : R) :
  (sr =? 0)%Z = false ->
  forall todo i off acc,
    forallb (fun x => match covalent_radius E (snd x) with Some _ => true | None => false end)
            todo = true ->
    raised (atoms_loop E sr s i todo off acc) = false.
Proof.
  intros Hsr. induction todo as [|[p sym] todo IH]; intros i off acc H; simpl in *.
  - reflexivity.
  - apply andb_true_iff in H. destruct H as [H1 H2].
    destruct (covalent_radius E sym); [|discriminate].
    unfold create_sphere_obj. rewrite Hsr. now apply IH.
Qed.

Lemma bonds_loop_returns (positions : list vec3) (br : Z) (s : R) :
  forall bonds off acc,
    forallb (fun b => (fst b <? length positions)%nat && (snd b <? length positions)%nat)
            bonds = true ->
    raised (bonds_loop positions br s bonds off acc) = false.
Proof.
  induction bonds as [|[i j] bonds IH]; intros off acc H; simpl in *.
  - reflexivity.
  - apply andb_true_iff in H. destruct H as [H1 H2].
    apply andb_true_iff in H1. destruct H1 as [Hi Hj].
    apply Nat.ltb_lt in Hi. apply Nat.ltb_lt in Hj.
    destruct (nth_error positions i) eqn:Ei; [|apply nth_error_None in Ei; lia].
    destruct (nth_error positions j) eqn:Ej; [|apply nth_error_None in Ej; lia].
    destruct (create_cylinder_obj _ _ _ _). now apply IH.
Qed.

Lemma buildable_converts (E : Env) (atoms : Atoms) (obj_path : string)
      (include_bonds : bool) (sr br : Z) (s : R) :
  buildable E atoms obj_path include_bonds sr = true ->
  fst (convert_to_obj E (Some atoms) obj_path include_bonds sr br s) = true.
Proof.
  unfold buildable. rewrite !andb_true_iff. intros [[[[Hr Hsr] Hb] Ho] Hm].
  apply negb_true_iff in Hsr.
  assert (Hbc : raised (build_content E (Some atoms) obj_path include_bonds sr br s) = false).
  { unfold build_content.
    set (positions := map (fun x => scale (fst x) s) (sites atoms)).
    assert (Hc : forallb (fun x => match covalent_radius E (snd x) with
                                   | Some _ => true | None => false end)
                         (combine positions (map snd (sites atoms))) = true).
    { apply forallb_forall. intros [v sym] Hin. apply in_combine_r in Hin.
      apply in_map_iff in Hin. destruct Hin as [x [Hx Hin]]. simpl in *. subst sym.
      rewrite forallb_forall in Hr. now apply Hr. }
    pose proof (atoms_loop_returns E sr s Hsr _ 0%nat 0%Z
                  [ Mtllib (PyStr.basename (PyStr.replace ".obj" ".mtl" obj_path));
                    ObjText "" ] Hc) as Ha.
    destruct (atoms_loop E sr s 0 _ 0%Z _) as [[o off]|e]; [|discriminate].
    destruct include_bonds; [|reflexivity].
    simpl in Hb.
    assert (Hb' : forallb (fun b => (fst b <? length positions)%nat
                                    && (snd b <? length positions)%nat)
                          (get_bonds atoms) = true).
    { unfold positions. now rewrite length_map. }
    pose proof (bonds_loop_returns positions br s (get_bonds atoms) off
                  (o ++ [ Usemtl "bond" ""; Group "bonds" ]) Hb') as Hl.
    destruct (bonds_loop positions br s _ off _) as [[o' off']|e]; [|discriminate].
    reflexivity. }
  unfold convert_to_obj.
  destruct (build_content E (Some atoms) obj_path include_bonds sr br s) as [[o m]|e];
    [|discriminate].
  now rewrite Ho, Hm.
Qed.

(** C3, as the code has it.  Mesh building never checks the scale factor.
    For every structure and every setting, ASEConverter.convert_to_obj
    returns the same success flag for every scale factor as for 1, and with
    scale factor 0 every vertex it writes is the origin; and
    ReliableCIFConverter.convert_cif_to_obj hands the scale factor to the
    built-in backend only, so without that backend its result is the same
    for every scale factor. *)
Theorem scale_factor_is_not_validated
        (E : Env) (atoms : option Atoms) (obj_path : string)
        (include_bonds : bool) (sr br : Z) :
  (forall s : R,
      fst (convert_to_obj E atoms obj_path include_bonds sr br s)
      = fst (convert_to_obj E atoms obj_path include_bonds sr br 1))
  /\ Forall (fun v => v = origin)
            (vertices_of (written_obj
                            (snd (convert_to_obj E atoms obj_path include_bonds sr br 0))))
  /\ (forall (self : ReliableCIFConverter.t) (cif obj : string)
             (preferred : option string) (s : R),
         ReliableCIFConverter.builtin self = None ->
         ReliableCIFConverter.convert_cif_to_obj self cif obj preferred include_bonds s
         = ReliableCIFConverter.convert_cif_to_obj self cif obj preferred include_bonds 1).
Proof.
  split; [|split].
  - intros s. apply convert_to_obj_flag_any_scale.
  - apply convert_to_obj_zero_scale.
  - intros self cif obj preferred s H. now apply reliable_scale_only_builtin.
Qed.

(** C3 as stated fails: with the default settings and scale factor 0 the
    two-atom cell is built successfully, and 1680 vertices are written, all
    of them the origin. *)
Lemma zero_scale_build_succeeds :
  let built := convert_to_obj example_env (Some example_atoms) "NaCl.obj" true 20 8 0 in
  fst built = true
  /\ Forall (fun v => v = origin) (vertices_of (written_obj (snd built))).
Proof.
  cbv zeta. split.
  - apply buildable_converts. reflexivity.
  - apply convert_to_obj_zero_scale.
Qed.

End ScaleFacts.

(** ** Fallback between parsing backends *)

Module FallbackFacts.
Import ReliableCIFConverter.
Local Open Scope eff_scope.

(** A converter whose pymatgen backend rejects the file and whose ASE
    backend reads it and writes the OBJ file. *)
Definition example_parsed : parsed :=
  {| parsed_len := 8;
     convert_to_obj := fun obj files =>
       (Ret true, <[ obj := {| is_dir := false; size := 4096 |} ]> files);
     get_bonds_len := fun files => (Ret 24, files) |}.

Definition example_self : t :=
  {| pymatgen := Some {| pymatgen_read_cif := fun _ files =>
                           (Raise (Exception "Invalid CIF file with no structures!"), files) |};
     ase := Some {| ase_read_cif := fun _ files => (Ret (Some example_parsed), files) |};
     builtin := None;
     analyze := fun _ _ => Some (1680, 3040) |}.

Definition example_world : world :=
  {| fs := {[ "NaCl.cif" := {| is_dir := false; size := 1024 |} ]}; trace := [] |}.

(** One backend is tried: the call is recorded and [_try_converter] runs. *)
Definition tried (self : t) (name cif_file obj_file : string)
           (include_bonds : bool) (scale_factor : R) : M state bool :=
  in_world (note (Called name "_try_converter")) ;;
  _try_converter self name cif_file obj_file include_bonds scale_factor.

(** [m] leaves the warnings of the result and the record of calls as they
    are. *)
Definition keeps_warnings {A} (m : M state A) : Prop :=
  forall s r s', m s = (r, s') ->
    warnings (result_of s') = warnings (result_of s)
    /\ trace (world_of s') = trace (world_of s).

Lemma keeps_ret {A} (a : A) : keeps_warnings (ret a).
Proof. intros s r s' H. inversion H; subst. auto. Qed.

Lemma keeps_raise {A} (e : exn) : keeps_warnings (@raise state A e).
Proof. intros s r s' H. inversion H; subst. auto. Qed.

Lemma keeps_bind {A B} (m : M state A) (k : A -> M state B) :
  keeps_warnings m -> (forall a, keeps_warnings (k a)) -> keeps_warnings (bind m k).
Proof.
  intros Hm Hk s r s' H. unfold bind in H.
  destruct (m s) as [[a|e] s1] eqn:E.
  - apply Hk in H. apply Hm in E. destruct H, E. split; congruence.
  - inversion H; subst. now apply Hm in E.
Qed.

Lemma keeps_external {A} (f : external A) : keeps_warnings (in_world (run_external f)).
Proof.
  intros s r s' H. unfold in_world, run_external, zoom in H.
  destruct (f (fs (world_of s))) as [r0 fs']. inversion H; subst. auto.
Qed.

Lemma keeps_path_exists (p : string) : keeps_warnings (in_world (path_exists p)).
Proof. intros s r s' H. inversion H; subst. destruct s; auto. Qed.

Lemma keeps_getsize (p : string) : keeps_warnings (in_world (getsize p)).
Proof.
  intros s r s' H. unfold in_world, zoom, getsize in H.
  destruct (fs (world_of s) !! p); inversion H; subst; destruct s; auto.
Qed.

Lemma keeps_update (f : result -> result) :
  (forall r, warnings (f r) = warnings r) -> keeps_warnings (update f).
Proof. intros Hf s r s' H. inversion H; subst. simpl. split; [apply Hf|reflexivity]. Qed.

Lemma keeps_get : keeps_warnings (@get state).
Proof. intros s r s' H. inversion H; subst. auto. Qed.

Ltac keeps_with tac :=
  repeat first
    [ apply keeps_ret | apply keeps_raise | apply keeps_external | apply keeps_get
    | (apply keeps_update; intros; reflexivity)
    | tac
    | (apply keeps_bind; [|intros ?]) ].

Lemma keeps_analyze (self : t) (obj_file : string) :
  keeps_warnings (_analyze_obj_file self obj_file).
Proof.
  unfold _analyze_obj_file. apply keeps_bind; [apply keeps_get|]. intros s.
  destruct (analyze self obj_file _) as [[v f]|]; [|apply keeps_ret].
  now apply keeps_update.
Qed.

Lemma keeps_after_convert (self : t) (p : parsed) (obj_file : string) (ok : bool) :
  keeps_warnings (after_convert self p obj_file ok).
Proof.
  unfold after_convert. destruct ok; [|apply keeps_ret].
  keeps_with ltac:(apply keeps_analyze).
Qed.

Lemma keeps_try_converter (self : t) (name cif_file obj_file : string)
      (include_bonds : bool) (scale_factor : R) :
  keeps_warnings (_try_converter self name cif_file obj_file include_bonds scale_factor).
Proof.
  unfold _try_converter.
  destruct (String.eqb name "pymatgen").
  { destruct (pymatgen self); [|apply keeps_raise]. unfold _try_pymatgen.
    keeps_with ltac:(apply keeps_after_convert). }
  destruct (String.eqb name "ase").
  { destruct (ase self); [|apply keeps_raise]. unfold _try_ase.
    apply keeps_bind; [apply keeps_external|]. intros [parsed_atoms|]; [|apply keeps_ret].
    apply keeps_bind; [apply keeps_external|]. intros ok. apply keeps_after_convert. }
  destruct (String.eqb name "builtin"); [|apply keeps_ret].
  destruct (builtin self); [|apply keeps_raise]. unfold _try_builtin.
  apply keeps_bind; [apply keeps_external|]. intros ok.
  destruct (negb ok); [apply keeps_ret|].
  apply keeps_bind; [apply keeps_external|]. intros [ok' [[[n1 n2] n3] n4]].
  destruct ok'; [|apply keeps_ret].
  keeps_with fail.
Qed.

(** The state once the call to [name] has been recorded. *)
Definition noted (name : string) (s : state) : state :=
  {| world_of := {| fs := fs (world_of s);
                    trace := trace (world_of s) ++ [ Called name "_try_converter" ] |};
     result_of := result_of s |}.

Lemma tried_noted (self : t) (name cif_file obj_file : string)
      (include_bonds : bool) (scale_factor : R) (s : state) :
  tried self name cif_file obj_file include_bonds scale_factor s
  = _try_converter self name cif_file obj_file include_bonds scale_factor (noted name s).
Proof. reflexivity. Qed.

(** The record of calls and the warnings only grow. *)
Definition log_extends (s s' : state) : Prop :=
  (exists t, trace (world_of s') = trace (world_of s) ++ t)
  /\ (exists ws, warnings (result_of s') = warnings (result_of s) ++ ws).

Lemma log_extends_refl (s : state) : log_extends s s.
Proof. split; exists []; now rewrite app_nil_r. Qed.

Lemma log_extends_trans (a b c : state) :
  log_extends a b -> log_extends b c -> log_extends a c.
Proof.
  intros [[t1 H1] [w1 G1]] [[t2 H2] [w2 G2]]. split.
  - exists (t1 ++ t2). now rewrite H2, H1, app_assoc.
  - exists (w1 ++ w2). now rewrite G2, G1, app_assoc.
Qed.

(** The state once the failure of [name] with [e] has been recorded. *)
Definition failed (name : string) (e : exn) (s : state) : state :=
  {| world_of := world_of s;
     result_of := add_warning (name ++ " 转换器失败: " ++ str e) (result_of s) |}.

(** What a pass of the loop does, by the outcome of the backend. *)
Lemma attempt_cases (self : t) (name cif_file obj_file : string)
      (include_bonds : bool) (scale_factor : R) (s : state) :
  match tried self name cif_file obj_file include_bonds scale_factor s with
  | (Ret true, s1) =>
      exists s',
        attempt self name cif_file obj_file include_bonds scale_factor s = (Ret true, s')
        /\ success (result_of s') = true
        /\ converter_used (result_of s') = Some name
        /\ log_extends s1 s'
  | (Ret false, s1) =>
      attempt self name cif_file obj_file include_bonds scale_factor s = (Ret false, s1)
  | (Raise e, s1) =>
      attempt self name cif_file obj_file include_bonds scale_factor s
      = (Ret false, failed name e s1)
  end.
Proof.
  rewrite tried_noted. unfold attempt, try_except, bind. cbn [in_world zoom note modify].
  change ({| world_of := {| fs := fs (world_of s);
                           trace := trace (world_of s) ++ [ Called name "_try_converter" ] |};
            result_of := result_of s |}) with (noted name s).
  destruct (_try_converter self name cif_file obj_file include_bonds scale_factor
                           (noted name s)) as [[[|]|e] s1] eqn:E.
  - unfold update, modify, path_exists, getsize, in_world, zoom, ret. cbn.
    destruct (fs (world_of s1) !! obj_file) as [n|] eqn:En; cbn; rewrite ?En; cbn;
      destruct (String.eqb name "pymatgen" || String.eqb name "ase"); cbn;
      eexists; (split; [reflexivity|]); cbn; (split; [reflexivity|]);
      (split; [reflexivity|]); (split; [exists []; now rewrite app_nil_r|]);
      first [ exists []; cbn; now rewrite app_nil_r
            | exists blender_hints; cbn; now rewrite <- app_assoc ].
  - reflexivity.
  - reflexivity.
Qed.

Lemma log_extends_noted (name : string) (s : state) : log_extends s (noted name s).
Proof. split; [eexists; reflexivity|exists []; now rewrite app_nil_r]. Qed.

Lemma log_extends_failed (name : string) (e : exn) (s : state) :
  log_extends s (failed name e s).
Proof. split; [exists []; now rewrite app_nil_r|eexists; reflexivity]. Qed.

Lemma kept_extends {A} (m : M state A) (s s' : state) (r : outcome A) :
  keeps_warnings m -> m s = (r, s') -> log_extends s s'.
Proof.
  intros Hk H. apply Hk in H. destruct H as [H1 H2].
  split; exists []; now rewrite app_nil_r.
Qed.

(** A pass of the loop returns; it never raises. *)
Lemma attempt_total (self : t) (name cif_file obj_file : string)
      (include_bonds : bool) (scale_factor : R) (s : state) :
  exists b s',
    attempt self name cif_file obj_file include_bonds scale_factor s = (Ret b, s')
    /\ log_extends s s'.
Proof.
  pose proof (attempt_cases self name cif_file obj_file include_bonds scale_factor s) as H.
  destruct (tried self name cif_file obj_file include_bonds scale_factor s)
    as [[[|]|e] s1] eqn:E;
    rewrite tried_noted in E;
    pose proof (kept_extends _ _ _ _ (keeps_try_converter _ _ _ _ _ _) E) as Hk;
    pose proof (log_extends_trans _ _ _ (log_extends_noted name s) Hk) as Hs.
  - destruct H as (s' & H & _ & _ & Hl). exists true, s'. split; [exact H|].
    eapply log_extends_trans; eauto.
  - exists false, s1. auto.
  - exists false, (failed name e s1). split; [exact H|].
    eapply log_extends_trans; [exact Hs|apply log_extends_failed].
Qed.

(** The loop returns; it never raises. *)
Lemma attempts_total (self : t) (cif_file obj_file : string)
      (include_bonds : bool) (scale_factor : R) (order : list string) :
  forall s, exists b s',
    attempts self order cif_file obj_file include_bonds scale_factor s = (Ret b, s')
    /\ log_extends s s'.
Proof.
  induction order as [|name order IH]; intros s; cbn [attempts].
  - exists false, s. split; [reflexivity|apply log_extends_refl].
  - destruct (negb (has self name)); [apply IH|].
    unfold bind.
    destruct (attempt_total self name cif_file obj_file include_bonds scale_factor s)
      as (b & s1 & Ha & Hl).
    rewrite Ha. destruct b.
    + exists true, s1. auto.
    + destruct (IH s1) as (b & s2 & Hb & Hl2). exists b, s2. split; [exact Hb|].
      eapply log_extends_trans; eauto.
Qed.

(** Every backend of the order is configured. *)
Lemma order_has (self : t) (preferred : option string) (name : string) :
  In name (_get_converter_order self preferred) -> has self name = true.
Proof.
  unfold _get_converter_order. intros H.
  assert (G : In name (List.filter (has self) default_order) -> has self name = true).
  { intros G. now apply filter_In in G. }
  destruct preferred as [p|]; [|auto].
  destruct (negb (String.eqb p "") && has self p) eqn:E; [|auto].
  destruct H as [<-|H].
  - now apply andb_true_iff in E.
  - apply filter_In in H. destruct H as [_ H]. now apply andb_true_iff in H.
Qed.

Lemma extends_warning (a b : state) (x : string) :
  log_extends a b -> In x (warnings (result_of a)) -> In x (warnings (result_of b)).
Proof. intros [_ [ws H]] Hin. rewrite H. apply in_or_app. now left. Qed.

Lemma extends_trace (a b : state) (x : event) :
  log_extends a b -> In x (trace (world_of a)) -> In x (trace (world_of b)).
Proof. intros [[t H] _] Hin. rewrite H. apply in_or_app. now left. Qed.

(** C6.  When the first backend of the order raises, its failure is added
    to the warnings and the second backend is attempted; the call returns a
    result whose warnings hold the first backend's failure, and if the
    second backend succeeds the result reports success through it. *)
Theorem parse_falls_back_to_secondary
        (self : t) (w : world) (cif_file obj_file : string) (preferred : option string)
        (include_bonds : bool) (scale_factor : R)
        (primary secondary : string) (rest : list string) (e : exn) (s1 : state) :
  is_Some (fs w !! cif_file) ->
  _get_converter_order self preferred = primary :: secondary :: rest ->
  tried self primary cif_file obj_file include_bonds scale_factor
        {| world_of := w; result_of := initial_result |} = (Raise e, s1) ->
  exists r w',
    convert_cif_to_obj self cif_file obj_file preferred include_bonds scale_factor w
    = (Ret r, w')
    /\ In (Called secondary "_try_converter") (trace w')
    /\ In (primary ++ " 转换器失败: " ++ str e)%string (warnings r)
    /\ (forall s2,
           tried self secondary cif_file obj_file include_bonds scale_factor
                 (failed primary e s1) = (Ret true, s2) ->
           success r = true /\ converter_used r = Some secondary).
Proof.
  intros Hcif Horder Hprimary.
  assert (Hp : has self primary = true).
  { apply (order_has self preferred). rewrite Horder. now left. }
  assert (Hs : has self secondary = true).
  { apply (order_has self preferred). rewrite Horder. right. now left. }
  pose proof (attempt_cases self primary cif_file obj_file include_bonds scale_factor
                {| world_of := w; result_of := initial_result |}) as H1.
  rewrite Hprimary in H1.
  pose proof (attempt_cases self secondary cif_file obj_file include_bonds scale_factor
                (failed primary e s1)) as H2.
  assert (Hw : In (primary ++ " 转换器失败: " ++ str e)%string
                  (warnings (result_of (noted secondary (failed primary e s1))))).
  { cbn. apply in_or_app. right. now left. }
  assert (Ht : In (Called secondary "_try_converter")
                  (trace (world_of (noted secondary (failed primary e s1))))).
  { cbn. apply in_or_app. right. now left. }
  unfold convert_cif_to_obj, convert_body, bind.
  unfold in_world at 1, zoom, path_exists. cbn [world_of].
  rewrite (bool_decide_eq_true_2 _ Hcif). cbn [negb].
  rewrite Horder. cbn [attempts]. rewrite Hp, Hs. cbn [negb]. unfold bind.
  cbn [world_of result_of]. rewrite H1. cbn beta iota.
  destruct (tried self secondary cif_file obj_file include_bonds scale_factor
                  (failed primary e s1)) as [[[|]|e2] s2] eqn:E2;
    rewrite tried_noted in E2;
    pose proof (kept_extends _ _ _ _ (keeps_try_converter _ _ _ _ _ _) E2) as Hk.
  - destruct H2 as (s' & H2 & Hsucc & Hused & Hl). rewrite H2. cbn beta iota.
    exists (result_of s'), (world_of s'). split; [reflexivity|].
    pose proof (log_extends_trans _ _ _ Hk Hl) as Hl'.
    split; [now apply (extends_trace _ _ _ Hl')|].
    split; [now apply (extends_warning _ _ _ Hl')|]. auto.
  - rewrite H2. cbn beta iota.
    destruct (attempts_total self cif_file obj_file include_bonds scale_factor rest s2)
      as (b & s3 & Hb & Hl).
    rewrite Hb. pose proof (log_extends_trans _ _ _ Hk Hl) as Hl'.
    destruct b; cbn; eexists _, _; (split; [reflexivity|]);
      (split; [now apply (extends_trace _ _ _ Hl')|]);
      (split; [now apply (extends_warning _ _ _ Hl')|]); intros ? ?; discriminate.
  - rewrite H2. cbn beta iota.
    destruct (attempts_total self cif_file obj_file include_bonds scale_factor rest
                             (failed secondary e2 s2)) as (b & s3 & Hb & Hl).
    rewrite Hb.
    pose proof (log_extends_trans _ _ _ Hk
                  (log_extends_trans _ _ _ (log_extends_failed secondary e2 s2) Hl)) as Hl'.
    destruct b; cbn; eexists _, _; (split; [reflexivity|]);
      (split; [now apply (extends_trace _ _ _ Hl')|]);
      (split; [now apply (extends_warning _ _ _ Hl')|]); intros ? ?; discriminate.
Qed.

Lemma parse_falls_back_witness :
  let e := Exception "Invalid CIF file with no structures!" in
  let s1 := noted "pymatgen" {| world_of := example_world; result_of := initial_result |} in
  is_Some (fs example_world !! "NaCl.cif")
  /\ _get_converter_order example_self None = [ "pymatgen"; "ase" ]
  /\ tried example_self "pymatgen" "NaCl.cif" "NaCl.obj" true 1
           {| world_of := example_world; result_of := initial_result |} = (Raise e, s1)
  /\ exists r w',
      convert_cif_to_obj example_self "NaCl.cif" "NaCl.obj" None true 1 example_world
      = (Ret r, w')
      /\ In (Called "ase" "_try_converter") (trace w')
      /\ In ("pymatgen" ++ " 转换器失败: " ++ str e)%string (warnings r)
      /\ (forall s2,
             tried example_self "ase" "NaCl.cif" "NaCl.obj" true 1
                   (failed "pymatgen" e s1) = (Ret true, s2) ->
             success r = true /\ converter_used r = Some "ase").
Proof.
  cbv zeta.
  assert (H1 : is_Some (fs example_world !! "NaCl.cif")) by (eexists; reflexivity).
  assert (H2 : _get_converter_order example_self None = [ "pymatgen"; "ase" ])
    by reflexivity.
  assert (H3 : tried example_self "pymatgen" "NaCl.cif" "NaCl.obj" true 1
                     {| world_of := example_world; result_of := initial_result |}
               = (Raise (Exception "Invalid CIF file with no structures!"),
                  noted "pymatgen"
                        {| world_of := example_world; result_of := initial_result |}))
    by reflexivity.
  split; [exact H1|]. split; [exact H2|]. split; [exact H3|].
  exact (parse_falls_back_to_secondary example_self example_world "NaCl.cif" "NaCl.obj"
           None true 1 "pymatgen" "ase" [] _ _ H1 H2 H3).
Defined.

(** On that input the ASE backend does succeed, and the result says so. *)
Example parse_falls_back_run :
  exists r w',
    convert_cif_to_obj example_self "NaCl.cif" "NaCl.obj" None true 1 example_world
    = (Ret r, w')
    /\ success r = true
    /\ converter_used r = Some "ase"
    /\ warnings r = "pymatgen 转换器失败: Invalid CIF file with no structures!"
                      :: blender_hints
    /\ trace w' = [ Called "pymatgen" "_try_converter"; Called "ase" "_try_converter" ].
Proof. eexists _, _. split; [vm_compute; reflexivity|]. repeat split. Qed.
End FallbackFacts.

(** ** Invariants of stateful code *)

Module EffFacts.

(** [I] survives [m], whatever [m] returns or raises. *)
Definition invariant {S A} (I : S -> Prop) (m : M S A) : Prop :=
  forall s r s', m s = (r, s') -> I s -> I s'.

Lemma inv_ret {S A} (I : S -> Prop) (a : A) : invariant I (ret a).
Proof. intros s r s' H. now inversion H; subst. Qed.

Lemma inv_raise {S A} (I : S -> Prop) (e : exn) : invariant I (@raise S A e).
Proof. intros s r s' H. now inversion H; subst. Qed.

Lemma inv_get {S} (I : S -> Prop) : invariant I (@get S).
Proof. intros s r s' H. now inversion H; subst. Qed.

Lemma inv_modify {S} (I : S -> Prop) (f : S -> S) :
  (forall s, I s -> I (f s)) -> invariant I (modify f).
Proof. intros Hf s r s' H. inversion H; subst. apply Hf. Qed.

Lemma inv_bind {S A B} (I : S -> Prop) (m : M S A) (k : A -> M S B) :
  invariant I m -> (forall a, invariant I (k a)) -> invariant I (bind m k).
Proof.
  intros Hm Hk s r s' H Hs. unfold bind in H.
  destruct (m s) as [[a|e] s1] eqn:E.
  - eapply Hk; [exact H|]. eapply Hm; eauto.
  - inversion H; subst. eapply Hm; eauto.
Qed.

Lemma inv_try_except {S A} (I : S -> Prop) (m : M S A) (h : exn -> M S A) :
  invariant I m -> (forall e, invariant I (h e)) -> invariant I (try_except m h).
Proof.
  intros Hm Hh s r s' H Hs. unfold try_except in H.
  destruct (m s) as [[a|e] s1] eqn:E.
  - inversion H; subst. eapply Hm; eauto.
  - eapply Hh; [exact H|]. eapply Hm; eauto.
Qed.

Lemma inv_zoom {S T A} (I : S -> Prop) (proj : S -> T) (upd : T -> S -> S) (m : M T A) :
  (forall s r t', m (proj s) = (r, t') -> I s -> I (upd t' s)) ->
  invariant I (zoom proj upd m).
Proof.
  intros Hm s r s' H Hs. unfold zoom in H.
  destruct (m (proj s)) as [r0 t'] eqn:E. inversion H; subst. eapply Hm; eauto.
Qed.

(** [m] returns; it never raises. *)
Definition returns {S A} (m : M S A) : Prop :=
  forall s, exists a s', m s = (Ret a, s').

Lemma returns_try_except {S A} (m : M S A) (h : exn -> M S A) :
  (forall e, returns (h e)) -> returns (try_except m h).
Proof.
  intros Hh s. unfold try_except. destruct (m s) as [[a|e] s1]; [eauto|apply Hh].
Qed.

End EffFacts.

Import EffFacts.

(** ** The orchestrator and its packaging backends *)

Module OrchestratorFacts.
Import CIFToUSDZConverter.
Local Open Scope eff_scope.

(** *** A converter to run examples on *)

(** A Pixar backend that reports success and leaves an empty output file,
    and an Apple backend that writes a proper one. *)
Definition pixar_empty : usdz_converter :=
  {| has_is_available := true;
     is_available := fun files => (Ret true, files);
     has_convert_obj_to_usdz := true;
     convert_obj_to_usdz := fun _ out _ files =>
       (Ret (Tuple2 true "Pixar USD转换成功"),
        <[ out := {| is_dir := false; size := 0 |} ]> files) |}.

Definition apple_good : usdz_converter :=
  {| has_is_available := false;
     is_available := fun files => (Ret true, files);
     has_convert_obj_to_usdz := true;
     convert_obj_to_usdz := fun _ out _ files =>
       (Ret (Tuple2 true "Apple USD转换成功"),
        <[ out := {| is_dir := false; size := 2048 |} ]> files) |}.

Definition example_kernel : Kernel :=
  {| temp_name := fun prefix _ => Some ("/tmp/" ++ prefix ++ "k3x9")%string;
     rmtree_fails := fun _ _ => false;
     rmtree_removed := fun _ _ _ => false |}.

Definition example_converter : t :=
  {| kernel := example_kernel;
     cif_converters := [ ("reliable", reliable FallbackFacts.example_self) ];
     usdz_converters := {[ "pixar_usd" := pixar_empty; "apple_usd" := apple_good ]} |}.

Definition example_instance : instance :=
  {| the_world := FallbackFacts.example_world; self_temp_dir := None |}.

Definition example_state : state :=
  {| world_of := FallbackFacts.example_world; temp_dir := None;
     info := {| cif_file := "NaCl.cif"; output_file := "NaCl.usdz"; steps := [];
                output_size := None; error := None |};
     attempts_so_far := [] |}.

(** The call the model records when a backend's method is run. *)
Definition call_of (p : priority) : event := Called (key p) (method p).

(** What one pass of the backend loop leaves behind. *)
Record pass_spec (p : priority) (output_path : string) (s : state)
       (r : outcome (option (bool * string * usdz_info))) (s' : state) : Prop := {
  pass_temp_dir : temp_dir s' = temp_dir s;
  pass_info : info s' = info s;
  pass_record : exists a, attempts_so_far s' = attempts_so_far s ++ [ a ]
                          /\ converter a = name p
                          /\ match r with
                             | Ret (Some (ok, msg, ui)) =>
                                 ok = true /\ success a = true
                                 /\ msg = (name p ++ "转换成功")%string
                                 /\ used_converter ui = Some (key p)
                                 /\ used_converter_name ui = Some (name p)
                                 /\ conversion_attempts ui = attempts_so_far s'
                                 /\ is_Some (fs (world_of s') !! output_path)
                                 /\ trace (world_of s') = trace (world_of s) ++ [ call_of p ]
                             | Ret None =>
                                 success a = false \/ fs (world_of s') !! output_path = None
                             | Raise _ => False
                             end;
  pass_trace : trace (world_of s') = trace (world_of s)
               \/ trace (world_of s') = trace (world_of s) ++ [ call_of p ]
}.

Ltac pass_record :=
  eexists; split; [reflexivity|]; split; [reflexivity|]; cbn;
  first [ now left
        | right; assumption
        | repeat split; first [ reflexivity | eexists; eassumption ] ].

Ltac solve_pass :=
  let H := fresh "H" in
  intros H; inversion H; subst; clear H;
  split; cbn; [ reflexivity | reflexivity | pass_record | auto ].

(** After the availability check: the method is probed, called, and its
    result read. *)
Lemma call_backend_spec (p : priority) (conv : usdz_converter)
      (obj_file_path output_path : string) (mtl_file_path : option string) (s : state) :
  forall r s',
    try_except
      (if has_convert_obj_to_usdz conv then
         in_world (note (Called (key p) (method p))) ;;
         let* convert_result :=
           in_world (run_external
                       (convert_obj_to_usdz conv obj_file_path output_path
                                            mtl_file_path)) in
         let* (ok, msg) := read_result convert_result in
         push {| converter := name p; success := ok; message := msg;
                 error_type := if ok then None else Some "conversion_failed" |} ;;
         let* present := in_world (path_exists output_path) in
         if ok && present then
           let* s := get in
           ret (Some (true, (name p ++ "转换成功")%string,
                      {| used_converter := Some (key p);
                         used_converter_name := Some (name p);
                         conversion_attempts := attempts_so_far s |}))
         else ret None
       else
         push {| converter := name p; success := false;
                 message := "转换器 " ++ name p ++ " 不支持" ++ method p ++ "方法";
                 error_type := Some "method_not_supported" |} ;;
         ret None)
      (fun e =>
         push {| converter := name p; success := false;
                 message := name p ++ "转换器执行异常: " ++ str e;
                 error_type := Some "exception" |} ;;
         ret None) s = (r, s') ->
    pass_spec p output_path s r s'.
Proof.
  intros r s'.
  unfold try_except, bind, push, modify, in_world, run_external, zoom,
    note, path_exists, get, read_result, ret, raise.
  destruct (has_convert_obj_to_usdz conv); cbn; [|solve_pass].
  destruct (convert_obj_to_usdz conv obj_file_path output_path mtl_file_path
                                (fs (world_of s))) as [[[ok msg| |ok msg|truth]|e] fs1];
    cbn; try solve_pass.
  - destruct (fs1 !! output_path) as [n|] eqn:En; destruct ok; cbn; solve_pass.
  - destruct (fs1 !! output_path) as [n|] eqn:En; destruct ok as [[|]|]; cbn; solve_pass.
  - destruct (fs1 !! output_path) as [n|] eqn:En; destruct truth; cbn; solve_pass.
Qed.

(** The availability check never raises; it either skips the backend,
    leaving an "unavailable" record, or leaves no record at all. *)
Lemma check_available_spec (conv : usdz_converter) (converter_name : string) (s : state) :
  forall r s1,
    check_available conv converter_name s = (r, s1) ->
    temp_dir s1 = temp_dir s /\ info s1 = info s
    /\ trace (world_of s1) = trace (world_of s)
    /\ ((r = Ret false /\ attempts_so_far s1 = attempts_so_far s)
        \/ (r = Ret true
            /\ exists a, attempts_so_far s1 = attempts_so_far s ++ [ a ]
                         /\ converter a = converter_name /\ success a = false)).
Proof.
  intros r s1.
  unfold check_available, try_except, bind, push, modify, in_world, run_external, zoom,
    ret, raise.
  destruct (has_is_available conv); cbn.
  - destruct (is_available conv (fs (world_of s))) as [[[|]|e] fs1]; cbn;
      intros H; inversion H; subst; cbn; repeat split; auto.
    right. split; [reflexivity|]. eexists. repeat split; reflexivity.
  - intros H; inversion H; subst; cbn; repeat split; auto.
Qed.

Lemma try_backend_spec (self : t) (p : priority) (obj_file_path output_path : string)
      (mtl_file_path : option string) (s : state) :
  forall r s',
    try_backend self p obj_file_path output_path mtl_file_path s = (r, s') ->
    pass_spec p output_path s r s'.
Proof.
  intros r s'. unfold try_backend.
  destruct (usdz_converters self !! key p) as [conv|]; [|solve_pass].
  unfold bind at 1.
  destruct (check_available conv (name p) s) as [r1 s1] eqn:Ec.
  apply check_available_spec in Ec.
  destruct Ec as (Ht & Hi & Htr & [[-> Ha]|[-> (a & Ha & Hc & Hs)]]).
  - intros H. apply call_backend_spec in H. destruct H as [H1 H2 H3 H4].
    rewrite Ha in H3. rewrite Htr in H3, H4.
    split; [congruence|congruence|exact H3|exact H4].
  - intros H. inversion H; subst. split; [congruence|congruence| |now left].
    exists a. auto.
Qed.

(** The names of the backends, in priority order. *)
Definition priority_names : list string := map name converter_priority.

(** What the backend loop leaves behind. *)
Record loop_spec (todo : list priority) (output_path : string) (s : state)
       (r : outcome (option (bool * string * usdz_info))) (s' : state) : Prop := {
  loop_temp_dir : temp_dir s' = temp_dir s;
  loop_info : info s' = info s;
  loop_records :
    exists records called,
      attempts_so_far s' = attempts_so_far s ++ records
      /\ map converter records = firstn (length records) (map name todo)
      /\ sublist called (firstn (length records) todo)
      /\ trace (world_of s') = trace (world_of s) ++ map call_of called
      /\ match r with
         | Ret (Some (ok, msg, ui)) =>
             ok = true
             /\ conversion_attempts ui = attempts_so_far s'
             /\ is_Some (fs (world_of s') !! output_path)
             /\ exists earlier winner p,
                 records = earlier ++ [ winner ]
                 /\ nth_error todo (length earlier) = Some p
                 /\ success winner = true
                 /\ msg = (name p ++ "转换成功")%string
                 /\ used_converter ui = Some (key p)
                 /\ used_converter_name ui = Some (name p)
                 /\ exists before, called = before ++ [ p ]
         | Ret None => length records = length todo
         | Raise _ => False
         end
}.

Lemma try_backends_spec (self : t) (obj_file_path output_path : string)
      (mtl_file_path : option string) (todo : list priority) :
  forall s r s',
    try_backends self todo obj_file_path output_path mtl_file_path s = (r, s') ->
    loop_spec todo output_path s r s'.
Proof.
  induction todo as [|p todo IH]; intros s r s' H; cbn [try_backends] in H.
  - inversion H; subst. split; auto.
    exists [], []. cbn. rewrite !app_nil_r. repeat split; auto; constructor.
  - unfold bind in H.
    destruct (try_backend self p obj_file_path output_path mtl_file_path s)
      as [r1 s1] eqn:E1.
    apply try_backend_spec in E1. destruct E1 as [Ht Hi (a & Ha & Hc & Hr) Htr].
    destruct r1 as [[[[ok msg] ui]|]|e]; [| |contradiction].
    + inversion H; subst.
      destruct Hr as (-> & Hs & -> & Hu & Hn & Hca & Hout & Htrace).
      split; auto.
      exists [ a ], [ p ]. cbn.
      split; [exact Ha|]. split; [now rewrite Hc|].
      split; [apply sublist_skip; constructor|]. split; [exact Htrace|].
      split; [reflexivity|]. split; [exact Hca|]. split; [exact Hout|].
      exists [], a, p. cbn. repeat split; auto. now exists [].
    + apply IH in H.
      destruct H as [Ht' Hi' (records & called & Hrec & Hnames & Hsub & Htrace & Hres)].
      split; [congruence|congruence|].
      assert (Hrec' : attempts_so_far s' = attempts_so_far s ++ a :: records).
      { rewrite Hrec, Ha, <- app_assoc. reflexivity. }
      assert (Hnames' : map converter (a :: records)
                        = firstn (length (a :: records)) (map name (p :: todo))).
      { cbn. now rewrite Hc, Hnames. }
      assert (Hres' : forall called',
                 (exists before, called' = before ++ called) ->
                 match r with
                 | Ret (Some (ok, msg, ui)) =>
                     ok = true
                     /\ conversion_attempts ui = attempts_so_far s'
                     /\ is_Some (fs (world_of s') !! output_path)
                     /\ exists earlier winner p0,
                         a :: records = earlier ++ [ winner ]
                         /\ nth_error (p :: todo) (length earlier) = Some p0
                         /\ success winner = true
                         /\ msg = (name p0 ++ "转换成功")%string
                         /\ used_converter ui = Some (key p0)
                         /\ used_converter_name ui = Some (name p0)
                         /\ exists before, called' = before ++ [ p0 ]
                 | Ret None => length (a :: records) = length (p :: todo)
                 | Raise _ => False
                 end).
      { intros called' [pre Hpre].
        destruct r as [[[[ok msg] ui]|]|e]; [| |contradiction].
        - destruct Hres as (-> & Hca & Hout & earlier & winner & q & Hre & Hnth & Hw
                            & Hm & Hu & Hn & before & Hb).
          split; [reflexivity|]. split; [exact Hca|]. split; [exact Hout|].
          exists (a :: earlier), winner, q. cbn. rewrite Hre.
          repeat split; auto.
          exists (pre ++ before). rewrite Hpre, Hb. now rewrite app_assoc.
        - cbn. now rewrite Hres. }
      destruct Htr as [Htr|Htr].
      * exists (a :: records), called.
        split; [exact Hrec'|]. split; [exact Hnames'|].
        split; [now apply sublist_cons|]. split; [now rewrite Htrace, Htr|].
        apply Hres'. now exists [].
      * exists (a :: records), (p :: called).
        split; [exact Hrec'|]. split; [exact Hnames'|].
        split; [now apply sublist_skip|].
        split; [cbn; rewrite Htrace, Htr, <- app_assoc; reflexivity|].
        apply Hres'. now exists [ p ].
Qed.

(** What [_convert_obj_to_usdz] returns and leaves behind. *)
Record usdz_spec (output_path : string) (s : state)
       (ok : bool) (msg : string) (ui : usdz_info) (s' : state) : Prop := {
  usdz_temp_dir : temp_dir s' = temp_dir s;
  usdz_info_kept : info s' = info s;
  usdz_names :
    map converter (conversion_attempts ui)
    = firstn (length (conversion_attempts ui)) priority_names;
  usdz_calls :
    exists called,
      sublist called (firstn (length (conversion_attempts ui)) converter_priority)
      /\ trace (world_of s') = trace (world_of s) ++ map call_of called
      /\ (ok = true ->
          exists before p, called = before ++ [ p ] /\ used_converter ui = Some (key p));
  usdz_exhausted : ok = false -> length (conversion_attempts ui) = 3;
  usdz_won :
    ok = true ->
    is_Some (fs (world_of s') !! output_path)
    /\ exists earlier winner p,
        conversion_attempts ui = earlier ++ [ winner ]
        /\ nth_error converter_priority (length earlier) = Some p
        /\ success winner = true
        /\ converter winner = name p
        /\ used_converter ui = Some (key p)
        /\ used_converter_name ui = Some (name p)
        /\ msg = (name p ++ "转换成功")%string
}.

Lemma convert_obj_to_usdz_spec (self : t) (obj_file_path output_path : string)
      (opts : options) (s : state) :
  exists ok msg ui s',
    _convert_obj_to_usdz self obj_file_path output_path opts s = (Ret (ok, msg, ui), s')
    /\ usdz_spec output_path s ok msg ui s'.
Proof.
  unfold _convert_obj_to_usdz, try_except, bind.
  unfold set_attempts at 1, modify. unfold in_world at 1, zoom, path_exists. cbn [world_of].
  match goal with
  | |- context [ try_backends self converter_priority obj_file_path output_path ?m ?s0 ] =>
      destruct (try_backends self converter_priority obj_file_path output_path m s0)
        as [r s1] eqn:E
  end.
  apply try_backends_spec in E.
  destruct E as [Ht Hi (records & called & Hrec & Hnames & Hsub & Htrace & Hres)].
  cbn in Ht, Hi, Hrec, Htrace.
  destruct r as [[[[ok msg] ui]|]|e]; [| |contradiction].
  - destruct Hres as (-> & Hca & Hout & earlier & winner & p & Hre & Hnth & Hw & Hm
                      & Hu & Hn & before & Hb).
    exists true, msg, ui, s1. split; [reflexivity|].
    rewrite Hrec in Hca.
    split; auto; rewrite Hca.
    + exact Hnames.
    + exists called. repeat split; auto. intros _. exists before, p. auto.
    + discriminate.
    + intros _. split; [exact Hout|]. exists earlier, winner, p.
      repeat split; auto.
      assert (Hc : nth_error (map converter records) (length earlier)
                   = Some (converter winner)).
      { rewrite Hre, map_app, nth_error_app2 by (rewrite length_map; lia).
        rewrite length_map, Nat.sub_diag. reflexivity. }
      rewrite Hnames in Hc.
      assert (Hlt : (length earlier < length records)%nat).
      { rewrite Hre, length_app. cbn. lia. }
      rewrite nth_error_firstn in Hc.
      destruct (length earlier <? length records)%nat eqn:El;
        [|apply Nat.ltb_ge in El; lia].
      rewrite nth_error_map, Hnth in Hc. cbn in Hc. congruence.
  - cbn. eexists false, _, _, s1. split; [reflexivity|].
    cbn. rewrite Hrec.
    split; auto.
    + exists called. repeat split; auto. discriminate.
    + discriminate.
Qed.

(** *** The attempt loop, backend by backend *)

(** A record of a backend that did not convert. *)
Definition failure_record (p : priority) (msg kind : string) : attempt :=
  {| converter := name p; success := false; message := msg; error_type := Some kind |}.

(** The availability check lets the loop go on to the call: the backend has
    no [is_available], or it answers [True], or it raises, which is logged
    and ignored.  [files'] are the files after the check. *)
Definition passes_check (conv : usdz_converter) (files files' : gmap string node) : Prop :=
  if has_is_available conv
  then is_available conv files = (Ret true, files')
       \/ exists e, is_available conv files = (Raise e, files')
  else files' = files.

(** What the loop makes of a backend that passed the check, from what the
    backend does on the files [files]: the record it leaves, whether the
    method was called, whether the backend wins, and the files afterwards.
    A backend wins when it reports success and the output path exists; the
    size of the output is not looked at. *)
Inductive backend_call (conv : usdz_converter) (obj_file_path output_path : string)
          (mtl_file_path : option string) (p : priority) (files : gmap string node)
  : attempt -> bool -> bool -> gmap string node -> Prop :=
| call_unsupported :
    has_convert_obj_to_usdz conv = false ->
    backend_call conv obj_file_path output_path mtl_file_path p files
      (failure_record p ("转换器 " ++ name p ++ " 不支持" ++ method p ++ "方法")
                      "method_not_supported")
      false false files
| call_raised e files' :
    has_convert_obj_to_usdz conv = true ->
    convert_obj_to_usdz conv obj_file_path output_path mtl_file_path files
    = (Raise e, files') ->
    backend_call conv obj_file_path output_path mtl_file_path p files
      (failure_record p (name p ++ "转换器执行异常: " ++ str e) "exception")
      true false files'
| call_unreadable r e files' :
    has_convert_obj_to_usdz conv = true ->
    convert_obj_to_usdz conv obj_file_path output_path mtl_file_path files
    = (Ret r, files') ->
    (forall s, read_result r s = (Raise e, s)) ->
    backend_call conv obj_file_path output_path mtl_file_path p files
      (failure_record p (name p ++ "转换器执行异常: " ++ str e) "exception")
      true false files'
| call_reported r ok msg files' :
    has_convert_obj_to_usdz conv = true ->
    convert_obj_to_usdz conv obj_file_path output_path mtl_file_path files
    = (Ret r, files') ->
    (forall s, read_result r s = (Ret (ok, msg), s)) ->
    backend_call conv obj_file_path output_path mtl_file_path p files
      {| converter := name p; success := ok; message := msg;
         error_type := if ok then None else Some "conversion_failed" |}
      true (ok && bool_decide (is_Some (files' !! output_path))) files'.

(** One backend of the priority list, reached with the files [files]. *)
Inductive backend_pass (self : t) (obj_file_path output_path : string)
          (mtl_file_path : option string) (p : priority) (files : gmap string node)
  : attempt -> bool -> bool -> gmap string node -> Prop :=
| pass_not_configured :
    usdz_converters self !! key p = None ->
    backend_pass self obj_file_path output_path mtl_file_path p files
      (failure_record p "转换器未配置" "not_configured") false false files
| pass_unavailable conv files' :
    usdz_converters self !! key p = Some conv ->
    has_is_available conv = true ->
    is_available conv files = (Ret false, files') ->
    backend_pass self obj_file_path output_path mtl_file_path p files
      (failure_record p "转换器不可用" "unavailable") false false files'
| pass_checked conv files1 a called won files' :
    usdz_converters self !! key p = Some conv ->
    passes_check conv files files1 ->
    backend_call conv obj_file_path output_path mtl_file_path p files1 a called won files' ->
    backend_pass self obj_file_path output_path mtl_file_path p files a called won files'.

(** The loop over the backends still to be tried: the records left, the
    backends whose method was called, the winner if there is one, and the
    files afterwards.  The loop stops at the first backend that wins. *)
Inductive attempt_loop (self : t) (obj_file_path output_path : string)
          (mtl_file_path : option string)
  : list priority -> gmap string node ->
    list attempt -> list priority -> option priority -> gmap string node -> Prop :=
| loop_exhausted files :
    attempt_loop self obj_file_path output_path mtl_file_path [] files [] [] None files
| loop_won p rest files a called files' :
    backend_pass self obj_file_path output_path mtl_file_path p files a called true files' ->
    attempt_loop self obj_file_path output_path mtl_file_path (p :: rest) files
                 [ a ] [ p ] (Some p) files'
| loop_next p rest files a called files1 records calls winner files' :
    backend_pass self obj_file_path output_path mtl_file_path p files a called false files1 ->
    attempt_loop self obj_file_path output_path mtl_file_path rest files1
                 records calls winner files' ->
    attempt_loop self obj_file_path output_path mtl_file_path (p :: rest) files
                 (a :: records) ((if called then [ p ] else []) ++ calls) winner files'.

(** What a pass returns when the backend wins. *)
Definition winning (p : priority) (records : list attempt) : bool * string * usdz_info :=
  (true, (name p ++ "转换成功")%string,
   {| used_converter := Some (key p); used_converter_name := Some (name p);
      conversion_attempts := records |}).

(** The state after a step that left the record [a], made the calls
    [calls] and left the files [files']. *)
Definition advanced (s : state) (a : list attempt) (calls : list priority)
           (files' : gmap string node) : state :=
  {| world_of := {| fs := files'; trace := trace (world_of s) ++ map call_of calls |};
     temp_dir := temp_dir s; info := info s;
     attempts_so_far := attempts_so_far s ++ a |}.

Lemma call_backend_pass (p : priority) (conv : usdz_converter)
      (obj_file_path output_path : string) (mtl_file_path : option string) (s : state) :
  exists a called won files',
    backend_call conv obj_file_path output_path mtl_file_path p (fs (world_of s))
                 a called won files'
    /\ try_except
         (if has_convert_obj_to_usdz conv then
            in_world (note (Called (key p) (method p))) ;;
            let* convert_result :=
              in_world (run_external
                          (convert_obj_to_usdz conv obj_file_path output_path
                                               mtl_file_path)) in
            let* (ok, msg) := read_result convert_result in
            push {| converter := name p; success := ok; message := msg;
                    error_type := if ok then None else Some "conversion_failed" |} ;;
            let* present := in_world (path_exists output_path) in
            if ok && present then
              let* s := get in
              ret (Some (true, (name p ++ "转换成功")%string,
                         {| used_converter := Some (key p);
                            used_converter_name := Some (name p);
                            conversion_attempts := attempts_so_far s |}))
            else ret None
          else
            push {| converter := name p; success := false;
                    message := "转换器 " ++ name p ++ " 不支持" ++ method p ++ "方法";
                    error_type := Some "method_not_supported" |} ;;
            ret None)
         (fun e =>
            push {| converter := name p; success := false;
                    message := name p ++ "转换器执行异常: " ++ str e;
                    error_type := Some "exception" |} ;;
            ret None) s
       = (Ret (if won then Some (winning p (attempts_so_far s ++ [ a ])) else None),
          advanced s [ a ] (if called then [ p ] else []) files').
Proof.
  unfold try_except, bind, push, modify, in_world, run_external, zoom,
    note, path_exists, get, ret, raise, advanced, winning.
  destruct (has_convert_obj_to_usdz conv) eqn:Hm; cbn.
  2:{ eexists _, false, false, _. split; [now apply call_unsupported|].
      cbn. rewrite app_nil_r. destruct s as [[f tr] d i l]. reflexivity. }
  destruct (convert_obj_to_usdz conv obj_file_path output_path mtl_file_path
                                (fs (world_of s))) as [[r|e] fs1] eqn:Hc; cbn.
  2:{ eexists _, true, false, _. split; [eapply call_raised; eauto|]. reflexivity. }
  destruct r as [ok msg| |ok msg|truth]; cbn.
  - eexists _, true, _, _. split.
    + eapply (call_reported _ _ _ _ _ _ _ ok msg); eauto.
    + cbn. destruct ok, (bool_decide (is_Some (fs1 !! output_path))); reflexivity.
  - eexists _, true, false, _. split.
    + eapply call_unreadable; eauto; intros s0; reflexivity.
    + reflexivity.
  - eexists _, true, _, _. split.
    + eapply (call_reported _ _ _ _ _ _ _ (default false ok) (default "未知结果" msg)); eauto.
    + cbn. destruct (default false ok), (bool_decide (is_Some (fs1 !! output_path)));
        reflexivity.
  - eexists _, true, _, _. split.
    + eapply (call_reported _ _ _ _ _ _ _ truth (if truth then "转换完成" else "转换失败"));
        eauto; intros s0; reflexivity.
    + cbn. destruct truth, (bool_decide (is_Some (fs1 !! output_path))); reflexivity.
Qed.

(** The state with other files. *)
Definition with_files (s : state) (files : gmap string node) : state :=
  {| world_of := {| fs := files; trace := trace (world_of s) |};
     temp_dir := temp_dir s; info := info s; attempts_so_far := attempts_so_far s |}.

(** The availability check lets the backend through, or skips it with a
    record. *)
Lemma check_available_pass (conv : usdz_converter) (p : priority) (s : state) :
  (exists files1,
      passes_check conv (fs (world_of s)) files1
      /\ check_available conv (name p) s = (Ret false, with_files s files1))
  \/ (exists files1,
        has_is_available conv = true
        /\ is_available conv (fs (world_of s)) = (Ret false, files1)
        /\ check_available conv (name p) s
           = (Ret true,
              advanced s [ failure_record p "转换器不可用" "unavailable" ] [] files1)).
Proof.
  unfold check_available, try_except, bind, push, modify, in_world, run_external, zoom,
    ret, raise, passes_check, with_files, advanced.
  destruct (has_is_available conv) eqn:Ha; cbn.
  - destruct (is_available conv (fs (world_of s))) as [[[|]|e] fs1] eqn:Hav; cbn.
    + left. exists fs1. split; [now left|reflexivity].
    + right. exists fs1. rewrite app_nil_r. now repeat split.
    + left. exists fs1. split; [right; eauto|reflexivity].
  - left. exists (fs (world_of s)). split; [reflexivity|].
    destruct s as [[f tr] d i l]. reflexivity.
Qed.

Lemma try_backend_pass (self : t) (p : priority) (obj_file_path output_path : string)
      (mtl_file_path : option string) (s : state) :
  exists a called won files',
    backend_pass self obj_file_path output_path mtl_file_path p (fs (world_of s))
                 a called won files'
    /\ try_backend self p obj_file_path output_path mtl_file_path s
       = (Ret (if won then Some (winning p (attempts_so_far s ++ [ a ])) else None),
          advanced s [ a ] (if called then [ p ] else []) files').
Proof.
  unfold try_backend.
  destruct (usdz_converters self !! key p) as [conv|] eqn:Hk.
  2:{ eexists _, false, false, _. split; [now apply pass_not_configured|].
      unfold bind, push, modify, ret, advanced. cbn. rewrite app_nil_r.
      destruct s as [[f tr] d i l]. reflexivity. }
  unfold bind at 1.
  destruct (check_available_pass conv p s)
    as [(files1 & Hcheck & ->)|(files1 & Ha & Hav & ->)].
  - destruct (call_backend_pass p conv obj_file_path output_path mtl_file_path
                                (with_files s files1))
      as (a & called & won & files' & Hcall & Hrun).
    exists a, called, won, files'. split; [eapply pass_checked; eauto|]. exact Hrun.
  - eexists _, false, false, _. split; [eapply pass_unavailable; eauto|]. reflexivity.
Qed.

(** A backend that wins was called, reported success and left the output
    path in place; every record carries the name of its backend. *)
Lemma backend_pass_facts (self : t) (obj_file_path output_path : string)
      (mtl_file_path : option string) (p : priority) (files files' : gmap string node)
      (a : attempt) (called won : bool) :
  backend_pass self obj_file_path output_path mtl_file_path p files a called won files' ->
  converter a = name p
  /\ (won = true ->
      called = true /\ success a = true /\ is_Some (files' !! output_path)).
Proof.
  intros H. inversion H as [Hk|conv f1 Hk Ha Hav|conv f1 a0 c0 w0 f2 Hk Hcheck Hcall]; subst;
    [split; [reflexivity|discriminate]..|].
  inversion Hcall; subst; (split; [reflexivity|]); try discriminate.
  intros Hw. apply andb_prop in Hw. destruct Hw as [-> Hout].
  apply bool_decide_eq_true in Hout. auto.
Qed.

Lemma try_backends_loop (self : t) (obj_file_path output_path : string)
      (mtl_file_path : option string) (todo : list priority) :
  forall s,
    exists records calls winner files',
      attempt_loop self obj_file_path output_path mtl_file_path todo (fs (world_of s))
                   records calls winner files'
      /\ try_backends self todo obj_file_path output_path mtl_file_path s
         = (Ret (match winner with
                 | Some p => Some (winning p (attempts_so_far s ++ records))
                 | None => None
                 end),
            advanced s records calls files').
Proof.
  induction todo as [|p todo IH]; intros s.
  - exists [], [], None, (fs (world_of s)). split; [constructor|].
    cbn. unfold ret, advanced. cbn. rewrite !app_nil_r. destruct s as [[f tr] d i l].
    reflexivity.
  - cbn [try_backends]. unfold bind.
    destruct (try_backend_pass self p obj_file_path output_path mtl_file_path s)
      as (a & called & won & files1 & Hpass & ->).
    destruct won.
    + destruct (backend_pass_facts _ _ _ _ _ _ _ _ _ _ Hpass) as [_ Hw].
      destruct (Hw eq_refl) as (-> & _ & _).
      exists [ a ], [ p ], (Some p), files1. split; [eapply loop_won; eauto|]. reflexivity.
    + destruct (IH (advanced s [ a ] (if called then [ p ] else []) files1))
        as (records & calls & winner & files' & Hloop & ->).
      exists (a :: records), ((if called then [ p ] else []) ++ calls), winner, files'.
      split; [eapply loop_next; eauto|].
      unfold advanced. cbn. rewrite <- !app_assoc, map_app. cbn. reflexivity.
Qed.

(** What the relation says of the records and the calls. *)
Lemma attempt_loop_shape (self : t) (obj_file_path output_path : string)
      (mtl_file_path : option string) (todo : list priority) (files files' : gmap string node)
      (records : list attempt) (calls : list priority) (winner : option priority) :
  attempt_loop self obj_file_path output_path mtl_file_path todo files
               records calls winner files' ->
  map converter records = firstn (length records) (map name todo)
  /\ sublist calls (firstn (length records) todo)
  /\ match winner with
     | Some p =>
         is_Some (files' !! output_path)
         /\ exists earlier last,
             records = earlier ++ [ last ]
             /\ nth_error todo (length earlier) = Some p
             /\ success last = true
             /\ converter last = name p
             /\ exists before, calls = before ++ [ p ]
     | None => length records = length todo
     end.
Proof.
  induction 1 as [files|p rest files a called files' Hpass
                  |p rest files a called files1 records calls winner files' Hpass Hloop IH].
  - repeat split. constructor.
  - destruct (backend_pass_facts _ _ _ _ _ _ _ _ _ _ Hpass) as [Hc Hw].
    destruct (Hw eq_refl) as (_ & Hs & Hout).
    cbn. rewrite Hc. split; [reflexivity|]. split; [apply sublist_skip; constructor|].
    split; [exact Hout|]. exists [], a. repeat split; auto. now exists [].
  - destruct (backend_pass_facts _ _ _ _ _ _ _ _ _ _ Hpass) as [Hc _].
    destruct IH as (Hn & Hsub & Hw).
    cbn [length map firstn]. rewrite Hc, Hn. split; [reflexivity|]. split.
    + destruct called; cbn [app]; [now apply sublist_skip|now apply sublist_cons].
    + destruct winner as [q|]; [|cbn; now rewrite Hw].
      destruct Hw as (Hout & earlier & last & -> & Hnth & Hs & Hcl & before & ->).
      split; [exact Hout|]. exists (a :: earlier), last. repeat split; auto.
      exists ((if called then [ p ] else []) ++ before). now rewrite app_assoc.
Qed.

(** C1, as the code has it.  [_convert_obj_to_usdz] always returns, and
    what it does is the attempt loop over Pixar USD, Apple USD and Docker
    USD in that order: every backend reached leaves one record; a backend
    that is not configured, is unavailable, lacks the method, raises or
    reports failure leaves a failure record and the next backend is tried;
    the loop stops with success at the first backend that reports success
    while the output path exists -- the size of the output is not examined
    -- and no later backend is called; when no backend wins, the result is
    a failure that carries the records of all three. *)
Theorem packaging_backends_in_priority_order
        (self : t) (obj_file_path output_path : string) (opts : options) (s : state) :
  let mtl := PyStr.replace ".obj" ".mtl" obj_file_path in
  let mtl_file_path :=
    if bool_decide (is_Some (fs (world_of s) !! mtl)) then Some mtl else None in
  exists ok msg ui s' called winner,
    _convert_obj_to_usdz self obj_file_path output_path opts s = (Ret (ok, msg, ui), s')
    /\ attempt_loop self obj_file_path output_path mtl_file_path converter_priority
                    (fs (world_of s)) (conversion_attempts ui) called winner
                    (fs (world_of s'))
    /\ trace (world_of s') = trace (world_of s) ++ map call_of called
    /\ match winner with
       | Some p =>
           ok = true /\ msg = (name p ++ "转换成功")%string
           /\ used_converter ui = Some (key p)
       | None =>
           ok = false /\ used_converter ui = None
           /\ msg = ("所有USDZ转换器都失败了: "
                     ++ PyStr.join ", "
                          (map converter
                               (List.filter (fun a => negb (success a))
                                            (conversion_attempts ui))))%string
       end
    /\ map converter (conversion_attempts ui)
       = firstn (length (conversion_attempts ui)) [ "Pixar USD"; "Apple USD"; "Docker USD" ]
    /\ sublist called (firstn (length (conversion_attempts ui)) converter_priority)
    /\ (ok = true ->
        exists before p, called = before ++ [ p ] /\ used_converter ui = Some (key p))
    /\ (ok = false -> length (conversion_attempts ui) = 3)
    /\ (ok = true ->
        is_Some (fs (world_of s') !! output_path)
        /\ exists earlier winner p,
            conversion_attempts ui = earlier ++ [ winner ]
            /\ nth_error converter_priority (length earlier) = Some p
            /\ success winner = true
            /\ converter winner = name p
            /\ used_converter ui = Some (key p)).
Proof.
  cbv zeta.
  unfold _convert_obj_to_usdz, try_except, bind.
  unfold set_attempts at 1, modify. unfold in_world at 1, zoom, path_exists. cbn [world_of].
  match goal with
  | |- context [ try_backends self converter_priority obj_file_path output_path ?m ?s0 ] =>
      destruct (try_backends_loop self obj_file_path output_path m converter_priority s0)
        as (records & calls & winner & files' & Hloop & ->)
  end.
  cbn [fs world_of attempts_so_far app] in Hloop.
  destruct (attempt_loop_shape _ _ _ _ _ _ _ _ _ _ Hloop) as (Hnames & Hsub & Hw).
  destruct winner as [p|].
  - destruct Hw as (Hout & earlier & last & Hre & Hnth & Hs & Hc & before & Hb).
    eexists true, _, _, _, calls, (Some p). split; [reflexivity|].
    cbn. split; [exact Hloop|]. split; [reflexivity|]. split; [now repeat split|].
    split; [exact Hnames|]. split; [exact Hsub|].
    split; [intros _; exists before, p; now split|]. split; [discriminate|].
    intros _. split; [exact Hout|]. exists earlier, last, p. now repeat split.
  - eexists false, _, _, _, calls, None. split; [reflexivity|].
    cbn. split; [exact Hloop|]. split; [reflexivity|]. split; [now repeat split|].
    split; [exact Hnames|]. split; [exact Hsub|].
    split; [discriminate|]. split; [intros _; exact Hw|]. discriminate.
Qed.

(** C1 as stated fails: the Pixar backend reports success and leaves an
    empty output file; the loop stops there with overall success, and the
    Apple backend, which would have written a non-empty file, is never
    called. *)
Lemma empty_output_stops_the_loop :
  exists ui s',
    _convert_obj_to_usdz example_converter "NaCl.obj" "NaCl.usdz" no_options example_state
    = (Ret (true, "Pixar USD转换成功", ui), s')
    /\ used_converter ui = Some "pixar_usd"
    /\ fs (world_of s') !! "NaCl.usdz" = Some {| is_dir := false; size := 0 |}
    /\ trace (world_of s') = [ Called "pixar_usd" "convert_obj_to_usdz" ].
Proof. eexists _, _. split; [vm_compute; reflexivity|]. repeat split. Qed.

(** *** The whole conversion *)

(** The structural rules for an invariant of the orchestrator's state. *)
Ltac inv_rules :=
  first [ apply inv_ret | apply inv_raise | apply inv_get
        | (apply inv_bind; [|intros ?])
        | (apply inv_try_except; [|intros ?]) ].

(** The fields of the state other than the world. *)
Definition fields_are (d : option string) (i : conversion_info) (s : state) : Prop :=
  temp_dir s = d /\ info s = i.

Lemma fields_in_world {A} (d : option string) (i : conversion_info) (m : M world A) :
  invariant (fields_are d i) (in_world m).
Proof. apply inv_zoom. intros s r w' _ H. exact H. Qed.

(** [_convert_cif_to_obj] touches neither [self.temp_dir] nor the report. *)
Lemma convert_cif_to_obj_frame (self : t) (cif_file_path : string) (opts : options)
      (s : state) :
  forall r s',
    _convert_cif_to_obj self cif_file_path opts s = (r, s') ->
    temp_dir s' = temp_dir s /\ info s' = info s.
Proof.
  intros r s' H.
  assert (G : invariant (fields_are (temp_dir s) (info s))
                        (_convert_cif_to_obj self cif_file_path opts)).
  { unfold _convert_cif_to_obj. apply inv_bind.
    - destruct (List.find _ (cif_converters self)); [apply inv_ret|].
      destruct (cif_converters self) as [|[k c] rest]; [apply inv_raise|apply inv_ret].
    - intros converter_name.
      destruct (List.find _ (cif_converters self)) as [[k conv]|]; [|apply inv_raise].
      apply inv_try_except; [|intros e; apply inv_ret].
      apply inv_bind; [apply inv_get|]. intros st.
      destruct (temp_dir st); [|apply inv_raise].
      destruct (has_convert_cif_to_obj conv); [|apply inv_ret].
      apply inv_bind; [apply fields_in_world|]. intros res. apply inv_ret. }
  exact (G s r s' H (conj eq_refl eq_refl)).
Qed.

#[local] Arguments _convert_obj_to_usdz : simpl never.
#[local] Arguments _convert_cif_to_obj : simpl never.

(** A step of the report is well formed when its packaging records, if
    any, name the backends in priority order. *)
Definition step_ok (st : step) : Prop :=
  step_name st = "obj_to_usdz" ->
  exists ui,
    step_details_of st = UsdzDetails ui
    /\ map converter (conversion_attempts ui)
       = firstn (length (conversion_attempts ui)) [ "Pixar USD"; "Apple USD"; "Docker USD" ].

(** What [convert_steps] returns and leaves behind; it never raises. *)
Lemma convert_steps_spec (self : t) (cif_file_path output_path : string) (opts : options)
      (s : state) :
  exists ok msg s',
    convert_steps self cif_file_path output_path opts s = (Ret (ok, msg), s')
    /\ cif_file (info s') = cif_file (info s)
    /\ output_file (info s') = output_file (info s)
    /\ (Forall step_ok (steps (info s)) -> Forall step_ok (steps (info s')))
    /\ temp_dir s'
       = match temp_name (kernel self) "cif_to_usdz_" (fs (world_of s)) with
         | Some d => Some d
         | None => temp_dir s
         end.
Proof.
  unfold convert_steps, try_except. unfold bind at 1. unfold in_world at 1, zoom, mkdtemp.
  destruct (temp_name (kernel self) "cif_to_usdz_" (fs (world_of s))) as [d|]; cbn.
  2:{ eexists _, _, _. split; [reflexivity|]. cbn. auto. }
  unfold bind at 1.
  match goal with
  | |- context [ _convert_cif_to_obj self cif_file_path opts ?s0 ] =>
      destruct (_convert_cif_to_obj self cif_file_path opts s0) as [r1 s1] eqn:E1
  end.
  apply convert_cif_to_obj_frame in E1. cbn in E1. destruct E1 as [Ht1 Hi1].
  destruct r1 as [[[[obj ok1] msg1] det1]|e1]; cbn.
  2:{ eexists _, _, _. split; [reflexivity|]. cbn. rewrite Hi1, Ht1. auto. }
  unfold bind at 1. unfold update_info at 1, modify.
  destruct ok1; cbn.
  2:{ eexists _, _, _. split; [reflexivity|]. cbn. rewrite Hi1, Ht1. cbn.
      repeat split; auto. intros H. apply Forall_app. split; [exact H|].
      constructor; [discriminate|constructor]. }
  unfold bind at 1.
  match goal with
  | |- context [ _convert_obj_to_usdz self obj output_path opts ?s0 ] =>
      destruct (convert_obj_to_usdz_spec self obj output_path opts s0)
        as (ok2 & msg2 & ui & s2 & E2 & [Ht2 Hi2 Hn2 _ _ _])
  end.
  rewrite E2. cbn in Ht2, Hi2. cbn.
  assert (Hsteps : Forall step_ok (steps (info s)) ->
                   Forall step_ok
                          ((steps (info s)
                            ++ [ {| step_name := "cif_to_obj"; step_success := true;
                                    step_message := msg1; step_details_of := det1 |} ])
                           ++ [ {| step_name := "obj_to_usdz"; step_success := ok2;
                                   step_message := Some msg2;
                                   step_details_of := UsdzDetails ui |} ])).
  { intros H. apply Forall_app. split; [apply Forall_app; split; [exact H|]|].
    - constructor; [discriminate|constructor].
    - constructor; [|constructor]. intros _. exists ui. split; [reflexivity|exact Hn2]. }
  destruct ok2; cbn.
  2:{ eexists _, _, _. split; [reflexivity|]. cbn. rewrite Hi2, Ht2, Hi1. cbn.
      repeat split; auto. }
  unfold bind, in_world, zoom, path_exists, getsize, update_info, modify, ret. cbn.
  destruct (fs (world_of s2) !! output_path) as [n|] eqn:En; cbn; rewrite ?En; cbn;
    eexists _, _, _; (split; [reflexivity|]); cbn; rewrite Hi2, Ht2, Hi1; cbn;
    repeat split; auto.
Qed.


(** C10.  A missing input file, or an empty dictionary of parsing or of
    packaging backends, ends the call at once: the report is a failure with
    empty details, and the object and the world -- the files, the record
    of backend calls, [self.temp_dir] -- are as before. *)
Theorem convert_rejects_before_any_work
        (self : t) (cif_file_path output_path : string) (opts : option options)
        (i : instance) :
  fs (the_world i) !! cif_file_path = None
  \/ cif_converters self = []
  \/ usdz_converters self = ∅ ->
  exists msg,
    convert_cif_to_usdz self cif_file_path output_path opts i
    = (Ret (false, msg, None), i).
Proof.
  intros H. unfold convert_cif_to_usdz.
  destruct (fs (the_world i) !! cif_file_path) as [n|] eqn:En; cbn; [|eauto].
  destruct H as [H|H]; [discriminate|].
  destruct (bool_decide (cif_converters self = [])) eqn:Ec; [eauto|].
  destruct H as [H|H]; [apply bool_decide_eq_false in Ec; contradiction|].
  destruct (bool_decide (usdz_converters self = ∅)) eqn:Eu; [eauto|].
  apply bool_decide_eq_false in Eu. contradiction.
Qed.

Lemma convert_rejects_witness :
  (fs (the_world example_instance) !! "missing.cif" = None
   \/ cif_converters example_converter = []
   \/ usdz_converters example_converter = ∅)
  /\ exists msg,
      convert_cif_to_usdz example_converter "missing.cif" "NaCl.usdz" None example_instance
      = (Ret (false, msg, None), example_instance).
Proof.
  assert (H : fs (the_world example_instance) !! "missing.cif" = None
              \/ cif_converters example_converter = []
              \/ usdz_converters example_converter = ∅) by (left; reflexivity).
  split; [exact H|].
  exact (convert_rejects_before_any_work example_converter "missing.cif" "NaCl.usdz"
           None example_instance H).
Defined.

(** *** The scratch workspace *)















#[local] Arguments _convert_obj_to_usdz : simpl never.
#[local] Arguments _convert_cif_to_obj : simpl never.






End OrchestratorFacts.

(** ** The material standardizer: what a second pass does, and materials
    without an element *)

Module StandardizerFacts.
Import MaterialStandardizer.

(** *** Dictionaries *)

Definition keys {V} (d : list (string * V)) : list string := map fst d.

Lemma dict_get_in {V} (d : list (string * V)) (k : string) (v : V) :
  dict_get d k = Some v -> In (k, v) d.
Proof.
  induction d as [|[k' v'] d IH]; simpl; [discriminate|].
  destruct (String.eqb_spec k' k) as [->|Hne].
  - intros H. inversion H; subst. now left.
  - intros H. right. now apply IH.
Qed.

Lemma dict_get_None {V} (d : list (string * V)) (k : string) :
  dict_get d k = None <-> ~ In k (keys d).
Proof.
  induction d as [|[k' v'] d IH]; simpl.
  - split; auto.
  - destruct (String.eqb_spec k' k) as [->|Hne].
    + split; [discriminate|]. intros H. exfalso. apply H. now left.
    + rewrite IH. split; intros H; [intros [E|E]; [contradiction|now apply H]|].
      intros E. apply H. now right.
Qed.


Lemma keys_dict_set {V} (d : list (string * V)) (k : string) (v : V) :
  keys (dict_set d k v)
  = match dict_get d k with Some _ => keys d | None => keys d ++ [ k ] end.
Proof.
  induction d as [|[k' v'] d IH]; simpl; [reflexivity|].
  destruct (String.eqb_spec k' k) as [->|Hne]; simpl; [reflexivity|].
  rewrite IH. now destruct (dict_get d k).
Qed.

Lemma keys_dict_set_nodup {V} (d : list (string * V)) (k : string) (v : V) :
  List.NoDup (keys d) -> List.NoDup (keys (dict_set d k v)).
Proof.
  intros H. rewrite keys_dict_set. destruct (dict_get d k) eqn:E; [exact H|].
  apply dict_get_None in E. apply List.NoDup_app; [exact H| |].
  - constructor; [intros []|constructor].
  - intros x Hx [<-|[]]. contradiction.
Qed.

Lemma dict_set_forall {V} (P : string * V -> Prop) (d : list (string * V))
      (k : string) (v : V) :
  Forall P d -> P (k, v) -> Forall P (dict_set d k v).
Proof.
  intros Hd Hkv. induction d as [|[k' v'] d IH]; simpl.
  - constructor; auto.
  - inversion Hd; subst. destruct (String.eqb k' k); constructor; auto.
Qed.

Lemma dict_get_set {V} (d : list (string * V)) (k k0 : string) (v : V) :
  dict_get (dict_set d k v) k0 = if String.eqb k k0 then Some v else dict_get d k0.
Proof.
  induction d as [|[k' v'] d IH]; simpl.
  - reflexivity.
  - destruct (String.eqb_spec k' k) as [->|Hne]; simpl.
    + destruct (String.eqb_spec k k0); reflexivity.
    + rewrite IH. destruct (String.eqb_spec k' k0) as [->|Hne0]; [|reflexivity].
      destruct (String.eqb_spec k k0) as [->|]; [contradiction|reflexivity].
Qed.

(** Filling a dictionary from a list without repeated keys gives the list. *)
Lemma fill_nodup {V} (l : list (string * V)) :
  forall acc,
    List.NoDup (keys (acc ++ l)) ->
    fold_left (fun d kv => dict_set d (fst kv) (snd kv)) l acc = acc ++ l.
Proof.
  induction l as [|[k v] l IH]; intros acc Hnd; simpl.
  - now rewrite app_nil_r.
  - assert (Hset : dict_set acc k v = acc ++ [ (k, v) ]).
    { unfold keys in Hnd. rewrite map_app in Hnd. simpl in Hnd.
      apply List.NoDup_remove_2 in Hnd.
      assert (Hk : ~ In k (keys acc)) by (intros H; apply Hnd, in_or_app; now left).
      clear -Hk. induction acc as [|[k' v'] acc IH]; simpl; [reflexivity|].
      destruct (String.eqb_spec k' k) as [->|Hne].
      - exfalso. apply Hk. now left.
      - f_equal. apply IH. intros H. apply Hk. now right. }
    rewrite Hset, IH; rewrite <- app_assoc; [reflexivity|exact Hnd].
Qed.

(** *** Rounding to six decimals *)

Lemma round6_num (n : Z) (d : positive) :
  round6 (n # d) = Qmake ((2 * 1000000 * n + Z.pos d) / (2 * Z.pos d)) 1000000.
Proof.
  unfold round6. f_equal. unfold Qfloor, Qplus, Qmult. cbn [Qnum Qden].
  f_equal; lia.
Qed.

Lemma round6_millionths (z : Z) : round6 (z # 1000000) = (z # 1000000).
Proof.
  rewrite round6_num. f_equal.
  replace (2 * 1000000 * z + Z.pos 1000000)%Z with (1000000 + z * (2 * Z.pos 1000000))%Z by lia.
  rewrite Z.div_add by lia. reflexivity.
Qed.

Lemma round6_idem (x : Q) : round6 (round6 x) = round6 x.
Proof. unfold round6 at 2 3. apply round6_millionths. Qed.



Lemma round6_color_idem (c : color) : round6_color (round6_color c) = round6_color c.
Proof. destruct c as [[r g] b]. simpl. now rewrite !round6_idem. Qed.


(** *** The element table *)

(** What the standardizer relies on for an element symbol: cleaning leaves
    it alone, and its canonical name is read back by the name pattern. *)
Definition canonical_entry (e : string) : bool :=
  String.eqb (_clean_element_symbol e) e
  && match _extract_element_from_name (e ++ "_MAT") with
     | Some e' => String.eqb e' e
     | None => false
     end.

Lemma table_canonical :
  forallb (fun kv => canonical_entry (fst kv)) STANDARD_CPK_COLORS = true.
Proof. vm_compute. reflexivity. Qed.

Lemma is_element_in (e : string) :
  is_element e = true -> In e (keys STANDARD_CPK_COLORS).
Proof.
  unfold is_element. intros H. apply bool_decide_eq_true in H. destruct H as [v Hv].
  apply dict_get_in in Hv. change e with (fst (e, v)). now apply in_map.
Qed.

Lemma key_canonical (e : string) :
  In e (keys STANDARD_CPK_COLORS) ->
  get_standard_material_name e = (e ++ "_MAT")%string
  /\ _extract_element_from_name (e ++ "_MAT") = Some e.
Proof.
  intros H. apply in_map_iff in H. destruct H as [kv [<- Hin]].
  pose proof table_canonical as Ht. rewrite forallb_forall in Ht. specialize (Ht kv Hin).
  unfold canonical_entry in Ht. apply andb_prop in Ht. destruct Ht as [H1 H2].
  apply String.eqb_eq in H1. unfold get_standard_material_name. rewrite H1. split; [reflexivity|].
  destruct (_extract_element_from_name (fst kv ++ "_MAT")) as [e'|]; [|discriminate].
  apply String.eqb_eq in H2. now subst.
Qed.

Lemma match_color_loop_in (c : color) (table : list (string * color)) :
  forall md bm e,
    match_color_loop c table md bm = Some e -> bm = Some e \/ In e (keys table).
Proof.
  induction table as [|[el sc] table IH]; intros md bm e; simpl.
  - intros ->. now left.
  - destruct (_ && _); intros H; apply IH in H; destruct H as [H|H]; auto.
    inversion H; subst. right. now left.
Qed.

Lemma match_by_color_in (c : color) (e : string) :
  _match_element_by_color c = Some e -> In e (keys STANDARD_CPK_COLORS).
Proof.
  unfold _match_element_by_color. intros H. apply (match_color_loop_in c) in H.
  destruct H as [H|H]; [discriminate|exact H].
Qed.

Lemma extracted_in (n e : string) :
  _extract_element_from_name n = Some e -> In e (keys STANDARD_CPK_COLORS).
Proof.
  unfold _extract_element_from_name. destruct (match_symbol _) as [e'|]; [|discriminate].
  destruct (is_element e') eqn:E; [|discriminate]. intros H. inversion H; subst.
  now apply is_element_in.
Qed.

(** Every tier answers with a symbol of the table. *)
Lemma inferred_in (n : string) (c : color) (e : string) :
  _infer_element_from_material n c = Some e -> In e (keys STANDARD_CPK_COLORS).
Proof.
  unfold _infer_element_from_material.
  destruct (_extract_element_from_name n) as [e1|] eqn:E1.
  - intros H. inversion H; subst. eapply extracted_in; eauto.
  - destruct (_match_element_by_color c) as [e2|] eqn:E2.
    + intros H. inversion H; subst. now apply (match_by_color_in c).
    + unfold _infer_from_hex_name. destruct (match_hex n) as [[[r g] b]|]; [|discriminate].
      apply match_by_color_in.
Qed.



(** *** The MTL file of one pass *)

(** What a block of the rewritten file says about its material. *)
Definition entry (kv : string * mapping) : string * color :=
  (new_name (snd kv), round6_color (color_of (snd kv))).

Definition fill (l acc : list (string * color)) : list (string * color) :=
  fold_left (fun d kv => dict_set d (fst kv) (snd kv)) l acc.

Definition rewritten (M : list (string * mapping)) : list mtl_line :=
  mtl_header ++ flat_map (fun kv => material_block (snd kv)) M.

Lemma parse_blocks (M : list (string * mapping)) :
  forall cur acc,
    parse_lines (flat_map (fun kv => material_block (snd kv)) M) cur acc
    = fill (map entry M) acc.
Proof.
  induction M as [|[old mp] M IH]; intros cur acc; [reflexivity|].
  cbn [flat_map material_block snd app parse_lines map fill fold_left entry fst].
  apply IH.
Qed.

Lemma parse_rewritten (M : list (string * mapping)) :
  _parse_mtl_file (Some (rewritten M)) = fill (map entry M) [].
Proof. unfold rewritten, mtl_header. cbn [_parse_mtl_file app parse_lines]. apply parse_blocks. Qed.

Lemma fill_keys_nodup (l : list (string * color)) :
  forall acc, List.NoDup (keys acc) -> List.NoDup (keys (fill l acc)).
Proof.
  induction l as [|[k v] l IH]; intros acc H; [exact H|].
  apply IH. now apply keys_dict_set_nodup.
Qed.

Lemma fill_forall (P : string * color -> Prop) (l : list (string * color)) :
  forall acc, Forall P acc -> Forall P l -> Forall P (fill l acc).
Proof.
  induction l as [|[k v] l IH]; intros acc Ha Hl; [exact Ha|].
  inversion Hl; subst. apply IH; [|assumption]. now apply dict_set_forall.
Qed.





(** *** The analysis *)

Definition entry_of (p : bool) (c : color) (e : string) : mapping :=
  {| new_name := get_standard_material_name e; element := e;
     color_of := if p then c else get_standard_color e |}.



(** A row of a table that a pass has written: the name is canonical for
    the element the name pattern reads from it, and the colour is what the
    pass would write again. *)
Definition standardized (p : bool) (kv : string * color) : Prop :=
  exists e,
    _extract_element_from_name (fst kv) = Some e
    /\ fst kv = get_standard_material_name e
    /\ snd kv = round6_color (if p then snd kv else get_standard_color e).

(** An entry of the mapping: made from an element that is canonical. *)
Definition analyzed (p : bool) (kv : string * mapping) : Prop :=
  exists c e,
    snd kv = entry_of p c e
    /\ _extract_element_from_name (get_standard_material_name e) = Some e.

Lemma analyze_analyzed (p : bool) (T : list (string * color)) :
  Forall (analyzed p) (analyze_table p T).
Proof.
  induction T as [|[old c] T IH]; simpl; [constructor|].
  destruct (_infer_element_from_material old c) as [e|] eqn:E; [|exact IH].
  constructor; [|exact IH]. exists c, e. split; [reflexivity|].
  apply inferred_in, key_canonical in E. destruct E as [-> E]. exact E.
Qed.

Lemma analyzed_standardized (p : bool) (kv : string * mapping) :
  analyzed p kv -> standardized p (entry kv).
Proof.
  intros (c & e & Hkv & He). exists e. unfold entry. rewrite Hkv. cbn.
  repeat split; [exact He|]. destruct p; [|reflexivity]. now rewrite round6_color_idem.
Qed.





(** The table a pass leaves behind. *)
Lemma pass_table (p : bool) (M : list (string * mapping)) :
  Forall (analyzed p) M ->
  Forall (standardized p) (fill (map entry M) [])
  /\ List.NoDup (keys (fill (map entry M) [])).
Proof.
  intros HM. split.
  - apply fill_forall; [constructor|]. apply List.Forall_map.
    eapply List.Forall_impl; [|exact HM]. apply analyzed_standardized.
  - apply fill_keys_nodup. constructor.
Qed.

(** *** The OBJ file of one pass *)

Definition is_bare (line : obj_line) : bool :=
  match line with UsemtlBare => true | _ => false end.

(** What [_update_obj_file] makes of a line. *)
Definition relink (M : list (string * mapping)) (line : obj_line) : obj_line :=
  match line with
  | Usemtl old _ =>
      match dict_get M old with
      | Some mp => Usemtl (new_name mp) ""
      | None => line
      end
  | _ => line
  end.

Lemma update_lines_spec (M : list (string * mapping)) (lines : list obj_line) :
  update_lines M lines
  = if existsb is_bare lines then Raise (Exception "list index out of range")
    else Ret (map (relink M) lines).
Proof.
  induction lines as [|line lines IH]; [reflexivity|].
  destruct line; cbn [update_lines existsb is_bare orb map relink]; try reflexivity;
    rewrite IH; destruct (existsb is_bare lines); reflexivity.
Qed.



(** *** One pass *)

(** A pass, step by step: the mapping, the read of the OBJ file, its
    loop, the write of the OBJ file, the write of the MTL file. *)
Lemma standardize_spec (D : Disk) (m : mesh) (p : bool) :
  standardize_obj_materials D m p
  = let M := _analyze_materials p (mtl_file m) in
    match M with
    | [] => (true, m)
    | _ =>
        match obj_file m with
        | None => (false, m)
        | Some lines =>
            match read_obj_error D lines with
            | Some _ => (false, m)
            | None =>
                if existsb is_bare lines then (false, m)
                else
                  match write_obj_error D lines (map (relink M) lines) with
                  | Some (_, remains) =>
                      (false, {| obj_file := remains; mtl_file := mtl_file m |})
                  | None =>
                      match write_mtl_error D (mtl_file m) (rewritten M) with
                      | Some (_, remains) =>
                          (false, {| obj_file := Some (map (relink M) lines);
                                     mtl_file := remains |})
                      | None =>
                          (true, {| obj_file := Some (map (relink M) lines);
                                    mtl_file := Some (rewritten M) |})
                      end
                  end
            end
        end
    end.
Proof.
  unfold standardize_obj_materials, _update_obj_file, _rewrite_mtl_file.
  destruct (_analyze_materials p (mtl_file m)) as [|kv M] eqn:E; [reflexivity|].
  cbv zeta. destruct m as [obj mtl]. cbn [obj_file mtl_file].
  destruct obj as [lines|]; [|reflexivity].
  destruct (read_obj_error D lines) as [e|]; [reflexivity|].
  rewrite update_lines_spec. destruct (existsb is_bare lines); [reflexivity|].
  destruct (write_obj_error D lines (map (relink (kv :: M)) lines)) as [[e remains]|];
    [reflexivity|].
  fold (rewritten (kv :: M)).
  destruct (write_mtl_error D mtl (rewritten (kv :: M))) as [[e remains]|]; reflexivity.
Qed.

(** No read and no write fails on [D]. *)
Definition reliable (D : Disk) : Prop :=
  (forall lines, read_obj_error D lines = None)
  /\ (forall old new, write_obj_error D old new = None)
  /\ (forall old new, write_mtl_error D old new = None).

Lemma no_faults_reliable : reliable no_faults.
Proof. repeat split. Qed.


(** A pass that returns [True] found nothing to do, or read the OBJ file,
    found a name on every "usemtl" line and wrote both files. *)
Lemma successful_pass (D : Disk) (m : mesh) (p : bool) :
  fst (standardize_obj_materials D m p) = true ->
  let M := _analyze_materials p (mtl_file m) in
  (M = [] /\ standardize_obj_materials D m p = (true, m))
  \/ (exists lines,
        M <> [] /\ obj_file m = Some lines /\ existsb is_bare lines = false
        /\ standardize_obj_materials D m p
           = (true, {| obj_file := Some (map (relink M) lines);
                       mtl_file := Some (rewritten M) |})).
Proof.
  rewrite standardize_spec. cbv zeta.
  destruct (_analyze_materials p (mtl_file m)) as [|kv M]; [now left|].
  destruct (obj_file m) as [lines|]; [|discriminate].
  destruct (read_obj_error D lines) as [e|]; [discriminate|].
  destruct (existsb is_bare lines) eqn:Hb; [discriminate|].
  destruct (write_obj_error D lines _) as [[e remains]|]; [discriminate|].
  destruct (write_mtl_error D (mtl_file m) _) as [[e remains]|]; [discriminate|].
  intros _. right. exists lines. now repeat split.
Qed.

(** *** Two passes *)










(** *** Examples *)

(** The files the built-in converter writes for rock salt (geometry left
    out): one material per element and one for the bonds. *)
Definition rock_salt : mesh :=
  {| obj_file := Some [ ObjText "# Generated by ASE converter"; Mtllib "NaCl.mtl"; ObjText "";
                        Usemtl "atom_Na" ""; Group "atom_0_Na"; Face [1; 2; 3]%Z; ObjText "";
                        Usemtl "atom_Cl" ""; Group "atom_1_Cl"; Face [4; 5; 6]%Z; ObjText "";
                        Usemtl "bond" ""; Group "bonds"; Face [7; 8; 9]%Z ];
     mtl_file := Some (ASEConverter.element_material "Na" ++ ASEConverter.element_material "Cl"
                       ++ ASEConverter.bond_material) |}.


(** *** Idempotence *)




(** *** Materials without an element *)



(** C8.  On the files the built-in converter writes, with every read and
    write succeeding, the bond material (Kd 0.5 0.5 0.5) matches no
    element; the pass succeeds, and afterwards the MTL file defines the two
    element materials only: the bond material has not been kept with a
    neutral colour but dropped, while the OBJ file still says
    "usemtl bond". *)
Example unresolved_material_is_dropped :
  let after := standardize_obj_materials no_faults rock_salt false in
  dict_get (material_table rock_salt) "bond" = Some (0.5, 0.5, 0.5)%Q
  /\ _infer_element_from_material "bond" (0.5, 0.5, 0.5)%Q = None
  /\ fst after = true
  /\ keys (material_table (snd after)) = [ "Na_MAT"; "Cl_MAT" ]
  /\ defined_names (mtl_file (snd after)) = [ "Na_MAT"; "Cl_MAT" ]
  /\ dict_get (material_table (snd after)) "bond" = None
  /\ option_map (List.filter (fun l => match l with Usemtl _ _ => true | _ => false end))
       (obj_file (snd after))
     = Some [ Usemtl "Na_MAT" ""; Usemtl "Cl_MAT" ""; Usemtl "bond" "" ].
Proof. vm_compute. repeat split. Qed.

End StandardizerFacts.

(** ** The meshes: vertices, face indices and what the OBJ file holds *)

Module MeshFacts.

(** The squared distance of two points. *)
Definition dist2 (a b : vec3) : R :=
  let '(a1, a2, a3) := a in
  let '(b1, b2, b3) := b in
  ((a1 - b1) * (a1 - b1) + (a2 - b2) * (a2 - b2) + (a3 - b3) * (a3 - b3))%R.

Lemma sphere_vertex_dist2 (center : vec3) (radius : R) (resolution i j : Z) :
  dist2 (sphere_vertex center radius resolution i j) center = (radius * radius)%R.
Proof.
  destruct center as [[cx cy] cz]. unfold sphere_vertex, dist2.
  set (lat := (PI * (-0.5 + IZR i / IZR resolution))%R).
  set (lon := (2 * PI * IZR j / IZR (resolution * 2))%R).
  pose proof (sin2_cos2 lat) as Hlat. pose proof (sin2_cos2 lon) as Hlon.
  unfold Rsqr in Hlat, Hlon.
  replace ((cx + radius * cos lat * cos lon - cx) * (cx + radius * cos lat * cos lon - cx)
           + (cy + radius * cos lat * sin lon - cy) * (cy + radius * cos lat * sin lon - cy)
           + (cz + radius * sin lat - cz) * (cz + radius * sin lat - cz))%R
    with (radius * radius
          * (cos lat * cos lat * (sin lon * sin lon + cos lon * cos lon) + sin lat * sin lat))%R
    by ring.
  rewrite Hlon. replace (cos lat * cos lat * 1 + sin lat * sin lat)%R
    with (sin lat * sin lat + cos lat * cos lat)%R by ring.
  rewrite Hlat. ring.
Qed.

Lemma sphere_vertices_dist2 (center : vec3) (radius : R) (resolution : Z) :
  Forall (fun v => dist2 v center = (radius * radius)%R)
         (sphere_vertices center radius resolution).
Proof.
  apply List.Forall_forall. intros v Hin. unfold sphere_vertices in Hin.
  apply in_flat_map in Hin. destruct Hin as [i [_ Hin]].
  apply in_map_iff in Hin. destruct Hin as [j [<- _]]. apply sphere_vertex_dist2.
Qed.

(** X3.  Every vertex the two sphere builders emit lies on the sphere of the
    given centre and radius; they raise for resolution 0 only. *)
Theorem sphere_vertices_lie_on_the_sphere (center : vec3) (radius : R) (resolution : Z) :
  match ASEConverter.create_sphere_obj center radius resolution with
  | Ret (vertices, _) => Forall (fun v => dist2 v center = (radius * radius)%R) vertices
  | Raise _ => resolution = 0%Z
  end
  /\ match PymatgenConverter.create_sphere center radius resolution with
     | Ret (vertices, _) => Forall (fun v => dist2 v center = (radius * radius)%R) vertices
     | Raise _ => resolution = 0%Z
     end.
Proof.
  unfold ASEConverter.create_sphere_obj, PymatgenConverter.create_sphere.
  destruct (Z.eqb_spec resolution 0); [now split|].
  split; apply sphere_vertices_dist2.
Qed.

(** *** Counting *)

Lemma length_zrange (n : Z) : length (zrange n) = Z.to_nat n.
Proof. unfold zrange. now rewrite length_map, length_seq. Qed.

Lemma length_flat_map_const {A B} (f : A -> list B) (k : nat) (l : list A) :
  (forall x, In x l -> length (f x) = k) -> length (flat_map f l) = (length l * k)%nat.
Proof.
  induction l as [|x l IH]; intros H; [reflexivity|].
  cbn [flat_map]. rewrite length_app, (H x (or_introl eq_refl)), IH.
  - simpl. lia.
  - intros y Hy. apply H. now right.
Qed.

Lemma length_sphere_vertices (center : vec3) (radius : R) (resolution : Z) :
  length (sphere_vertices center radius resolution)
  = (Z.to_nat (resolution + 1) * Z.to_nat (resolution * 2))%nat.
Proof.
  unfold sphere_vertices.
  rewrite (length_flat_map_const _ (Z.to_nat (resolution * 2))).
  - now rewrite length_zrange.
  - intros i _. now rewrite length_map, length_zrange.
Qed.

(** The number of vertices, as an index bound. *)
Lemma sphere_vertex_count (center : vec3) (radius : R) (resolution : Z) :
  (0 <= resolution)%Z ->
  Z.of_nat (length (sphere_vertices center radius resolution))
  = ((resolution + 1) * (resolution * 2))%Z.
Proof. intros H. rewrite length_sphere_vertices. nia. Qed.

Lemma ase_sphere_faces_bound (center : vec3) (radius : R) (resolution : Z) :
  Forall (Forall (fun k => (1 <= k <= Z.of_nat (length (sphere_vertices center radius resolution)))%Z))
         (ASEConverter.sphere_faces resolution).
Proof.
  apply List.Forall_forall. intros face Hin.
  unfold ASEConverter.sphere_faces in Hin.
  apply in_flat_map in Hin. destruct Hin as [i [Hi Hin]].
  apply in_flat_map in Hin. destruct Hin as [j [Hj Hin]].
  apply SphereFacts.in_zrange in Hi. apply SphereFacts.in_zrange in Hj.
  rewrite sphere_vertex_count by lia.
  assert (Hm : (0 <= (j + 1) mod (resolution * 2) < resolution * 2)%Z)
    by (apply Z.mod_pos_bound; lia).
  apply in_app_or in Hin. destruct Hin as [Hin|Hin].
  - destruct (0 <? i)%Z; [|contradiction]. destruct Hin as [<-|[]].
    repeat constructor; nia.
  - destruct (i <? resolution - 1)%Z; [|contradiction]. destruct Hin as [<-|[]].
    repeat constructor; nia.
Qed.

(** X4.  The one-based indices of the faces of [create_sphere_obj] all name
    vertices of the sphere. *)
Theorem ase_sphere_faces_in_range (center : vec3) (radius : R) (resolution : Z) :
  match ASEConverter.create_sphere_obj center radius resolution with
  | Ret (vertices, faces) =>
      length vertices = (Z.to_nat (resolution + 1) * Z.to_nat (resolution * 2))%nat
      /\ Forall (Forall (fun k => (1 <= k <= Z.of_nat (length vertices))%Z)) faces
  | Raise _ => resolution = 0%Z
  end.
Proof.
  unfold ASEConverter.create_sphere_obj.
  destruct (Z.eqb_spec resolution 0) as [|Hne]; [assumption|].
  split; [apply length_sphere_vertices|apply ase_sphere_faces_bound].
Qed.

(** The corners of a triangle. *)
Definition corners (t : Z * Z * Z) : list Z := let '(a, b, c) := t in [ a; b; c ].

(** X5.  [create_sphere] does not wrap the last segment of a ring: its
    zero-based indices reach the number of vertices, one past the last
    vertex, in the second triangle of the last cell of the last ring. *)
Theorem pymatgen_sphere_index_past_the_end (center : vec3) (radius : R) (resolution : Z) :
  (1 <= resolution)%Z ->
  exists vertices faces a b,
    PymatgenConverter.create_sphere center radius resolution = Ret (vertices, faces)
    /\ In (a, Z.of_nat (length vertices), b) faces
    /\ Forall (fun t => Forall (fun k => (0 <= k <= Z.of_nat (length vertices))%Z) (corners t))
              faces.
Proof.
  intros Hres. unfold PymatgenConverter.create_sphere.
  destruct (Z.eqb_spec resolution 0) as [|_]; [lia|].
  exists (sphere_vertices center radius resolution), (PymatgenConverter.sphere_faces resolution).
  exists ((resolution + 1) * (resolution * 2) - 1)%Z, (resolution * (resolution * 2))%Z.
  split; [reflexivity|]. rewrite sphere_vertex_count by lia. split.
  - unfold PymatgenConverter.sphere_faces. apply in_flat_map.
    exists (resolution - 1)%Z. split; [apply SphereFacts.in_zrange; lia|].
    apply in_flat_map. exists (resolution * 2 - 1)%Z.
    split; [apply SphereFacts.in_zrange; lia|].
    right. left. f_equal; [f_equal|]; lia.
  - apply List.Forall_forall. intros t Hin. unfold PymatgenConverter.sphere_faces in Hin.
    apply in_flat_map in Hin. destruct Hin as [i [Hi Hin]].
    apply in_flat_map in Hin. destruct Hin as [j [Hj Hin]].
    apply SphereFacts.in_zrange in Hi. apply SphereFacts.in_zrange in Hj.
    destruct Hin as [<-|[<-|[]]]; repeat constructor; nia.
Qed.

Lemma pymatgen_sphere_index_witness :
  exists vertices faces a b,
    PymatgenConverter.create_sphere (0, 0, 0)%R 1%R 20 = Ret (vertices, faces)
    /\ In (a, Z.of_nat (length vertices), b) faces
    /\ Forall (fun t => Forall (fun k => (0 <= k <= Z.of_nat (length vertices))%Z) (corners t))
              faces.
Proof. apply (pymatgen_sphere_index_past_the_end (0, 0, 0)%R 1%R 20). lia. Defined.

(** *** Cylinders *)

Lemma norm_zero (v : vec3) : norm v = 0%R -> v = (0, 0, 0)%R.
Proof.
  destruct v as [[x y] z]. unfold norm. intros H.
  apply sqrt_eq_0 in H; [|nra].
  assert (x = 0 /\ y = 0 /\ z = 0)%R as (-> & -> & ->) by (repeat split; nra).
  reflexivity.
Qed.

Lemma vsub_zero (a b : vec3) : vsub a b = (0, 0, 0)%R -> a = b.
Proof.
  destruct a as [[a1 a2] a3], b as [[b1 b2] b3]. unfold vsub. intros H.
  inversion H. f_equal; [f_equal|]; lra.
Qed.

Lemma norm_vsub_same (a : vec3) : norm (vsub a a) = 0%R.
Proof.
  destruct a as [[a1 a2] a3]. unfold vsub, norm.
  replace ((a1 - a1) * (a1 - a1) + (a2 - a2) * (a2 - a2) + (a3 - a3) * (a3 - a3))%R
    with 0%R by ring.
  apply sqrt_0.
Qed.

Lemma ase_cylinder_shape (start end_ : vec3) (radius : R) (resolution : Z) :
  let '(vertices, faces) := ASEConverter.create_cylinder_obj start end_ radius resolution in
  Forall (Forall (fun k => (1 <= k <= Z.of_nat (length vertices))%Z)) faces
  /\ (start = end_ -> vertices = [] /\ faces = [])
  /\ (start <> end_ ->
      length vertices = (2 * Z.to_nat resolution)%nat
      /\ length faces = (2 * Z.to_nat resolution)%nat).
Proof.
  unfold ASEConverter.create_cylinder_obj. cbv zeta.
  destruct (Req_dec_T (norm (vsub end_ start)) 0) as [Hz|Hnz].
  - split; [constructor|]. split; [now split|].
    intros Hne. exfalso. apply Hne. symmetry. now apply vsub_zero, norm_zero.
  - assert (Hlen : forall (f : Z -> list vec3),
               (forall i, length (f i) = 2%nat) ->
               length (flat_map f (zrange resolution)) = (2 * Z.to_nat resolution)%nat).
    { intros f Hf. rewrite (length_flat_map_const f 2) by (intros; apply Hf).
      rewrite length_zrange. lia. }
    split; [|split].
    + rewrite Hlen by reflexivity.
      apply List.Forall_forall. intros face Hin.
      apply in_flat_map in Hin. destruct Hin as [i [Hi Hin]].
      apply SphereFacts.in_zrange in Hi.
      assert (Hm : (0 <= (i + 1) mod resolution < resolution)%Z)
        by (apply Z.mod_pos_bound; lia).
      destruct Hin as [<-|[<-|[]]]; repeat constructor; lia.
    + intros ->. exfalso. apply Hnz. apply norm_vsub_same.
    + intros _. split.
      * apply Hlen. reflexivity.
      * rewrite (length_flat_map_const _ 2) by reflexivity. rewrite length_zrange. lia.
Qed.

(** X6.  [create_cylinder_obj] gives no geometry for a bond of length zero, and
    otherwise two vertices and two triangles per segment, whose one-based
    indices all name vertices of the cylinder. *)
Theorem ase_cylinder_faces_in_range (start end_ : vec3) (radius : R) (resolution : Z) :
  let '(vertices, faces) := ASEConverter.create_cylinder_obj start end_ radius resolution in
  Forall (Forall (fun k => (1 <= k <= Z.of_nat (length vertices))%Z)) faces
  /\ (start = end_ -> vertices = [] /\ faces = [])
  /\ (start <> end_ ->
      length vertices = (2 * Z.to_nat resolution)%nat
      /\ length faces = (2 * Z.to_nat resolution)%nat).
Proof. exact (ase_cylinder_shape start end_ radius resolution). Qed.

(** *** The shape of a cylinder *)

Definition dot (a b : vec3) : R :=
  let '(a1, a2, a3) := a in
  let '(b1, b2, b3) := b in
  (a1 * b1 + a2 * b2 + a3 * b3)%R.

Lemma norm_sq (a : vec3) : (norm a * norm a = dot a a)%R.
Proof.
  destruct a as [[x y] z]. unfold norm, dot. apply sqrt_sqrt. nra.
Qed.

Lemma dot_scale_l (a b : vec3) (k : R) : dot (scale a k) b = (k * dot a b)%R.
Proof. destruct a as [[a1 a2] a3], b as [[b1 b2] b3]. unfold scale, dot. ring. Qed.

Lemma dot_scale_r (a b : vec3) (k : R) : dot a (scale b k) = (k * dot a b)%R.
Proof. destruct a as [[a1 a2] a3], b as [[b1 b2] b3]. unfold scale, dot. ring. Qed.

Lemma dot_cross_left (a b : vec3) : dot a (cross a b) = 0%R.
Proof. destruct a as [[a1 a2] a3], b as [[b1 b2] b3]. unfold cross, dot. ring. Qed.

Lemma unit_scaled (a : vec3) : norm a <> 0%R -> dot (scale a (/ norm a)) (scale a (/ norm a)) = 1%R.
Proof.
  intros H. rewrite dot_scale_l, dot_scale_r, <- norm_sq. now field.
Qed.

(** A point of the circle spanned by a unit vector [p] perpendicular to the
    unit vector [d], and by [d x p]. *)
Lemma circle_offset (d p : vec3) (radius c s : R) :
  dot d d = 1%R -> dot p p = 1%R -> dot d p = 0%R -> (s * s + c * c = 1)%R ->
  let offset := scale (vadd (scale p c) (scale (cross d p) s)) radius in
  dot offset offset = (radius * radius)%R /\ dot offset d = 0%R.
Proof.
  destruct d as [[dx dy] dz], p as [[px py] pz]. unfold dot, cross, scale, vadd.
  intros Hd Hp Hdp Hcs. cbv zeta. split.
  - transitivity
      (radius * radius
       * (c * c * (px * px + py * py + pz * pz)
          + s * s * ((dx * dx + dy * dy + dz * dz) * (px * px + py * py + pz * pz)
                     - (dx * px + dy * py + dz * pz) * (dx * px + dy * py + dz * pz))))%R;
      [ring|].
    rewrite Hd, Hp, Hdp.
    replace (c * c * 1 + s * s * (1 * 1 - 0 * 0))%R with (s * s + c * c)%R by ring.
    rewrite Hcs. ring.
  - transitivity (radius * c * (dx * px + dy * py + dz * pz))%R; [ring|].
    rewrite Hdp. ring.
Qed.

(** The first perpendicular [create_cylinder_obj] picks is not the zero
    vector. *)
Lemma perpendicular_nonzero (d : vec3) :
  dot d d = 1%R ->
  norm (if Rlt_dec (Rabs (snd d)) 0.9 then cross d (0, 0, 1)%R else cross d (1, 0, 0)%R)
  <> 0%R.
Proof.
  destruct d as [[dx dy] dz]. unfold dot. cbn [snd]. intros Hd Hn.
  apply norm_zero in Hn. destruct (Rlt_dec (Rabs dz) 0.9) as [Hlt|Hge].
  - unfold cross in Hn. injection Hn as H1 H2 H3.
    assert (dx = 0 /\ dy = 0)%R as [-> ->] by (split; lra).
    assert (Hz : (dz * dz = 1)%R) by lra.
    unfold Rabs in Hlt. destruct (Rcase_abs dz); nra.
  - unfold cross in Hn. injection Hn as H1 H2 H3.
    assert (dz = 0)%R as -> by lra.
    apply Hge. rewrite Rabs_R0. lra.
Qed.

(** X7.  Every vertex of a bond cylinder lies on the rim around one of the two
    end points: at distance [radius] from it (in absolute value), in the
    plane through it perpendicular to the bond. *)
Theorem ase_cylinder_vertices_on_the_rims (start end_ : vec3) (radius : R) (resolution : Z) :
  Forall (fun v =>
            (dist2 v start = (radius * radius)%R
             /\ dot (vsub v start) (vsub end_ start) = 0%R)
            \/ (dist2 v end_ = (radius * radius)%R
                /\ dot (vsub v end_) (vsub end_ start) = 0%R))
         (fst (ASEConverter.create_cylinder_obj start end_ radius resolution)).
Proof.
  unfold ASEConverter.create_cylinder_obj. cbv zeta.
  destruct (Req_dec_T (norm (vsub end_ start)) 0) as [Hz|Hnz]; [constructor|].
  cbn [fst].
  set (d0 := vsub end_ start) in *.
  set (d := scale d0 (/ norm d0)).
  assert (Hd : dot d d = 1%R) by (apply unit_scaled; exact Hnz).
  set (c := if Rlt_dec (Rabs (snd d)) 0.9 then cross d (0, 0, 1)%R else cross d (1, 0, 0)%R).
  assert (Hc : norm c <> 0%R) by (apply perpendicular_nonzero; exact Hd).
  set (p := scale c (/ norm c)).
  assert (Hp : dot p p = 1%R) by (apply unit_scaled; exact Hc).
  assert (Hdp : dot d p = 0%R).
  { unfold p. rewrite dot_scale_r. unfold c.
    destruct (Rlt_dec (Rabs (snd d)) 0.9); rewrite dot_cross_left; ring. }
  apply List.Forall_forall. intros v Hin.
  apply in_flat_map in Hin. destruct Hin as [i [_ Hin]].
  set (angle := (2 * PI * IZR i / IZR resolution)%R) in *.
  pose proof (sin2_cos2 angle) as Hcs. unfold Rsqr in Hcs.
  destruct (circle_offset d p radius (cos angle) (sin angle) Hd Hp Hdp Hcs) as [Hoo Hod].
  set (offset := scale (vadd (scale p (cos angle)) (scale (cross d p) (sin angle))) radius) in *.
  assert (Hperp : dot offset d0 = 0%R).
  { unfold d in Hod. rewrite dot_scale_r in Hod.
    apply Rmult_integral in Hod. destruct Hod as [Hinv|H0]; [|exact H0].
    exfalso. revert Hinv. apply Rinv_neq_0_compat. exact Hnz. }
  assert (Hrim : forall base, dist2 (vadd base offset) base = (radius * radius)%R
                              /\ dot (vsub (vadd base offset) base) d0 = 0%R).
  { intros base. rewrite <- Hoo, <- Hperp. clear.
    destruct base as [[b1 b2] b3], offset as [[o1 o2] o3], d0 as [[e1 e2] e3].
    unfold dist2, vadd, vsub, dot. split; ring. }
  destruct Hin as [<-|[<-|[]]]; [left|right]; apply Hrim.
Qed.

(** *** The OBJ file of the built-in converter *)

Import ASEConverter.

(** The index lists of the "f" lines of an OBJ file. *)
Definition faces_of (lines : list obj_line) : list (list Z) :=
  flat_map (fun l => match l with Face idx => [ idx ] | _ => [] end) lines.

Lemma faces_of_app (a b : list obj_line) : faces_of (a ++ b) = faces_of a ++ faces_of b.
Proof. unfold faces_of. apply flat_map_app. Qed.

Lemma faces_of_vertex_lines (vs : list vec3) : faces_of (map vertex_line vs) = [].
Proof. induction vs as [|[[x y] z] vs IH]; simpl; auto. Qed.

Lemma faces_of_face_lines (off : Z) (fs : list (list Z)) :
  faces_of (map (face_line off) fs) = map (map (fun v => (v + off)%Z)) fs.
Proof. induction fs as [|f fs IH]; simpl; [reflexivity|]. now f_equal. Qed.

(** The offset counts the vertices written so far, and every face written
    so far names vertices among them. *)
Definition indexed (vertex_offset : Z) (lines : list obj_line) : Prop :=
  Z.of_nat (length (vertices_of lines)) = vertex_offset
  /\ Forall (Forall (fun k => (1 <= k <= vertex_offset)%Z)) (faces_of lines).

(** Appending the vertices and the shifted faces of one solid. *)
Lemma indexed_block (off : Z) (acc pre post : list obj_line)
      (vs : list vec3) (fs : list (list Z)) :
  indexed off acc ->
  vertices_of pre = [] -> faces_of pre = [] ->
  vertices_of post = [] -> faces_of post = [] ->
  Forall (Forall (fun k => (1 <= k <= Z.of_nat (length vs))%Z)) fs ->
  indexed (off + Z.of_nat (length vs))
          (acc ++ pre ++ map vertex_line vs ++ map (face_line off) fs ++ post).
Proof.
  intros [Hcount Hfaces] Hpv Hpf Hqv Hqf Hfs. split.
  - rewrite !ScaleFacts.vertices_of_app, Hpv, Hqv, ScaleFacts.vertices_of_vertex_lines,
      ScaleFacts.vertices_of_face_lines.
    cbn [app]. rewrite app_nil_r, length_app. lia.
  - rewrite !faces_of_app, Hpf, Hqf, faces_of_vertex_lines, faces_of_face_lines.
    cbn [app]. rewrite app_nil_r. apply Forall_app. split.
    + eapply List.Forall_impl; [|exact Hfaces]. intros f Hf.
      eapply List.Forall_impl; [|exact Hf]. cbn. intros k Hk.
      pose proof (Nat2Z.is_nonneg (length vs)). lia.
    + apply List.Forall_map. eapply List.Forall_impl; [|exact Hfs]. intros f Hf.
      apply List.Forall_map. eapply List.Forall_impl; [|exact Hf]. cbn. intros k Hk.
      pose proof (Nat2Z.is_nonneg (length (vertices_of acc))). lia.
Qed.

Lemma atoms_loop_indexed (E : Env) (sr : Z) (scale_factor : R) :
  forall todo i off acc obj off',
    indexed off acc ->
    atoms_loop E sr scale_factor i todo off acc = Ret (obj, off') ->
    indexed off' obj.
Proof.
  induction todo as [|[pos symbol] todo IH]; intros i off acc obj off' Hacc Hrun.
  - cbn [atoms_loop] in Hrun. inversion Hrun; subst. exact Hacc.
  - cbn [atoms_loop] in Hrun.
    destruct (covalent_radius E symbol) as [r|]; [|discriminate].
    unfold create_sphere_obj in Hrun.
    destruct (sr =? 0)%Z; [discriminate|].
    apply IH in Hrun; [exact Hrun|].
    apply (indexed_block off acc [ Usemtl ("atom_" ++ symbol) ""; Group _ ] [ ObjText "" ]);
      auto using ase_sphere_faces_bound.
Qed.

Lemma bonds_loop_indexed (positions : list vec3) (br : Z) (scale_factor : R) :
  forall bonds off acc obj off',
    indexed off acc ->
    bonds_loop positions br scale_factor bonds off acc = Ret (obj, off') ->
    indexed off' obj.
Proof.
  induction bonds as [|[i j] bonds IH]; intros off acc obj off' Hacc Hrun.
  - cbn [bonds_loop] in Hrun. inversion Hrun; subst. exact Hacc.
  - cbn [bonds_loop] in Hrun.
    destruct (nth_error positions i) as [start_pos|]; [|discriminate].
    destruct (nth_error positions j) as [end_pos|]; [|discriminate].
    pose proof (ase_cylinder_shape start_pos end_pos (0.1 * scale_factor) br) as Hc.
    destruct (create_cylinder_obj start_pos end_pos (0.1 * scale_factor) br) as [vs fs].
    destruct Hc as [Hfs _].
    apply IH in Hrun; [exact Hrun|].
    pose proof (indexed_block off acc [] [] vs fs Hacc eq_refl eq_refl eq_refl eq_refl Hfs) as H.
    cbn [app] in H. now rewrite app_nil_r in H.
Qed.

Lemma indexed_app_plain (off : Z) (acc extra : list obj_line) :
  indexed off acc -> vertices_of extra = [] -> faces_of extra = [] ->
  indexed off (acc ++ extra).
Proof.
  intros [Hc Hf] Hv Hfa. split.
  - now rewrite ScaleFacts.vertices_of_app, Hv, app_nil_r.
  - now rewrite faces_of_app, Hfa, app_nil_r.
Qed.

Lemma build_content_indexed (E : Env) (atoms : option Atoms) (obj_path : string)
      (include_bonds : bool) (sr br : Z) (scale_factor : R)
      (obj : list obj_line) (mtl : list mtl_line) :
  build_content E atoms obj_path include_bonds sr br scale_factor = Ret (obj, mtl) ->
  exists off, indexed off obj.
Proof.
  unfold build_content. destruct atoms as [atoms|]; [|discriminate].
  destruct (atoms_loop _ _ _ _ _ _ _) as [[obj1 off1]|e] eqn:Ha; [|discriminate].
  apply atoms_loop_indexed in Ha; [|split; [reflexivity|constructor]].
  destruct include_bonds.
  - destruct (bonds_loop _ _ _ _ _ _) as [[obj2 off2]|e] eqn:Hb; [|discriminate].
    intros H. inversion H; subst. exists off2.
    apply indexed_app_plain; [|reflexivity|reflexivity].
    eapply bonds_loop_indexed; [|exact Hb].
    now apply indexed_app_plain.
  - intros H. inversion H; subst. now exists off1.
Qed.

(** What [_parse_obj_file] reads from a file. *)
Lemma parse_lines_spec (lines : list obj_line) :
  forall vs fs,
    USDZConverter.parse_lines lines vs fs
    = (vs ++ vertices_of lines,
       fs ++ map (map (fun k => (k - 1)%Z))
                 (List.filter (fun f => (3 <=? length f)%nat) (faces_of lines))).
Proof.
  induction lines as [|line lines IH]; intros vs fs.
  - cbn. now rewrite !app_nil_r.
  - destruct line; cbn [USDZConverter.parse_lines]; rewrite IH; try reflexivity.
    + cbn. now rewrite <- app_assoc.
    + unfold faces_of at 2. cbn [flat_map app]. fold (faces_of lines).
      cbn [List.filter]. rewrite length_map.
      destruct (3 <=? length idx)%nat; [|reflexivity].
      cbn [map]. now rewrite <- app_assoc.
Qed.

(** X8.  The file the built-in converter writes is read back by the packaging
    backend as a mesh whose faces all name vertices of the mesh: the
    zero-based indices lie below the number of vertices read. *)
Theorem ase_obj_read_back_in_range
        (E : Env) (atoms : option Atoms) (obj_path : string) (include_bonds : bool)
        (sphere_resolution bond_resolution : Z) (scale_factor : R) :
  match build_content E atoms obj_path include_bonds sphere_resolution bond_resolution
                      scale_factor with
  | Ret (obj, _) =>
      let '(vertices, faces) := USDZConverter._parse_obj_file (Some obj) in
      vertices = vertices_of obj
      /\ Forall (Forall (fun k => (0 <= k < Z.of_nat (length vertices))%Z)) faces
  | Raise _ => True
  end.
Proof.
  destruct (build_content _ _ _ _ _ _ _) as [[obj mtl]|e] eqn:Hb; [|exact I].
  apply build_content_indexed in Hb. destruct Hb as [off [Hcount Hfaces]].
  unfold USDZConverter._parse_obj_file. rewrite parse_lines_spec. cbn [app].
  split; [reflexivity|].
  apply List.Forall_map.
  apply List.Forall_forall. intros f Hin. apply filter_In in Hin. destruct Hin as [Hin _].
  rewrite List.Forall_forall in Hfaces. specialize (Hfaces f Hin).
  apply List.Forall_map. eapply List.Forall_impl; [|exact Hfaces]. cbn. intros k Hk. lia.
Qed.

(** *** Materials of the built-in converter *)

(** The names on the "usemtl" lines of an OBJ file. *)
Definition used_materials (lines : list obj_line) : list string :=
  flat_map (fun l => match l with Usemtl n _ => [ n ] | _ => [] end) lines.

Lemma used_materials_app (a b : list obj_line) :
  used_materials (a ++ b) = used_materials a ++ used_materials b.
Proof. unfold used_materials. apply flat_map_app. Qed.

Lemma used_vertex_lines (vs : list vec3) : used_materials (map vertex_line vs) = [].
Proof. induction vs as [|[[x y] z] vs IH]; simpl; auto. Qed.

Lemma used_face_lines (off : Z) (fs : list (list Z)) :
  used_materials (map (face_line off) fs) = [].
Proof. induction fs as [|f fs IH]; simpl; auto. Qed.

Lemma atoms_loop_used (E : Env) (sr : Z) (scale_factor : R) :
  forall todo i off acc obj off',
    atoms_loop E sr scale_factor i todo off acc = Ret (obj, off') ->
    used_materials obj
    = used_materials acc ++ map (fun s => ("atom_" ++ snd s)%string) todo.
Proof.
  induction todo as [|[pos symbol] todo IH]; intros i off acc obj off' Hrun.
  - cbn [atoms_loop] in Hrun. inversion Hrun; subst. cbn. now rewrite app_nil_r.
  - cbn [atoms_loop] in Hrun.
    destruct (covalent_radius E symbol) as [r|]; [|discriminate].
    destruct (create_sphere_obj pos _ sr) as [[vs fs]|e]; [|discriminate].
    apply IH in Hrun. rewrite Hrun.
    rewrite !used_materials_app, used_vertex_lines, used_face_lines.
    cbn. now rewrite <- app_assoc.
Qed.

Lemma bonds_loop_used (positions : list vec3) (br : Z) (scale_factor : R) :
  forall bonds off acc obj off',
    bonds_loop positions br scale_factor bonds off acc = Ret (obj, off') ->
    used_materials obj = used_materials acc.
Proof.
  induction bonds as [|[i j] bonds IH]; intros off acc obj off' Hrun.
  - cbn [bonds_loop] in Hrun. now inversion Hrun; subst.
  - cbn [bonds_loop] in Hrun.
    destruct (nth_error positions i) as [start_pos|]; [|discriminate].
    destruct (nth_error positions j) as [end_pos|]; [|discriminate].
    destruct (create_cylinder_obj start_pos end_pos (0.1 * scale_factor) br) as [vs fs].
    apply IH in Hrun. rewrite Hrun.
    now rewrite !used_materials_app, used_vertex_lines, used_face_lines, app_nil_r.
Qed.

Lemma defined_names_app (a b : list mtl_line) :
  MaterialStandardizer.defined_names (Some (a ++ b))
  = MaterialStandardizer.defined_names (Some a) ++ MaterialStandardizer.defined_names (Some b).
Proof. unfold MaterialStandardizer.defined_names. apply flat_map_app. Qed.

Lemma defined_element_materials (elements : list string) :
  MaterialStandardizer.defined_names (Some (flat_map element_material elements))
  = map (fun e => ("atom_" ++ e)%string) elements.
Proof.
  induction elements as [|e elements IH]; [reflexivity|].
  cbn [flat_map]. rewrite defined_names_app, IH. reflexivity.
Qed.

(** X9.  Every material the OBJ file of the built-in converter uses is defined
    in the MTL file written with it, as long as iterating over the set of
    symbols visits every symbol. *)
Theorem ase_obj_materials_are_defined
        (E : Env) (atoms : option Atoms) (obj_path : string) (include_bonds : bool)
        (sphere_resolution bond_resolution : Z) (scale_factor : R) :
  (forall symbols x, In x symbols -> In x (set_order E symbols)) ->
  match build_content E atoms obj_path include_bonds sphere_resolution bond_resolution
                      scale_factor with
  | Ret (obj, mtl) =>
      Forall (fun n => In n (MaterialStandardizer.defined_names (Some mtl)))
             (used_materials obj)
  | Raise _ => True
  end.
Proof.
  intros Hset. unfold build_content. destruct atoms as [atoms|]; [|exact I].
  destruct (atoms_loop _ _ _ _ _ _ _) as [[obj1 off1]|e] eqn:Ha; [|exact I].
  apply atoms_loop_used in Ha. cbn [used_materials flat_map app] in Ha.
  assert (Hatoms : Forall (fun n => In n (map (fun e => ("atom_" ++ e)%string)
                                              (set_order E (map snd (sites atoms)))))
                          (used_materials obj1)).
  { rewrite Ha. apply List.Forall_forall. intros n Hin.
    apply in_map_iff in Hin. destruct Hin as [[pos sym] [<- Hin]]. cbn [snd].
    apply in_map. apply Hset.
    apply in_combine_r in Hin. exact Hin. }
  destruct include_bonds.
  - destruct (bonds_loop _ _ _ _ _ _) as [[obj2 off2]|e] eqn:Hb; [|exact I].
    apply bonds_loop_used in Hb.
    rewrite used_materials_app, Hb, used_materials_app. cbn [used_materials flat_map app].
    rewrite app_nil_r, defined_names_app, defined_element_materials.
    apply Forall_app. split.
    + eapply List.Forall_impl; [|exact Hatoms]. intros n Hn. apply in_or_app. now left.
    + constructor; [|constructor]. apply in_or_app. right. now left.
  - rewrite app_nil_r, defined_element_materials. exact Hatoms.
Qed.

Lemma ase_obj_materials_witness :
  match build_content ScaleFacts.example_env (Some ScaleFacts.example_atoms) "NaCl.obj"
                      true 2 3 1 with
  | Ret (obj, mtl) =>
      Forall (fun n => In n (MaterialStandardizer.defined_names (Some mtl)))
             (used_materials obj)
  | Raise _ => True
  end.
Proof.
  apply (ase_obj_materials_are_defined ScaleFacts.example_env
           (Some ScaleFacts.example_atoms) "NaCl.obj" true 2 3 1).
  intros symbols x H. exact H.
Defined.

End MeshFacts.

(** ** Bond inference when a neighbour query raises *)

Module BondLoopFacts.

(** The bonds one atom contributes, from the indices its query returned. *)
Definition ase_bonds_of (i : nat) (indices : list nat) : list (nat * nat) :=
  map (fun j => (i, j)) (List.filter (fun j => (i <? j)%nat) indices).

Definition pymatgen_bonds_of (i : nat) (neighbors : list (nat * R)) : list (nat * nat * R) :=
  map (fun n => (i, fst n, snd n)) (List.filter (fun n => (i <? fst n)%nat) neighbors).

Lemma ase_loop_closed (get_neighbors : nat -> outcome (list nat)) (idxs : list nat) :
  forall bonds,
    ASEConverter.get_bonds_loop get_neighbors idxs bonds
    = match List.find (fun i => raised (get_neighbors i)) idxs with
      | Some i =>
          match get_neighbors i with
          | Raise e => Raise e
          | Ret _ => Ret []
          end
      | None =>
          Ret (bonds ++ flat_map (fun i => match get_neighbors i with
                                           | Ret indices => ase_bonds_of i indices
                                           | Raise _ => []
                                           end) idxs)
      end.
Proof.
  induction idxs as [|i idxs IH]; intros bonds.
  - cbn. now rewrite app_nil_r.
  - cbn [ASEConverter.get_bonds_loop List.find flat_map].
    destruct (get_neighbors i) as [indices|e] eqn:E; cbn [raised].
    + rewrite IH. destruct (List.find _ idxs); [reflexivity|].
      unfold ase_bonds_of. now rewrite <- app_assoc.
    + now rewrite E.
Qed.

Lemma pymatgen_loop_closed (get_nn_info : nat -> outcome (list (nat * R))) (idxs : list nat) :
  forall bonds,
    PymatgenConverter.get_bonds_loop get_nn_info idxs bonds
    = bonds ++ flat_map (fun i => match get_nn_info i with
                                  | Ret neighbors => pymatgen_bonds_of i neighbors
                                  | Raise _ => []
                                  end) idxs.
Proof.
  induction idxs as [|i idxs IH]; intros bonds.
  - cbn. now rewrite app_nil_r.
  - cbn [PymatgenConverter.get_bonds_loop flat_map].
    destruct (get_nn_info i) as [neighbors|e].
    + rewrite IH. unfold pymatgen_bonds_of. now rewrite <- app_assoc.
    + now rewrite IH.
Qed.

(** X2.  How the two [get_bonds] treat a neighbour query that raises: the ASE
    one gives up and returns no bond at all, the pymatgen one leaves out the
    atom whose query raised and keeps the bonds of the others.  When no
    query raises, each lists, atom by atom, the neighbours with a larger
    index, once for every time the query returns them. *)
Theorem bond_queries_that_raise
        (atoms : ASEConverter.Atoms) (structure : PymatgenConverter.Structure) :
  ASEConverter.get_bonds atoms
  = match ASEConverter.neighbor_list atoms with
    | Raise _ => []
    | Ret nl =>
        if existsb (fun i => raised (nl i)) (range (length (ASEConverter.sites atoms)))
        then []
        else flat_map (fun i => match nl i with
                                | Ret indices => ase_bonds_of i indices
                                | Raise _ => []
                                end)
                      (range (length (ASEConverter.sites atoms)))
    end
  /\ PymatgenConverter.get_bonds structure
     = match PymatgenConverter.crystal_nn structure with
       | Raise _ => []
       | Ret nn =>
           flat_map (fun i => match nn i with
                              | Ret neighbors => pymatgen_bonds_of i neighbors
                              | Raise _ => []
                              end)
                    (range (PymatgenConverter.structure_len structure))
       end.
Proof.
  split.
  - unfold ASEConverter.get_bonds. destruct (ASEConverter.neighbor_list atoms) as [nl|e]; [|reflexivity].
    rewrite ase_loop_closed.
    set (idxs := range (length (ASEConverter.sites atoms))).
    destruct (List.find (fun i => raised (nl i)) idxs) as [i|] eqn:Ef.
    + assert (Hex : existsb (fun i => raised (nl i)) idxs = true).
      { apply existsb_exists. exists i. apply find_some in Ef. exact Ef. }
      rewrite Hex. now destruct (nl i).
    + assert (Hex : existsb (fun i => raised (nl i)) idxs = false).
      { apply not_true_is_false. intros H. apply existsb_exists in H.
        destruct H as [i [Hin Hi]]. eapply find_none in Ef; [|exact Hin].
        cbn in Ef. congruence. }
      now rewrite Hex.
  - unfold PymatgenConverter.get_bonds.
    destruct (PymatgenConverter.crystal_nn structure) as [nn|e]; [|reflexivity].
    now rewrite pymatgen_loop_closed.
Qed.

End BondLoopFacts.

(** ** The chain of parsing backends *)

Module ChainFacts.
Import ReliableCIFConverter.
Local Open Scope eff_scope.

(** *** The order of the backends *)

Lemma has_cases (self : t) (name : string) :
  has self name = true ->
  name = "pymatgen" \/ name = "ase" \/ name = "builtin".
Proof.
  unfold has.
  destruct (String.eqb_spec name "pymatgen"); [auto|].
  destruct (String.eqb_spec name "ase"); [auto|].
  destruct (String.eqb_spec name "builtin"); [auto|discriminate].
Qed.

Lemma default_order_sound (self : t) :
  List.NoDup (List.filter (has self) default_order)
  /\ forall name, In name (List.filter (has self) default_order) <-> has self name = true.
Proof.
  split.
  - apply List.NoDup_filter. unfold default_order.
    repeat (constructor; [cbn; intuition discriminate|]). constructor.
  - intros name. rewrite filter_In. split; [tauto|]. intros H. split; [|exact H].
    destruct (has_cases self name H) as [E|[E|E]]; subst name; cbn; auto.
Qed.

(** X10.  [_get_converter_order] lists every configured backend once and nothing
    else; a configured preference comes first, and the others follow in the
    default order pymatgen, ASE, built-in. *)
Theorem converter_order_lists_each_backend_once (self : t) (preferred : option string) :
  let order := _get_converter_order self preferred in
  List.NoDup order
  /\ (forall name, In name order <-> has self name = true)
  /\ match preferred with
     | Some p =>
         if has self p
         then order = p :: List.filter (fun c => negb (String.eqb c p)) (List.filter (has self) default_order)
         else order = List.filter (has self) default_order
     | None => order = List.filter (has self) default_order
     end.
Proof.
  cbv zeta. destruct (default_order_sound self) as [Hnd Hin].
  unfold _get_converter_order. destruct preferred as [p|]; [|auto].
  destruct (has self p) eqn:Hp.
  - assert (Hne : negb (String.eqb p "") = true).
    { destruct (String.eqb_spec p "") as [->|]; [discriminate Hp|reflexivity]. }
    rewrite Hne. cbn [andb].
    assert (Hf : List.filter (fun c => negb (String.eqb c p) && has self c) default_order
                 = List.filter (fun c => negb (String.eqb c p))
                               (List.filter (has self) default_order)).
    { unfold default_order. cbn [List.filter].
      destruct (has self "pymatgen"), (has self "ase"), (has self "builtin");
        cbn [List.filter andb];
        destruct (negb (String.eqb "pymatgen" p)), (negb (String.eqb "ase" p)),
          (negb (String.eqb "builtin" p)); reflexivity. }
    rewrite Hf. split; [|split; [|reflexivity]].
    + constructor.
      * intros H. apply filter_In in H. destruct H as [_ H].
        now rewrite String.eqb_refl in H.
      * now apply List.NoDup_filter.
    + intros name. split.
      * intros [<-|H]; [exact Hp|]. apply filter_In in H. destruct H as [H _].
        now apply Hin.
      * intros H. destruct (String.eqb_spec name p) as [->|Hne']; [now left|].
        right. apply filter_In. split; [now apply Hin|].
        destruct (String.eqb_spec name p); [contradiction|reflexivity].
  - rewrite andb_false_r. auto.
Qed.

(** X11.  A converter that was constructed has a backend, and the backend
    [get_conversion_info] recommends is the one tried first by default. *)
Theorem recommended_backend_is_tried_first (converters self : t) :
  init converters = Ret self ->
  has self (recommended_converter self) = true
  /\ exists rest, _get_converter_order self None = recommended_converter self :: rest.
Proof.
  unfold init, is_available. intros H.
  destruct (bool_decide (is_Some (pymatgen converters))) eqn:Hp;
    destruct (bool_decide (is_Some (ase converters))) eqn:Ha;
    destruct (bool_decide (is_Some (builtin converters))) eqn:Hb;
    cbn in H; try discriminate; inversion H; subst;
    unfold recommended_converter, _get_converter_order, default_order, has;
    cbn; rewrite ?Hp, ?Ha, ?Hb; cbn; (split; [reflexivity|eexists; reflexivity]).
Qed.

Lemma recommended_backend_witness :
  has FallbackFacts.example_self (recommended_converter FallbackFacts.example_self) = true
  /\ exists rest,
      _get_converter_order FallbackFacts.example_self None
      = recommended_converter FallbackFacts.example_self :: rest.
Proof.
  apply (recommended_backend_is_tried_first FallbackFacts.example_self). reflexivity.
Defined.

(** *** One call of [convert_cif_to_obj] *)

(** The record the model keeps of an attempt. *)
Definition call (name : string) : event := Called name "_try_converter".

(** What a call decides: the flag, the backend used and the error. *)
Definition verdict (r : result) : bool * option string * option string :=
  (success r, converter_used r, error r).

Definition settled (v : bool * option string * option string) (tr : list event)
           (s : state) : Prop :=
  verdict (result_of s) = v /\ trace (world_of s) = tr.

Lemma settled_external {A} v tr (f : external A) :
  invariant (settled v tr) (in_world (run_external f)).
Proof.
  apply inv_zoom. intros s r w' H Hs. unfold run_external, zoom in H.
  destruct (f (fs (world_of s))) as [r0 fs']. inversion H; subst. exact Hs.
Qed.

Lemma settled_update v tr (f : result -> result) :
  (forall r, verdict (f r) = verdict r) -> invariant (settled v tr) (update f).
Proof.
  intros Hf. apply inv_modify. intros s [Hv Ht]. split; [|exact Ht].
  cbn. now rewrite Hf.
Qed.

Ltac settle :=
  repeat first
    [ apply inv_ret | apply inv_raise | apply inv_get | apply settled_external
    | (apply settled_update; intros; reflexivity)
    | (apply inv_bind; [|intros ?]) ].

Lemma settled_analyze v tr (self : ReliableCIFConverter.t) (obj_file : string) :
  invariant (settled v tr) (_analyze_obj_file self obj_file).
Proof.
  unfold _analyze_obj_file. apply inv_bind; [apply inv_get|]. intros s.
  destruct (analyze self obj_file _) as [[nv nf]|]; settle.
Qed.

Lemma settled_after_convert v tr (self : ReliableCIFConverter.t) (p : parsed)
      (obj_file : string) (ok : bool) :
  invariant (settled v tr) (after_convert self p obj_file ok).
Proof.
  unfold after_convert. destruct ok; [|apply inv_ret].
  apply inv_bind; [settle|]. intros _.
  apply inv_bind; [settle|]. intros n.
  apply inv_bind; [settle|]. intros _.
  apply inv_bind; [apply settled_analyze|]. intros _. apply inv_ret.
Qed.

(** The backends' wrappers fill in the counts only. *)
Lemma settled_try_converter v tr (self : ReliableCIFConverter.t)
      (name cif_file obj_file : string) (include_bonds : bool) (scale_factor : R) :
  invariant (settled v tr)
            (_try_converter self name cif_file obj_file include_bonds scale_factor).
Proof.
  unfold _try_converter.
  destruct (String.eqb name "pymatgen").
  { destruct (pymatgen self); [|apply inv_raise]. unfold _try_pymatgen.
    apply inv_bind; [settle|]. intros st.
    apply inv_bind; [settle|]. intros ok. apply settled_after_convert. }
  destruct (String.eqb name "ase").
  { destruct (ase self); [|apply inv_raise]. unfold _try_ase.
    apply inv_bind; [settle|]. intros [parsed_atoms|]; [|apply inv_ret].
    apply inv_bind; [settle|]. intros ok. apply settled_after_convert. }
  destruct (String.eqb name "builtin"); [|apply inv_ret].
  destruct (builtin self); [|apply inv_raise]. unfold _try_builtin.
  apply inv_bind; [settle|]. intros ok.
  destruct (negb ok); [apply inv_ret|].
  apply inv_bind; [settle|]. intros [ok' [[[n1 n2] n3] n4]].
  destruct ok'; settle.
Qed.

(** One pass of the loop: it returns, the attempt is on record, and the
    verdict changes only when the backend succeeded. *)
Lemma attempt_spec (self : ReliableCIFConverter.t) (name cif_file obj_file : string)
      (include_bonds : bool) (scale_factor : R) (s : state) :
  exists b s',
    attempt self name cif_file obj_file include_bonds scale_factor s = (Ret b, s')
    /\ trace (world_of s') = trace (world_of s) ++ [ call name ]
    /\ error (result_of s') = error (result_of s)
    /\ (if b then success (result_of s') = true
                  /\ converter_used (result_of s') = Some name
        else success (result_of s') = success (result_of s)
             /\ converter_used (result_of s') = converter_used (result_of s)).
Proof.
  unfold attempt, try_except. unfold bind at 1. cbn [in_world zoom note modify].
  set (s0 := {| world_of := {| fs := fs (world_of s);
                               trace := trace (world_of s) ++ [ Called name "_try_converter" ] |};
                result_of := result_of s |}).
  unfold bind at 1.
  destruct (_try_converter self name cif_file obj_file include_bonds scale_factor s0)
    as [[[|]|e] s1] eqn:E;
    pose proof (settled_try_converter (verdict (result_of s))
                  (trace (world_of s) ++ [ call name ]) self name cif_file obj_file
                  include_bonds scale_factor s0 _ s1 E (conj eq_refl eq_refl)) as [Hv Ht];
    unfold verdict in Hv; injection Hv as Hsucc Hused Herr.
  - unfold update, modify, path_exists, getsize, in_world, zoom, ret, bind. cbn.
    destruct (fs (world_of s1) !! obj_file) as [n|] eqn:En; cbn; rewrite ?En; cbn;
      destruct (String.eqb name "pymatgen" || String.eqb name "ase"); cbn;
      eexists _, _; (split; [reflexivity|]); cbn; auto.
  - exists false, s1. split; [reflexivity|]. repeat split; assumption.
  - exists false. eexists. split; [reflexivity|]. cbn. repeat split; assumption.
Qed.

(** The loop over an order of configured backends. *)
Lemma attempts_spec (self : ReliableCIFConverter.t) (cif_file obj_file : string)
      (include_bonds : bool) (scale_factor : R) :
  forall order s,
    Forall (fun name => has self name = true) order ->
    exists b s' called rest,
      attempts self order cif_file obj_file include_bonds scale_factor s = (Ret b, s')
      /\ order = called ++ rest
      /\ trace (world_of s') = trace (world_of s) ++ map call called
      /\ error (result_of s') = error (result_of s)
      /\ (if b then success (result_of s') = true
                    /\ exists before name,
                         called = before ++ [ name ]
                         /\ converter_used (result_of s') = Some name
          else rest = []
               /\ success (result_of s') = success (result_of s)
               /\ converter_used (result_of s') = converter_used (result_of s)).
Proof.
  induction order as [|name order IH]; intros s Hall.
  - exists false, s, [], []. cbn. rewrite app_nil_r. repeat split; reflexivity.
  - inversion Hall as [|? ? Hname Hrest]; subst. cbn [attempts]. rewrite Hname. cbn [negb].
    unfold bind.
    destruct (attempt_spec self name cif_file obj_file include_bonds scale_factor s)
      as (b & s1 & Ha & Ht & He & Hb).
    rewrite Ha. destruct b.
    + exists true, s1, [ name ], order. destruct Hb as [Hs Hu].
      repeat split; auto. exists [], name. auto.
    + destruct (IH s1 Hrest) as (b & s2 & called & rest & Hrun & Ho & Ht2 & He2 & Hb2).
      destruct Hb as [Hs Hu].
      exists b, s2, (name :: called), rest. split; [exact Hrun|].
      split; [cbn; now rewrite Ho|].
      split; [rewrite Ht2, Ht; cbn; now rewrite <- app_assoc|].
      split; [congruence|].
      destruct b.
      * destruct Hb2 as [Hs2 (before & winner & Hc & Hw)]. split; [exact Hs2|].
        exists (name :: before), winner. split; [cbn; now rewrite Hc|exact Hw].
      * destruct Hb2 as (Hr & Hs2 & Hu2). repeat split; congruence.
Qed.

Lemma parse_outcome
        (self : ReliableCIFConverter.t) (cif_file obj_file : string)
        (preferred : option string) (include_bonds : bool) (scale_factor : R) (w : world) :
  exists r w' called rest,
    convert_cif_to_obj self cif_file obj_file preferred include_bonds scale_factor w
    = (Ret r, w')
    /\ trace w' = trace w ++ map call called
    /\ if bool_decide (is_Some (fs w !! cif_file)) then
         _get_converter_order self preferred = called ++ rest
         /\ (if success r
             then error r = None
                  /\ exists before name,
                       called = before ++ [ name ] /\ converter_used r = Some name
             else rest = []
                  /\ converter_used r = None
                  /\ error r = Some "所有可用的转换器都失败了")
       else called = [] /\ w' = w
            /\ r = set_error ("CIF文件不存在: " ++ cif_file) initial_result.
Proof.
  unfold convert_cif_to_obj, convert_body. unfold bind at 1.
  unfold in_world at 1, zoom, path_exists. cbn [world_of result_of].
  destruct (bool_decide (is_Some (fs w !! cif_file))) eqn:Hcif; cbn [negb].
  - assert (Hall : Forall (fun name => has self name = true)
                          (_get_converter_order self preferred)).
    { apply List.Forall_forall. intros name. apply FallbackFacts.order_has. }
    destruct (attempts_spec self cif_file obj_file include_bonds scale_factor
                (_get_converter_order self preferred)
                {| world_of := w; result_of := initial_result |} Hall)
      as (b & s' & called & rest & Hrun & Ho & Ht & He & Hb).
    unfold bind. destruct w as [files tr]. cbn [fs trace] in *. rewrite Hrun.
    cbn [world_of result_of trace] in Ht, He, Hb.
    destruct b.
    + destruct Hb as [Hs Hw]. exists (result_of s'), (world_of s'), called, rest.
      split; [reflexivity|]. split; [exact Ht|]. split; [exact Ho|].
      rewrite Hs. split; [exact He|exact Hw].
    + destruct Hb as (Hr & Hs & Hu).
      exists (set_error "所有可用的转换器都失败了" (result_of s')), (world_of s'), called, rest.
      split; [reflexivity|]. split; [exact Ht|]. split; [exact Ho|].
      cbn [success set_error converter_used error]. rewrite Hs. cbn. auto.
  - destruct w as [files tr]. exists (set_error ("CIF文件不存在: " ++ cif_file) initial_result).
    exists {| fs := files; trace := tr |}, [], []. cbn. rewrite app_nil_r. auto.
Qed.

(** X12.  [convert_cif_to_obj] always returns its result dictionary.  Without
    the input file nothing is attempted.  Otherwise the backends are
    attempted in the order of [_get_converter_order], each at most once, up
    to the first that succeeds: then the result names it and carries no
    error, and the backends after it are not attempted.  When none
    succeeds, all were attempted and the result carries the error and names
    no backend. *)
Theorem parse_stops_at_the_first_success
        (self : ReliableCIFConverter.t) (cif_file obj_file : string)
        (preferred : option string) (include_bonds : bool) (scale_factor : R) (w : world) :
  exists r w' called rest,
    convert_cif_to_obj self cif_file obj_file preferred include_bonds scale_factor w
    = (Ret r, w')
    /\ trace w' = trace w ++ map call called
    /\ if bool_decide (is_Some (fs w !! cif_file)) then
         _get_converter_order self preferred = called ++ rest
         /\ (if success r
             then error r = None
                  /\ exists before name,
                       called = before ++ [ name ] /\ converter_used r = Some name
             else rest = []
                  /\ converter_used r = None
                  /\ error r = Some "所有可用的转换器都失败了")
       else called = [] /\ w' = w
            /\ r = set_error ("CIF文件不存在: " ++ cif_file) initial_result.
Proof.
  exact (parse_outcome self cif_file obj_file preferred include_bonds scale_factor w).
Qed.

End ChainFacts.

(** ** The report of a conversion, and cleanup *)

Module ReportFacts.
Import CIFToUSDZConverter.
Local Open Scope eff_scope.

#[local] Arguments _convert_obj_to_usdz : simpl never.
#[local] Arguments _convert_cif_to_obj : simpl never.

(** With a parsing backend configured, the parsing step returns its four
    values; it never raises. *)
Lemma cif_step_returns (self : t) (cif_file_path : string) (opts : options) (s : state) :
  cif_converters self <> [] ->
  exists obj ok msg det s1,
    _convert_cif_to_obj self cif_file_path opts s = (Ret (obj, ok, msg, det), s1).
Proof.
  intros Hne. unfold _convert_cif_to_obj. unfold bind at 1.
  assert (Hbody : forall name conv,
             exists obj ok msg det s1,
               try_except
                 (let obj_filename := (PyStr.stem cif_file_path ++ ".obj")%string in
                  let* s := get in
                  match temp_dir s with
                  | None => raise (Exception "expected str, bytes or os.PathLike object, not NoneType")
                  | Some d =>
                      let obj_file_path := PyStr.path_join d obj_filename in
                      if has_convert_cif_to_obj conv then
                        let* result :=
                          in_world (convert_cif_to_obj conv cif_file_path obj_file_path
                                      (preferred_converter opts)
                                      (default true (include_bonds opts))
                                      (default 1%R (scale_factor opts))) in
                        let ok := ReliableCIFConverter.success result in
                        let msg :=
                          if negb ok then ReliableCIFConverter.error result
                          else Some ("转换成功，使用了 "
                                     ++ show (ReliableCIFConverter.converter_used result)
                                     ++ " 转换器")%string in
                        ret (obj_file_path, ok, msg, CifDetails result)
                      else
                        ret (obj_file_path, false,
                             Some ("转换器 " ++ name ++ " 不支持convert_cif_to_obj方法")%string,
                             NoDetails)
                  end)
                 (fun e =>
                    ret ("", false,
                         Some ("CIF转换器 " ++ name ++ " 执行失败: " ++ str e)%string,
                         NoDetails)) s
               = (Ret (obj, ok, msg, det), s1)).
  { intros name conv. unfold try_except. cbv zeta.
    match goal with
    | |- context [ match ?m s with _ => _ end ] => destruct (m s) as [[[[[o k] m'] d']|e] s1]
    end; eexists _, _, _, _, _; reflexivity. }
  destruct (List.find (fun kv => String.eqb (fst kv) "reliable") (cif_converters self))
    as [[k conv]|] eqn:Ef.
  - cbn [ret]. rewrite Ef. apply Hbody.
  - destruct (cif_converters self) as [|[k conv] rest] eqn:Ec; [contradiction|].
    cbn [ret]. cbn [List.find fst]. rewrite String.eqb_refl. apply Hbody.
Qed.

(** What a report says when the conversion failed: an exception before any
    step, a failed parsing step, or a failed packaging step after a
    successful parsing step. *)
Definition failure_shape (msg : string) (inf : conversion_info) : Prop :=
  output_size inf = None
  /\ ((steps inf = [] /\ error inf = Some msg
       /\ exists e, msg = ("转换过程中发生错误: " ++ e)%string)
      \/ (error inf = None
          /\ exists st1,
               steps inf = [ st1 ]
               /\ step_name st1 = "cif_to_obj" /\ step_success st1 = false
               /\ msg = ("CIF转换失败: " ++ show (step_message st1))%string)
      \/ (error inf = None
          /\ exists st1 st2 m2,
               steps inf = [ st1; st2 ]
               /\ step_name st1 = "cif_to_obj" /\ step_success st1 = true
               /\ step_name st2 = "obj_to_usdz" /\ step_success st2 = false
               /\ step_message st2 = Some m2
               /\ msg = ("USDZ转换失败: " ++ m2)%string)).

(** What a report says when the conversion succeeded. *)
Definition success_shape (output_path : string) (w : world) (msg : string)
           (inf : conversion_info) : Prop :=
  msg = "转换成功完成"
  /\ error inf = None
  /\ (exists n, fs w !! output_path = Some n /\ output_size inf = Some (size n))
  /\ exists st1 st2,
       steps inf = [ st1; st2 ]
       /\ step_name st1 = "cif_to_obj" /\ step_success st1 = true
       /\ step_name st2 = "obj_to_usdz" /\ step_success st2 = true.

Lemma convert_steps_shapes (self : t) (cif_file_path output_path : string) (opts : options)
      (s : state) :
  cif_converters self <> [] ->
  steps (info s) = [] -> output_size (info s) = None -> error (info s) = None ->
  exists ok msg s',
    convert_steps self cif_file_path output_path opts s = (Ret (ok, msg), s')
    /\ if ok then success_shape output_path (world_of s') msg (info s')
       else failure_shape msg (info s').
Proof.
  intros Hne Hsteps Hsize Herr.
  unfold convert_steps, try_except. unfold bind at 1. unfold in_world at 1, zoom, mkdtemp.
  destruct (temp_name (kernel self) "cif_to_usdz_" (fs (world_of s))) as [d|]; cbn.
  2:{ eexists false, _, _. split; [reflexivity|]. unfold failure_shape. cbn.
      split; [exact Hsize|]. left. split; [exact Hsteps|]. split; [reflexivity|].
      eexists. reflexivity. }
  unfold bind at 1.
  match goal with
  | |- context [ _convert_cif_to_obj self cif_file_path opts ?s0 ] =>
      destruct (cif_step_returns self cif_file_path opts s0 Hne)
        as (obj & ok1 & msg1 & det1 & s1 & E1);
      pose proof (OrchestratorFacts.convert_cif_to_obj_frame self cif_file_path opts s0 _ _ E1)
        as [Ht1 Hi1]
  end.
  rewrite E1. cbn in Ht1, Hi1. cbn.
  unfold bind at 1. unfold update_info at 1, modify.
  destruct ok1; cbn.
  2:{ eexists false, _, _. split; [reflexivity|]. unfold failure_shape. cbn.
      rewrite Hi1, Hsteps, Hsize, Herr. cbn.
      split; [reflexivity|]. right. left. split; [reflexivity|].
      eexists. repeat split; reflexivity. }
  unfold bind at 1.
  match goal with
  | |- context [ _convert_obj_to_usdz self obj output_path opts ?s0 ] =>
      destruct (OrchestratorFacts.convert_obj_to_usdz_spec self obj output_path opts s0)
        as (ok2 & msg2 & ui & s2 & E2 & [Ht2 Hi2 _ _ _ Hwon])
  end.
  rewrite E2. cbn in Ht2, Hi2. cbn.
  unfold bind at 1. unfold update_info at 1, modify.
  destruct ok2; cbn.
  2:{ eexists false, _, _. split; [reflexivity|]. unfold failure_shape. cbn.
      rewrite Hi2. cbn. rewrite Hi1, Hsteps, Hsize, Herr. cbn.
      split; [reflexivity|]. right. right. split; [reflexivity|].
      eexists _, _, _. repeat split; reflexivity. }
  destruct (Hwon eq_refl) as [[n Hn] _].
  unfold bind, in_world, zoom, path_exists, getsize, update_info, modify, ret. cbn.
  rewrite Hn. cbn. rewrite ?Hn. cbn.
  eexists true, _, _. split; [reflexivity|]. unfold success_shape. cbn.
  rewrite Hi2. cbn. rewrite Hi1, Hsteps, Herr. cbn.
  split; [reflexivity|]. split; [reflexivity|].
  split; [exists n; split; [exact Hn|reflexivity]|].
  eexists _, _. repeat split; reflexivity.
Qed.

(** X13.  [convert_cif_to_usdz] returns one of four reports.  A guard that
    fails gives empty details and changes nothing.  Success means the
    output file exists when the call returns; the report then holds its
    size and the two steps, both successful.  A failure is an exception
    before any step (the directory could not be made), a failed parsing
    step, after which no packaging step is run, or a failed packaging step.
    The message "输出文件未生成" of the last check is never returned. *)
Theorem conversion_report_shapes
        (self : t) (cif_file_path output_path : string) (opts : option options)
        (i : instance) :
  exists ok msg details i',
    convert_cif_to_usdz self cif_file_path output_path opts i
    = (Ret (ok, msg, details), i')
    /\ msg <> "输出文件未生成"
    /\ match details with
       | None => ok = false /\ i' = i
       | Some inf =>
           if ok then success_shape output_path (the_world i') msg inf
           else failure_shape msg inf
       end.
Proof.
  unfold convert_cif_to_usdz.
  destruct (negb (bool_decide (is_Some (fs (the_world i) !! cif_file_path)))).
  { eexists _, _, _, _. split; [reflexivity|]. split; [|now split].
    intros H. cbn in H. discriminate H. }
  destruct (bool_decide (cif_converters self = [])) eqn:Hc.
  { eexists _, _, _, _. split; [reflexivity|]. split; [discriminate|now split]. }
  destruct (bool_decide (usdz_converters self = ∅)).
  { eexists _, _, _, _. split; [reflexivity|]. split; [discriminate|now split]. }
  apply bool_decide_eq_false in Hc.
  match goal with
  | |- context [ convert_steps self cif_file_path output_path ?o ?s0 ] =>
      destruct (convert_steps_shapes self cif_file_path output_path o s0 Hc
                  eq_refl eq_refl eq_refl) as (ok & msg & s' & E & Hshape)
  end.
  rewrite E. eexists _, _, _, _. split; [reflexivity|]. cbn [the_world].
  split; [|exact Hshape].
  destruct ok.
  - destruct Hshape as [-> _]. discriminate.
  - destruct Hshape as [_ [(_ & _ & e & ->)|[(_ & st1 & _ & _ & _ & ->)|(_ & st1 & st2 & m2 & _ & _ & _ & _ & _ & _ & ->)]]];
      intros H; cbn in H; discriminate H.
Qed.

(** *** Calls made by a conversion *)

(** The parsing step of a converter whose parsing backend is the
    ReliableCIFConverter records attempts of parsing backends only. *)
Lemma reliable_step_trace (c : ReliableCIFConverter.t) (self : t)
      (cif_file_path : string) (opts : options) (s : state) :
  cif_converters self = [ ("reliable", reliable c) ] ->
  forall r s1,
    _convert_cif_to_obj self cif_file_path opts s = (r, s1) ->
    exists called, trace (world_of s1) = trace (world_of s) ++ map ChainFacts.call called.
Proof.
  intros Hc r s1. unfold _convert_cif_to_obj. rewrite Hc.
  change (List.find (fun kv : string * cif_converter => String.eqb (fst kv) "reliable")
                    [ ("reliable", reliable c) ]) with (Some ("reliable", reliable c)).
  unfold bind at 1. cbn [ret].
  change (List.find (fun kv : string * cif_converter => String.eqb (fst kv) "reliable")
                    [ ("reliable", reliable c) ]) with (Some ("reliable", reliable c)).
  unfold try_except, bind, get. cbv zeta.
  destruct (temp_dir s) as [d|].
  2:{ cbn. intros H. inversion H; subst. exists []. cbn. now rewrite app_nil_r. }
  cbn [reliable has_convert_cif_to_obj convert_cif_to_obj].
  unfold in_world, zoom.
  destruct (ChainFacts.parse_outcome c cif_file_path
              (PyStr.path_join d (PyStr.stem cif_file_path ++ ".obj"))
              (preferred_converter opts) (default true (include_bonds opts))
              (default 1%R (scale_factor opts)) (world_of s))
    as (res & w' & called & rest & E & Ht & _).
  rewrite E. cbn. intros H. inversion H; subst. exists called. exact Ht.
Qed.

Lemma convert_steps_parse_trace (c : ReliableCIFConverter.t) (self : t)
      (cif_file_path output_path : string) (opts : options) (s : state) :
  cif_converters self = [ ("reliable", reliable c) ] ->
  steps (info s) = [] ->
  exists r s',
    convert_steps self cif_file_path output_path opts s = (r, s')
    /\ ((length (steps (info s')) <= 1)%nat ->
        exists called,
          trace (world_of s') = trace (world_of s) ++ map ChainFacts.call called).
Proof.
  intros Hc Hsteps.
  unfold convert_steps, try_except. unfold bind at 1. unfold in_world at 1, zoom, mkdtemp.
  destruct (temp_name (kernel self) "cif_to_usdz_" (fs (world_of s))) as [d|]; cbn.
  2:{ eexists _, _. split; [reflexivity|]. intros _. exists []. cbn. now rewrite app_nil_r. }
  unfold bind at 1.
  match goal with
  | |- context [ _convert_cif_to_obj self cif_file_path opts ?s0 ] =>
      destruct (_convert_cif_to_obj self cif_file_path opts s0) as [r1 s1] eqn:E1;
      pose proof (OrchestratorFacts.convert_cif_to_obj_frame self cif_file_path opts s0 _ _ E1)
        as [Ht1 Hi1];
      apply (reliable_step_trace c self cif_file_path opts s0 Hc) in E1
  end.
  cbn in Ht1, Hi1, E1. destruct E1 as [called Htr].
  destruct r1 as [[[[obj ok1] msg1] det1]|e1]; cbn.
  2:{ eexists _, _. split; [reflexivity|]. intros _. exists called. exact Htr. }
  unfold bind at 1. unfold update_info at 1, modify.
  destruct ok1; cbn.
  2:{ eexists _, _. split; [reflexivity|]. intros _. exists called. exact Htr. }
  unfold bind at 1.
  match goal with
  | |- context [ _convert_obj_to_usdz self obj output_path opts ?s0 ] =>
      destruct (OrchestratorFacts.convert_obj_to_usdz_spec self obj output_path opts s0)
        as (ok2 & msg2 & ui & s2 & E2 & [Ht2 Hi2 _ _ _ Hwon])
  end.
  rewrite E2. cbn in Ht2, Hi2. cbn.
  unfold bind at 1. unfold update_info at 1, modify.
  destruct ok2; cbn.
  2:{ eexists _, _. split; [reflexivity|]. cbn. rewrite Hi2. cbn. rewrite Hi1, Hsteps. cbn. lia. }
  destruct (Hwon eq_refl) as [[n Hn] _].
  unfold bind, in_world, zoom, path_exists, getsize, update_info, modify, ret. cbn.
  rewrite Hn. cbn. rewrite ?Hn. cbn.
  eexists _, _. split; [reflexivity|]. cbn. rewrite Hi2. cbn. rewrite Hi1, Hsteps. cbn. lia.
Qed.

(** X14.  As long as the report holds no packaging step, the only backends a
    conversion has called are parsing backends: after a failed parsing step
    no packaging backend is run. *)
Theorem failed_parse_runs_no_packaging_backend
        (c : ReliableCIFConverter.t) (K : Kernel) (backends : gmap string usdz_converter)
        (cif_file_path output_path : string) (opts : option options) (i : instance) :
  let self := {| kernel := K; cif_converters := [ ("reliable", reliable c) ];
                 usdz_converters := backends |} in
  exists r i',
    convert_cif_to_usdz self cif_file_path output_path opts i = (r, i')
    /\ match r with
       | Ret (_, _, Some inf) =>
           (length (steps inf) <= 1)%nat ->
           exists called,
             trace (the_world i') = trace (the_world i) ++ map ChainFacts.call called
       | Ret (_, _, None) => i' = i
       | Raise _ => False
       end.
Proof.
  cbv zeta. unfold convert_cif_to_usdz. cbn [cif_converters usdz_converters].
  destruct (negb (bool_decide (is_Some (fs (the_world i) !! cif_file_path))));
    [eexists _, _; split; reflexivity|].
  destruct (bool_decide (_ = [])); [eexists _, _; split; reflexivity|].
  destruct (bool_decide (backends = ∅)); [eexists _, _; split; reflexivity|].
  match goal with
  | |- context [ convert_steps ?self cif_file_path output_path ?o ?s0 ] =>
      destruct (convert_steps_parse_trace c self cif_file_path output_path o s0
                  eq_refl eq_refl) as (r & s' & E & Htr);
      destruct (OrchestratorFacts.convert_steps_spec self cif_file_path output_path o s0)
        as (ok & msg & s'' & E' & _)
  end.
  rewrite E' in E. inversion E; subst. rewrite E'.
  eexists _, _. split; [reflexivity|]. exact Htr.
Qed.

(** *** Cleaning up *)

(** What a failed [rmtree] leaves: the directory itself and everything
    that does not lie below it, and nothing that was not there. *)
Lemma failed_rmtree_leaves (K : Kernel) (d : string) (w : world) :
  rmtree_fails K d (fs w) = true ->
  exists e w',
    rmtree K d w = (Raise e, w')
    /\ trace w' = trace w
    /\ fs w' !! d = fs w !! d
    /\ (forall p, below d p = false -> fs w' !! p = fs w !! p)
    /\ (forall p, is_Some (fs w' !! p) -> fs w' !! p = fs w !! p).
Proof.
  intros Hf. unfold rmtree. rewrite Hf. eexists _, _. split; [reflexivity|]. cbn.
  assert (Hkeep : forall p, below d p = false ->
            filter (fun kv => below d (fst kv) && rmtree_removed K d (fs w) (fst kv) = false)
                   (fs w) !! p = fs w !! p).
  { intros p Hp. destruct (fs w !! p) as [n|] eqn:E.
    - apply map_lookup_filter_Some. split; [exact E|]. cbn. now rewrite Hp.
    - apply map_lookup_filter_None. now left. }
  split; [reflexivity|]. split; [|split; [exact Hkeep|]].
  - apply Hkeep. unfold below. rewrite String.eqb_refl. apply andb_false_r.
  - intros p [n Hn]. rewrite Hn. apply map_lookup_filter_Some in Hn. symmetry. apply Hn.
Qed.

(** X15.  [_cleanup_temp_dir] never raises and a second call does nothing.  When
    the directory exists, [self.temp_dir] is cleared even if removing it
    failed.  In that case the directory itself is still there, with
    whatever [rmtree] had not removed yet, and nothing outside it has
    changed: the directory stays and a later cleanup does not try again. *)
Theorem cleanup_clears_the_name_even_on_failure (self : t) (i : instance) :
  let i1 := snd (_cleanup_temp_dir self i) in
  fst (_cleanup_temp_dir self i) = Ret tt
  /\ _cleanup_temp_dir self i1 = (Ret tt, i1)
  /\ forall d,
       self_temp_dir i = Some d -> d <> "" -> is_Some (fs (the_world i) !! d) ->
       self_temp_dir i1 = None
       /\ (rmtree_fails (kernel self) d (fs (the_world i)) = true ->
           is_Some (fs (the_world i1) !! d)
           /\ (forall p, below d p = false ->
                         fs (the_world i1) !! p = fs (the_world i) !! p)
           /\ (forall p, is_Some (fs (the_world i1) !! p) ->
                         fs (the_world i1) !! p = fs (the_world i) !! p)).
Proof.
  cbv zeta. unfold _cleanup_temp_dir.
  destruct (self_temp_dir i) as [d|] eqn:Hd.
  - destruct (negb (String.eqb d "") && bool_decide (is_Some (fs (the_world i) !! d))) eqn:Hg.
    + destruct (rmtree (kernel self) d (the_world i)) as [r w'] eqn:Hrm.
      cbn. split; [reflexivity|]. split; [reflexivity|].
      intros d' Hd' _ Hex; inversion Hd'; subst d'. split; [reflexivity|].
      intros Hf. destruct (failed_rmtree_leaves (kernel self) d (the_world i) Hf)
        as (e & w1 & Hrun & _ & Hdir & Hout & Hin).
      rewrite Hrun in Hrm. inversion Hrm; subst r w'.
      split; [now rewrite Hdir|]. split; assumption.
    + cbn. rewrite Hd, Hg. split; [reflexivity|]. split; [reflexivity|].
      intros d' Hd' Hne Hex. inversion Hd'; subst d'.
      apply String.eqb_neq in Hne. rewrite Hne in Hg.
      rewrite (bool_decide_eq_true_2 _ Hex) in Hg. discriminate.
  - cbn. rewrite Hd. split; [reflexivity|]. split; [reflexivity|]. intros d H. discriminate.
Qed.

End ReportFacts.

(** ** The Docker backend under the orchestrator *)

Module DockerFacts.
Import CIFToUSDZConverter.
Local Open Scope eff_scope.

Definition docker_priority : priority :=
  {| name := "Docker USD"; key := "docker_usd"; method := "convert_obj_to_usdz" |}.

(** The record a pass of the loop leaves for the Docker backend. *)
Definition docker_record : attempt :=
  {| converter := "Docker USD"; success := false;
     message := "Docker USD转换器执行异常: DockerUsdzConverter.convert_obj_to_usdz() takes 3 positional arguments but 4 were given";
     error_type := Some "exception" |}.

(** The records of the Docker backend all are that of an exception. *)
Definition docker_failed (a : attempt) : Prop :=
  converter a = "Docker USD" -> success a = false /\ error_type a = Some "exception".

(** One pass of the loop on the Docker backend: the availability check
    raises and is ignored, the conversion call raises and is recorded. *)
Lemma docker_pass (self : t) (d : DockerUsdzConverter.t)
      (obj_file_path output_path : string) (mtl_file_path : option string) (s : state) :
  usdz_converters self !! "docker_usd" = Some (DockerUsdzConverter.as_backend d) ->
  try_backend self docker_priority obj_file_path output_path mtl_file_path s
  = (Ret None,
     {| world_of := {| fs := fs (world_of s);
                       trace := trace (world_of s) ++ [ Called "docker_usd" "convert_obj_to_usdz" ] |};
        temp_dir := temp_dir s; info := info s;
        attempts_so_far := attempts_so_far s ++ [ docker_record ] |}).
Proof.
  intros H. unfold try_backend. cbn [key docker_priority]. rewrite H. reflexivity.
Qed.

#[local] Arguments try_backend : simpl never.

(** A pass of the loop on another backend leaves no record under the name
    of the Docker backend. *)
Lemma other_pass (self : t) (p : priority) (obj_file_path output_path : string)
      (mtl_file_path : option string) (s : state) :
  name p <> "Docker USD" -> key p <> "docker_usd" ->
  Forall docker_failed (attempts_so_far s) ->
  forall r s',
    try_backend self p obj_file_path output_path mtl_file_path s = (r, s') ->
    Forall docker_failed (attempts_so_far s')
    /\ match r with
       | Ret (Some (_, _, ui)) =>
           used_converter ui <> Some "docker_usd"
           /\ conversion_attempts ui = attempts_so_far s'
       | Ret None => True
       | Raise _ => False
       end.
Proof.
  intros Hn Hk Hall r s' H.
  apply OrchestratorFacts.try_backend_spec in H.
  destruct H as [_ _ (a & Ha & Hc & Hr) _].
  split.
  - rewrite Ha. apply Forall_app. split; [exact Hall|].
    constructor; [|constructor]. intros Hd. congruence.
  - destruct r as [[[[ok msg] ui]|]|e]; [|exact I|exact Hr].
    destruct Hr as (_ & _ & _ & Hu & _ & Hca & _). split; [|exact Hca].
    rewrite Hu. intros Heq. inversion Heq. contradiction.
Qed.

(** X16.  Through the orchestrator the Docker backend never converts anything:
    the loop's call of [is_available] and its call of [convert_obj_to_usdz]
    with three arguments both raise, so whenever the loop reaches the
    Docker backend it records an exception for it, and the backend used is
    never the Docker one. *)
Theorem docker_backend_always_ends_in_an_exception
        (self : t) (d : DockerUsdzConverter.t) (obj_file_path output_path : string)
        (opts : options) (s : state) :
  usdz_converters self !! "docker_usd" = Some (DockerUsdzConverter.as_backend d) ->
  exists ok msg ui s',
    _convert_obj_to_usdz self obj_file_path output_path opts s = (Ret (ok, msg, ui), s')
    /\ used_converter ui <> Some "docker_usd"
    /\ Forall docker_failed (conversion_attempts ui).
Proof.
  intros Hd.
  unfold _convert_obj_to_usdz, try_except. unfold bind at 1.
  unfold set_attempts at 1, modify. unfold bind at 1.
  unfold in_world at 1, zoom, path_exists. cbn [world_of].
  unfold bind at 1. cbn [try_backends converter_priority]. unfold bind at 1.
  match goal with
  | |- context [ try_backend self ?p obj_file_path output_path ?m ?s0 ] =>
      destruct (try_backend self p obj_file_path output_path m s0) as [r1 s1] eqn:E1;
      apply (other_pass self p) in E1; [|discriminate|discriminate|constructor]
  end.
  destruct E1 as [Hall1 Hr1].
  destruct r1 as [[[[ok msg] ui]|]|e]; [| |contradiction].
  { destruct Hr1 as [Hu Hca]. eexists _, _, _, _. split; [reflexivity|].
    split; [exact Hu|]. now rewrite Hca. }
  unfold bind at 1.
  match goal with
  | |- context [ try_backend self ?p obj_file_path output_path ?m s1 ] =>
      destruct (try_backend self p obj_file_path output_path m s1) as [r2 s2] eqn:E2;
      apply (other_pass self p) in E2; [|discriminate|discriminate|exact Hall1]
  end.
  destruct E2 as [Hall2 Hr2].
  destruct r2 as [[[[ok msg] ui]|]|e]; [| |contradiction].
  { destruct Hr2 as [Hu Hca]. eexists _, _, _, _. split; [reflexivity|].
    split; [exact Hu|]. now rewrite Hca. }
  unfold bind at 1.
  change {| name := "Docker USD"; key := "docker_usd"; method := "convert_obj_to_usdz" |}
    with docker_priority.
  rewrite (docker_pass self d _ _ _ s2 Hd). cbn.
  eexists _, _, _, _. split; [reflexivity|]. cbn. split; [discriminate|].
  apply Forall_app. split; [exact Hall2|].
  constructor; [|constructor]. intros _. now split.
Qed.

(** A converter whose only packaging backend is the Docker one. *)
Definition docker_object : DockerUsdzConverter.t :=
  {| DockerUsdzConverter.is_available := true;
     DockerUsdzConverter.run := fun _ out files =>
       (Ret (true, "Docker USDZ转换成功"),
        <[ out := {| is_dir := false; size := 2048 |} ]> files) |}.

Definition docker_only : t :=
  {| kernel := OrchestratorFacts.example_kernel;
     cif_converters := [ ("reliable", reliable FallbackFacts.example_self) ];
     usdz_converters := {[ "docker_usd" := DockerUsdzConverter.as_backend docker_object ]} |}.

Lemma docker_backend_witness :
  exists ok msg ui s',
    _convert_obj_to_usdz docker_only "/tmp/NaCl.obj" "NaCl.usdz" no_options
                         OrchestratorFacts.example_state
    = (Ret (ok, msg, ui), s')
    /\ used_converter ui <> Some "docker_usd"
    /\ Forall docker_failed (conversion_attempts ui).
Proof.
  apply (docker_backend_always_ends_in_an_exception docker_only docker_object).
  reflexivity.
Defined.

End DockerFacts.

(** ** The material standardizer: the tiers, and the files it rewrites *)

Module TierFacts.
Import MaterialStandardizer StandardizerFacts.

(** *** The first tier: names *)

(** X17.  The three spellings the docstring of [_extract_element_from_name]
    lists -- the bare symbol, "atom_" before it, "_MAT" after it -- are read
    back as the element, for every element of the colour table; the last
    is the name [get_standard_material_name] gives. *)
Theorem element_names_are_read_back :
  Forall (fun e =>
            _extract_element_from_name e = Some e
            /\ _extract_element_from_name ("atom_" ++ e) = Some e
            /\ _extract_element_from_name (e ++ "_MAT") = Some e
            /\ get_standard_material_name e = (e ++ "_MAT")%string)
         (keys STANDARD_CPK_COLORS).
Proof.
  apply List.Forall_forall. intros e Hin.
  assert (Hb : forallb (fun e =>
                 match _extract_element_from_name e,
                       _extract_element_from_name ("atom_" ++ e),
                       _extract_element_from_name (e ++ "_MAT") with
                 | Some a, Some b, Some c => String.eqb a e && String.eqb b e && String.eqb c e
                 | _, _, _ => false
                 end && String.eqb (get_standard_material_name e) (e ++ "_MAT"))
               (keys STANDARD_CPK_COLORS) = true) by (vm_compute; reflexivity).
  rewrite forallb_forall in Hb. specialize (Hb e Hin).
  apply andb_prop in Hb. destruct Hb as [Hb Hn].
  destruct (_extract_element_from_name e) as [a|]; [|discriminate].
  destruct (_extract_element_from_name ("atom_" ++ e)) as [b|]; [|discriminate].
  destruct (_extract_element_from_name (e ++ "_MAT")) as [c|]; [|discriminate].
  apply andb_prop in Hb. destruct Hb as [Hb Hc]. apply andb_prop in Hb. destruct Hb as [Ha Hb].
  apply String.eqb_eq in Ha, Hb, Hc, Hn. subst. auto.
Qed.

(** *** The second tier: colours *)





(** Equality of two colours as written. *)
Definition same_q (a b : Q) : bool := (Qnum a =? Qnum b)%Z && (Qden a =? Qden b)%positive.

Definition same_color (a b : color) : bool :=
  let '(r1, g1, b1) := a in
  let '(r2, g2, b2) := b in
  same_q r1 r2 && same_q g1 g2 && same_q b1 b2.

Lemma same_q_eq (a b : Q) : same_q a b = true -> a = b.
Proof.
  destruct a as [n d], b as [n' d']. unfold same_q. cbn. intros H.
  apply andb_prop in H. destruct H as [H1 H2].
  apply Z.eqb_eq in H1. apply Pos.eqb_eq in H2. now subst.
Qed.

Lemma same_color_eq (a b : color) : same_color a b = true -> a = b.
Proof.
  destruct a as [[r1 g1] b1], b as [[r2 g2] b2]. cbn. intros H.
  apply andb_prop in H. destruct H as [H H3]. apply andb_prop in H. destruct H as [H1 H2].
  apply same_q_eq in H1, H2, H3. now subst.
Qed.

(** X19.  Every standard colour is matched back to its own element: no two
    elements of the table are confused by the second tier. *)
Theorem standard_colors_match_their_element :
  Forall (fun kv => _match_element_by_color (snd kv) = Some (fst kv)
                    /\ get_standard_color (fst kv) = snd kv)
         STANDARD_CPK_COLORS.
Proof.
  apply List.Forall_forall. intros kv Hin.
  assert (Hb : forallb (fun kv =>
                 match _match_element_by_color (snd kv) with
                 | Some e => String.eqb e (fst kv)
                 | None => false
                 end
                 && match dict_get STANDARD_CPK_COLORS (_clean_element_symbol (fst kv)) with
                    | Some c => same_color c (snd kv)
                    | None => false
                    end) STANDARD_CPK_COLORS = true) by (vm_compute; reflexivity).
  rewrite forallb_forall in Hb. specialize (Hb kv Hin).
  apply andb_prop in Hb. destruct Hb as [H1 H2]. split.
  - destruct (_match_element_by_color (snd kv)) as [e|]; [|discriminate].
    apply String.eqb_eq in H1. now subst.
  - unfold get_standard_color.
    destruct (dict_get STANDARD_CPK_COLORS (_clean_element_symbol (fst kv))) as [c|];
      [|discriminate].
    apply same_color_eq in H2. now subst.
Qed.

(** *** Cleaning a symbol *)













(** *** Reading and writing the files *)

(** X21.  [_update_obj_file] changes "usemtl" lines only: a line that names a
    material of the mapping gets the new name and loses whatever followed
    the name; every other line is kept, in place.  With an empty mapping
    the file is not even opened.  It raises only with a mapping that is not
    empty: when the file is missing or cannot be read, or holds a "usemtl"
    line without a name -- the file is untouched then -- and when writing
    the new lines fails, which leaves what the failed write leaves. *)
Theorem update_obj_file_changes_usemtl_lines_only
        (D : Disk) (M : list (string * mapping)) (obj : option (list obj_line)) :
  match _update_obj_file D M obj with
  | (Ret _, obj') =>
      match obj with
      | Some lines =>
          exists lines',
            obj' = Some lines'
            /\ Forall2 (fun l l' =>
                          match l with
                          | Usemtl old _ =>
                              match dict_get M old with
                              | Some m => l' = Usemtl (new_name m) ""
                              | None => l' = l
                              end
                          | _ => l' = l
                          end) lines lines'
      | None => obj' = None /\ M = []
      end
  | (Raise e, obj') =>
      M <> []
      /\ match obj with
         | None => obj' = None
         | Some lines =>
             (obj' = obj
              /\ (read_obj_error D lines = Some e \/ In UsemtlBare lines))
             \/ (In UsemtlBare lines -> False)
                /\ read_obj_error D lines = None
                /\ write_obj_error D lines (map (relink M) lines) = Some (e, obj')
         end
  end.
Proof.
  unfold _update_obj_file. destruct M as [|kv M].
  - destruct obj as [lines|]; [|now split].
    exists lines. split; [reflexivity|].
    induction lines as [|l lines IH]; constructor; [|exact IH].
    now destruct l.
  - destruct obj as [lines|]; [|split; [discriminate|reflexivity]].
    destruct (read_obj_error D lines) as [e|] eqn:Er.
    { split; [discriminate|]. left. split; [reflexivity|now left]. }
    rewrite update_lines_spec. destruct (existsb is_bare lines) eqn:E.
    + split; [discriminate|]. left. split; [reflexivity|]. right.
      apply existsb_exists in E. destruct E as [l [Hin Hl]].
      destruct l; try discriminate. exact Hin.
    + assert (Hnone : In UsemtlBare lines -> False).
      { intros Hin. assert (Ht : existsb is_bare lines = true).
        { apply existsb_exists. exists UsemtlBare. now split. }
        congruence. }
      destruct (write_obj_error D lines (map (relink (kv :: M)) lines)) as [[e remains]|] eqn:Ew.
      * split; [discriminate|]. right. repeat split; assumption.
      * exists (map (relink (kv :: M)) lines). split; [reflexivity|].
        clear E Hnone Ew Er. induction lines as [|l lines IH]; constructor; [|exact IH].
        destruct l; try reflexivity. cbn [relink]. now destruct (dict_get (kv :: M) name).
Qed.

(** X22.  When [_rewrite_mtl_file] returns, the file it wrote is read back by
    [_parse_mtl_file] as one material per entry of the mapping, in order,
    under the new name and with the colour rounded to six decimals, as
    long as no two entries share a new name.  It raises only when writing
    the file fails. *)
Theorem rewritten_mtl_reads_back
        (D : Disk) (M : list (string * mapping)) (mtl : option (list mtl_line)) :
  M <> [] ->
  List.NoDup (map (fun kv => new_name (snd kv)) M) ->
  match _rewrite_mtl_file D M mtl with
  | (Ret _, mtl') =>
      _parse_mtl_file mtl'
      = map (fun kv => (new_name (snd kv), round6_color (color_of (snd kv)))) M
  | (Raise e, mtl') => write_mtl_error D mtl (rewritten M) = Some (e, mtl')
  end.
Proof.
  intros Hne Hnd. unfold _rewrite_mtl_file. destruct M as [|kv M]; [contradiction|].
  cbv zeta. fold (rewritten (kv :: M)).
  destruct (write_mtl_error D mtl (rewritten (kv :: M))) as [[e remains]|]; [reflexivity|].
  rewrite parse_rewritten. unfold fill.
  rewrite (fill_nodup (map entry (kv :: M)) []); [reflexivity|].
  cbn [app]. unfold keys. rewrite map_map. exact Hnd.
Qed.

Lemma rewritten_mtl_witness :
  _parse_mtl_file
    (snd (_rewrite_mtl_file no_faults
       [ ("atom_Na", {| new_name := "Na_MAT"; element := "Na"; color_of := (0.67, 0.36, 0.95)%Q |});
         ("atom_Cl", {| new_name := "Cl_MAT"; element := "Cl"; color_of := (0, 1, 0)%Q |}) ]
       None))
  = map (fun kv => (new_name (snd kv), round6_color (color_of (snd kv))))
        [ ("atom_Na", {| new_name := "Na_MAT"; element := "Na"; color_of := (0.67, 0.36, 0.95)%Q |});
          ("atom_Cl", {| new_name := "Cl_MAT"; element := "Cl"; color_of := (0, 1, 0)%Q |}) ].
Proof.
  apply (rewritten_mtl_reads_back no_faults
           [ ("atom_Na", {| new_name := "Na_MAT"; element := "Na";
                            color_of := (0.67, 0.36, 0.95)%Q |});
             ("atom_Cl", {| new_name := "Cl_MAT"; element := "Cl";
                            color_of := (0, 1, 0)%Q |}) ] None);
    [discriminate|].
  cbn. repeat (constructor; [cbn; intuition discriminate|]). constructor.
Defined.

(** The loop from any state in which a material is current or a "newmtl"
    line is still to come: it stops at the unreadable "Kd" line. *)
Lemma malformed_kd_cut (before after : list mtl_line) :
  forall cur acc,
    (is_Some cur \/ exists n, In (Newmtl n) before) ->
    parse_lines (before ++ KdMalformed :: after) cur acc = parse_lines before cur acc.
Proof.
  induction before as [|line before IH]; intros cur acc H.
  - destruct H as [[m ->]|[n []]]. reflexivity.
  - cbn [app]. destruct line, cur as [m|]; cbn [parse_lines]; try reflexivity; apply IH;
      first [ left; eexists; reflexivity
            | destruct H as [[m' H]|[n0 [H|H]]];
              [ discriminate H | discriminate H | right; eauto ] ].
Qed.

(** A "Kd" line with fewer than three operands is passed over. *)
Lemma short_kd_skipped (before after : list mtl_line) :
  forall cur acc,
    parse_lines (before ++ KdShort :: after) cur acc = parse_lines (before ++ after) cur acc.
Proof.
  induction before as [|line before IH]; intros cur acc.
  - cbn [app parse_lines]. now destruct cur.
  - cbn [app]. destruct line, cur as [m|]; cbn [parse_lines]; try reflexivity; apply IH.
Qed.

(** X23.  A "Kd" line with three operands of which one is not a number ends
    the parse: once a "newmtl" line has come before, the materials after
    it are not seen, whatever follows.  A "Kd" line with fewer than three
    operands does not: the parse goes on as if the line were not there. *)
Theorem malformed_kd_ends_the_parse (before after : list mtl_line) (n : string) :
  In (Newmtl n) before ->
  _parse_mtl_file (Some (before ++ KdMalformed :: after)) = _parse_mtl_file (Some before)
  /\ _parse_mtl_file (Some (before ++ KdShort :: after))
     = _parse_mtl_file (Some (before ++ after)).
Proof.
  intros H. unfold _parse_mtl_file. split.
  - apply malformed_kd_cut. right. eauto.
  - apply short_kd_skipped.
Qed.

Lemma malformed_kd_witness :
  _parse_mtl_file (Some ([ Newmtl "atom_Na"; Kd (0.67, 0.36, 0.95)%Q ]
                         ++ KdMalformed :: [ Newmtl "atom_Cl"; Kd (0, 1, 0)%Q ]))
  = _parse_mtl_file (Some [ Newmtl "atom_Na"; Kd (0.67, 0.36, 0.95)%Q ])
  /\ _parse_mtl_file (Some ([ Newmtl "atom_Na"; Kd (0.67, 0.36, 0.95)%Q ]
                            ++ KdShort :: [ Newmtl "atom_Cl"; Kd (0, 1, 0)%Q ]))
     = _parse_mtl_file (Some ([ Newmtl "atom_Na"; Kd (0.67, 0.36, 0.95)%Q ]
                              ++ [ Newmtl "atom_Cl"; Kd (0, 1, 0)%Q ])).
Proof. apply (malformed_kd_ends_the_parse _ _ "atom_Na"). now left. Defined.

(** *** What a pass leaves in the files *)

Lemma key_clean (e : string) :
  In e (keys STANDARD_CPK_COLORS) -> _clean_element_symbol e = e.
Proof.
  intros H. apply in_map_iff in H. destruct H as [kv [<- Hin]].
  pose proof table_canonical as Ht. rewrite forallb_forall in Ht. specialize (Ht kv Hin).
  unfold canonical_entry in Ht. apply andb_prop in Ht. destruct Ht as [H1 _].
  now apply String.eqb_eq in H1.
Qed.

Lemma keys_fill (l : list (string * color)) :
  forall acc k, In k (keys acc) \/ In k (keys l) -> In k (keys (fill l acc)).
Proof.
  induction l as [|[k0 v0] l IH]; intros acc k H.
  - destruct H as [H|[]]. exact H.
  - cbn [fill fold_left fst snd]. apply IH. rewrite keys_dict_set.
    destruct H as [H|[<-|H]]; [left|left|right; exact H].
    + destruct (dict_get acc k0); [exact H|]. apply in_or_app. now left.
    + destruct (dict_get acc k0) eqn:E; [|apply in_or_app; right; now left].
      apply dict_get_in in E. apply (in_map fst) in E. exact E.
Qed.

Lemma dict_get_key {V} (d : list (string * V)) (k : string) :
  In k (keys d) -> is_Some (dict_get d k).
Proof.
  intros H. destruct (dict_get d k) eqn:E; [eauto|].
  apply dict_get_None in E. contradiction.
Qed.

(** Two colours that are the same numbers. *)
Definition color_eq (a b : color) : Prop :=
  let '(r1, g1, b1) := a in
  let '(r2, g2, b2) := b in
  (r1 == r2 /\ g1 == g2 /\ b1 == b2)%Q.

(** The standard colours have at most six decimals. *)
Lemma round6_standard :
  Forall (fun kv => color_eq (round6_color (snd kv)) (snd kv)) STANDARD_CPK_COLORS.
Proof.
  apply List.Forall_forall. intros kv Hin.
  assert (Hb : forallb (fun kv =>
                 let '(r1, g1, b1) := round6_color (snd kv) in
                 let '(r2, g2, b2) := snd kv in
                 Qeq_bool r1 r2 && Qeq_bool g1 g2 && Qeq_bool b1 b2)
               STANDARD_CPK_COLORS = true) by (vm_compute; reflexivity).
  rewrite forallb_forall in Hb. specialize (Hb kv Hin). unfold color_eq.
  destruct (round6_color (snd kv)) as [[r1 g1] b1], (snd kv) as [[r2 g2] b2].
  apply andb_prop in Hb. destruct Hb as [Hb H3]. apply andb_prop in Hb. destruct Hb as [H1 H2].
  apply Qeq_bool_iff in H1, H2, H3. auto.
Qed.

(** X24.  With the standard colours asked for, a pass that resolves a material
    and succeeds leaves an MTL file whose every material is "<E>_MAT" for
    an element E of the table, with the standard colour of E. *)
Theorem standard_colors_are_applied (D : Disk) (m : mesh) :
  _analyze_materials false (mtl_file m) <> [] ->
  fst (standardize_obj_materials D m false) = true ->
  Forall (fun kv =>
            exists e c,
              In (e, c) STANDARD_CPK_COLORS
              /\ fst kv = (e ++ "_MAT")%string
              /\ color_eq (snd kv) c)
         (material_table (snd (standardize_obj_materials D m false))).
Proof.
  intros HM Hok.
  destruct (successful_pass D m false Hok) as [[HM' _]|(lines & _ & Hobj & Hbare & H1)].
  - contradiction.
  - rewrite H1. cbn [snd]. unfold material_table. cbn [mtl_file]. rewrite parse_rewritten.
    destruct (pass_table false _ (analyze_analyzed false (_parse_mtl_file (mtl_file m))))
      as [Hs _].
    eapply List.Forall_impl; [|exact Hs].
    intros [n c] (e & He & Hn & Hc). cbn [fst snd] in *.
    apply extracted_in in He. pose proof (key_canonical e He) as [Hname _].
    destruct (dict_get_key _ _ He) as [sc Hsc].
    exists e, sc. split; [now apply dict_get_in|]. split; [congruence|].
    rewrite Hc. unfold get_standard_color. rewrite (key_clean e He), Hsc. cbn.
    pose proof round6_standard as Hr. rewrite List.Forall_forall in Hr.
    exact (Hr (e, sc) (dict_get_in _ _ _ Hsc)).
Qed.

Lemma standard_colors_witness :
  Forall (fun kv =>
            exists e c,
              In (e, c) STANDARD_CPK_COLORS
              /\ fst kv = (e ++ "_MAT")%string
              /\ color_eq (snd kv) c)
         (material_table (snd (standardize_obj_materials no_faults rock_salt false))).
Proof.
  apply standard_colors_are_applied; [vm_compute; discriminate|vm_compute; reflexivity].
Defined.

(** X25.  A pass that succeeds keeps the two files in step for the materials it
    renames: a "usemtl" line that named a resolved material names its new
    name afterwards, and the MTL file defines that name. *)
Theorem renamed_references_stay_defined
        (D : Disk) (m : mesh) (p : bool) (lines : list obj_line) (old rest : string)
        (mp : mapping) :
  fst (standardize_obj_materials D m p) = true ->
  obj_file m = Some lines ->
  In (Usemtl old rest) lines ->
  dict_get (_analyze_materials p (mtl_file m)) old = Some mp ->
  exists lines',
    obj_file (snd (standardize_obj_materials D m p)) = Some lines'
    /\ In (Usemtl (new_name mp) "") lines'
    /\ is_Some (dict_get (material_table (snd (standardize_obj_materials D m p)))
                         (new_name mp)).
Proof.
  intros Hok Hobj Hin Hget.
  destruct (successful_pass D m p Hok) as [[HM _]|(lines0 & _ & Hobj0 & Hbare & H1)].
  - rewrite HM in Hget. discriminate.
  - rewrite H1. cbn [snd obj_file]. rewrite Hobj in Hobj0. inversion Hobj0; subst lines0.
    eexists. split; [reflexivity|]. split.
    + apply (in_map (relink (_analyze_materials p (mtl_file m)))) in Hin.
      cbn [relink] in Hin. now rewrite Hget in Hin.
    + unfold material_table. cbn [mtl_file]. rewrite parse_rewritten.
      apply dict_get_key, keys_fill. right.
      apply dict_get_in in Hget. apply (in_map entry) in Hget.
      apply (in_map fst) in Hget. exact Hget.
Qed.

Lemma renamed_references_witness :
  exists lines',
    obj_file (snd (standardize_obj_materials no_faults rock_salt false)) = Some lines'
    /\ In (Usemtl "Na_MAT" "") lines'
    /\ is_Some (dict_get (material_table
                            (snd (standardize_obj_materials no_faults rock_salt false)))
                         "Na_MAT").
Proof.
  refine (renamed_references_stay_defined no_faults rock_salt false _ "atom_Na" ""
            {| new_name := "Na_MAT"; element := "Na"; color_of := (0.67, 0.36, 0.95)%Q |}
            _ eq_refl _ _).
  - vm_compute. reflexivity.
  - cbn. right. right. right. now left.
  - vm_compute. reflexivity.
Defined.




End TierFacts.
